(** * Bot project deployment

    A shallow embedding of [Composer/packages/lib/bot-deploy/src/botProjectDeploy.ts]
    (class [BotProjectDeploy]): the JavaScript values the code handles, the
    file system, the logger and the remote services it talks to, and the
    methods [publishLuis], [deploy], [zipDirectory], [unpackObject],
    [updateDeploymentJsonFile] and [create], followed by the properties
    established about them. *)

From Stdlib Require Import List String Ascii ZArith Bool Lia DecimalString.
Import ListNotations.
Local Open Scope string_scope.

(** ** JavaScript values

    The values that flow through the code are what [JSON.parse] returns, plus
    [undefined].  An object keeps its properties in insertion order, as an
    association list read at the first match: that is the order of JavaScript
    but for the names that look like array indices, which it enumerates first,
    so a result that depends on the order is stated for objects without such
    names.  Numbers are integers: the code asks of a number whether it is
    zero, and prints it in a message. *)
Module Js.

#[local] Set Warnings "-register-all".

Inductive JValue : Type :=
| JUndefined
| JNull
| JBool (b : bool)
| JNum (n : Z)
| JStr (s : string)
| JArr (elems : list JValue)
| JObj (fields : list (string * JValue)).

(** [if (v)], [!v], [a && b]: the ToBoolean conversion. *)
Definition truthy (v : JValue) : bool :=
  match v with
  | JUndefined | JNull => false
  | JBool b => b
  | JNum n => negb (n =? 0)%Z
  | JStr s => negb (s =? "")
  | JArr _ | JObj _ => true
  end.

Definition nullish (v : JValue) : bool :=
  match v with
  | JUndefined | JNull => true
  | _ => false
  end.

Fixpoint lookup (fields : list (string * JValue)) (k : string) : option JValue :=
  match fields with
  | [] => None
  | (k', v) :: rest => if k' =? k then Some v else lookup rest k
  end.

Definition has_key (fields : list (string * JValue)) (k : string) : bool :=
  match lookup fields k with
  | Some _ => true
  | None => false
  end.

(** [obj[k] = v] on an object: an existing property keeps its place, a new one
    goes last.  (For the name [__proto__] JavaScript calls the setter of the
    prototype instead; what is said of an object filled this way is said for
    other names.) *)
Fixpoint set_field (fields : list (string * JValue)) (k : string) (v : JValue)
  : list (string * JValue) :=
  match fields with
  | [] => [(k, v)]
  | (k', v') :: rest =>
      if k' =? k then (k, v) :: rest else (k', v') :: set_field rest k v
  end.

Definition string_of_nat (n : nat) : string :=
  NilZero.string_of_uint (Nat.to_uint n).

Definition string_of_Z (z : Z) : string :=
  NilZero.string_of_int (Z.to_int z).

Fixpoint indexed_from {A : Type} (i : nat) (l : list A) : list (string * A) :=
  match l with
  | [] => []
  | x :: rest => (string_of_nat i, x) :: indexed_from (S i) rest
  end.

Fixpoint chars (s : string) : list JValue :=
  match s with
  | EmptyString => []
  | String c rest => JStr (String c EmptyString) :: chars rest
  end.

(** The own enumerable properties of a value, in the order [for (k in v)] and
    [Object.assign] visit them: the fields of an object (in insertion order,
    the order of JavaScript when no name is an array index), the indices of an
    array or of a string, nothing for the other primitives. *)
Definition own_props (v : JValue) : list (string * JValue) :=
  match v with
  | JObj fields => fields
  | JArr elems => indexed_from 0 elems
  | JStr s => indexed_from 0 (chars s)
  | _ => []
  end.

Definition keys (v : JValue) : list string := map fst (own_props v).

(** [v[k]] and [v.k] for [v] neither [null] nor [undefined].  The property
    names the code reads ([value], [luis], [error], [message], ...) are never
    [length] nor inherited ones, so a property that is not an own one reads as
    [undefined]. *)
Definition get (v : JValue) (k : string) : JValue :=
  match lookup (own_props v) k with
  | Some x => x
  | None => JUndefined
  end.

(** [v.k] where [v] may be [null] or [undefined]: reading a property of those
    throws a TypeError, here [None]. *)
Definition get_strict (v : JValue) (k : string) : option JValue :=
  if nullish v then None else Some (get v k).

(** [v?.k]. *)
Definition get_opt (v : JValue) (k : string) : JValue :=
  if nullish v then JUndefined else get v k.

(** [Object.assign(target, source)]: every own enumerable property of the
    source is set on the target, in order; a [null] or [undefined] source has
    none. *)
Definition Object_assign (target : list (string * JValue)) (source : JValue)
  : list (string * JValue) :=
  fold_left (fun t kv => set_field t (fst kv) (snd kv)) (own_props source) target.

Fixpoint join (sep : string) (l : list string) : string :=
  match l with
  | [] => ""
  | [s] => s
  | s :: rest => s ++ sep ++ join sep rest
  end.

(** The ToString conversion of a template literal [`${v}`].  A number is
    printed with all its digits, as JavaScript prints the integers below
    2^53. *)
Fixpoint to_js_string (v : JValue) : string :=
  match v with
  | JUndefined => "undefined"
  | JNull => "null"
  | JBool true => "true"
  | JBool false => "false"
  | JNum n => string_of_Z n
  | JStr s => s
  | JArr elems =>
      join ","
        ((fix each (l : list JValue) : list string :=
            match l with
            | [] => []
            | x :: rest =>
                (if nullish x then "" else to_js_string x) :: each rest
            end) elems)
  | JObj _ => "[object Object]"
  end.

(** [s.includes(t)], [s.endsWith(t)], [s.indexOf(t)]. *)
Definition includes (s t : string) : bool :=
  match String.index 0 t s with
  | Some _ => true
  | None => false
  end.

Definition endsWith (s t : string) : bool :=
  (String.length t <=? String.length s)%nat
  && (substring (String.length s - String.length t) (String.length t) s =? t).

Definition indexOf (s t : string) : Z :=
  match String.index 0 t s with
  | Some i => Z.of_nat i
  | None => (-1)%Z
  end.

(** What survives [JSON.stringify]: properties holding [undefined] are left
    out of an object, and [undefined] inside an array becomes [null]. *)
Fixpoint jsonify (v : JValue) : JValue :=
  match v with
  | JArr elems =>
      JArr ((fix each (l : list JValue) : list JValue :=
               match l with
               | [] => []
               | JUndefined :: rest => JNull :: each rest
               | x :: rest => jsonify x :: each rest
               end) elems)
  | JObj fields =>
      JObj ((fix each (l : list (string * JValue)) : list (string * JValue) :=
               match l with
               | [] => []
               | (_, JUndefined) :: rest => each rest
               | (k, x) :: rest => (k, jsonify x) :: each rest
               end) fields)
  | _ => v
  end.

(** *** Where the model of objects and of conversions is exact

    [obj[k] = v] and [Object.assign] add or replace an own property for every
    name but [__proto__], which they hand to the setter of the prototype; and
    an object enumerates its properties in insertion order but for the names
    that are array indices, which come first, in ascending order.  A name is
    plain when it is neither: not [__proto__], and not made of digits only. *)
Definition is_digit (c : ascii) : bool :=
  (48 <=? nat_of_ascii c)%nat && (nat_of_ascii c <=? 57)%nat.

Fixpoint all_digits (s : string) : bool :=
  match s with
  | EmptyString => true
  | String c rest => is_digit c && all_digits rest
  end.

Definition index_like (k : string) : bool := negb (k =? "") && all_digits k.

Definition plain_key (k : string) : bool := negb (k =? "__proto__") && negb (index_like k).

(** The values a template literal prints as [to_js_string] has it: the
    primitives, a number being one of the integers JavaScript represents
    exactly and prints with all their digits. *)
Definition prints_exactly (v : JValue) : bool :=
  match v with
  | JNum n => (Z.abs n <? 2 ^ 53)%Z
  | JArr _ | JObj _ => false
  | _ => true
  end.

End Js.
Import Js.

(** ** Text, files and the things that can be thrown *)

(** A piece of text the code hands to [JSON.parse] or gets from
    [JSON.stringify] (a file's content, the body of an HTTP response) is
    represented by the JSON value it denotes when it denotes one, and by its
    characters otherwise. *)
Inductive Text : Type :=
| JsonText (v : JValue)
| RawText (s : string).

Definition JSON_parse (t : Text) : option JValue :=
  match t with
  | JsonText v => Some v
  | RawText _ => None
  end.

(** Paths are absolute and normalised, one string per segment. *)
Definition Path : Type := list string.

Definition path_eq_dec : forall p q : Path, {p = q} + {p <> q} :=
  list_eq_dec string_dec.

Definition path_eqb (p q : Path) : bool :=
  if path_eq_dec p q then true else false.

(** [path.join(p, a)] and [path.resolve(p, a)] for a plain name [a]. *)
Definition path_join (p : Path) (a : string) : Path := (p ++ [a])%list.

(** The string the code sees for a path. *)
Definition path_string (p : Path) : string :=
  fold_left (fun acc a => acc ++ "/" ++ a) p "".

(** [relative_to dir p] is the path of [p] below [dir], when [p] lies
    strictly below it. *)
Fixpoint relative_to (dir p : Path) : option Path :=
  match dir, p with
  | [], [] => None
  | [], _ :: _ => Some p
  | a :: dir', b :: p' => if a =? b then relative_to dir' p' else None
  | _ :: _, [] => None
  end.

Definition below (dir p : Path) : bool :=
  match relative_to dir p with
  | Some _ => true
  | None => false
  end.

Inductive Node : Type :=
| Dir
| File (t : Text)
| Zip (entries : list Path).

(** The file system: every node with its path, in the order [readdir] lists
    them (directories expanded in place). *)
Definition Store : Type := list (Path * Node).

Fixpoint find_node (s : Store) (p : Path) : option Node :=
  match s with
  | [] => None
  | (q, n) :: rest => if path_eqb q p then Some n else find_node rest p
  end.

(** The root is a directory; everything else is what the store holds. *)
Definition stat (s : Store) (p : Path) : option Node :=
  match p with
  | [] => Some Dir
  | _ => find_node s p
  end.

Definition is_dir (s : Store) (p : Path) : bool :=
  match stat s p with
  | Some Dir => true
  | _ => false
  end.

Definition parent (p : Path) : Path := removelast p.

Fixpoint put (s : Store) (p : Path) (n : Node) : Store :=
  match s with
  | [] => [(p, n)]
  | (q, m) :: rest => if path_eqb q p then (p, n) :: rest else (q, m) :: put rest p n
  end.

(** [fs.remove(p)]: the node and everything below it. *)
Definition remove_tree (s : Store) (p : Path) : Store :=
  filter (fun e => negb (path_eqb (fst e) p || below p (fst e))) s.

Definition is_file_node (n : Node) : bool :=
  match n with
  | Dir => false
  | _ => true
  end.

(** The paths [getFiles(dir)] returns: every node that is not a directory,
    anywhere below [dir]. *)
Definition files_below (s : Store) (dir : Path) : list Path :=
  map fst (filter (fun e => below dir (fst e) && is_file_node (snd e)) s).

Inductive Exn : Type :=
| JsError (message : string)
| TypeError
| SyntaxError
| IoError (p : Path)
| RpError (statusCode : option Z) (error : Text)
| SdkError (body : JValue).

Inductive Outcome (A : Type) : Type :=
| Ok (a : A)
| Throw (e : Exn).
Arguments Ok {A} a.
Arguments Throw {A} e.

(** ** The world a method runs in *)

(** [BotProjectDeployLoggerType], as the code and the logger sink use it. *)
Inductive LoggerType : Type :=
| DEPLOY_INFO
| DEPLOY_SUCCESS
| DEPLOY_ERROR
| PROVISION_INFO
| PROVISION_SUCCESS
| PROVISION_ERROR
| PROVISION_ERROR_DETAILS
| PROVISION_WARNING.

(** What is passed as [message]: a string, a value as it is, or a caught
    error (which [deploy] serialises with [JSON.stringify]). *)
Inductive Msg : Type :=
| MText (s : string)
| MValue (v : JValue)
| MExn (e : Exn).

Record LogEvent : Type := { ev_status : LoggerType; ev_message : Msg }.

(** The envelope an SDK call resolves to: the object itself and the
    [_response.status] it carries. *)
Record Response : Type := { result : JValue; response_status : Z }.

(** Every call that leaves the class, with the arguments that identify it.
    (The start and end dates of the password credential of
    [applications.create] are left out.) *)
Inductive Call : Type :=
| RpGet (uri : string) (headers : list (string * JValue))
| RpPost (uri : string) (headers : list (string * JValue)) (body : JValue)
| RpPostStream (uri : string) (bearer : string) (file : Path)
| ApplicationsCreate (displayName password : string)
| ResourceGroupsCreateOrUpdate (resourceGroupName location : string)
| DeploymentsValidate (resourceGroupName deployName : string) (deployParam : JValue)
| DeploymentsCreateOrUpdate (resourceGroupName deployName : string) (deployParam : JValue)
| DeploymentsGet (resourceGroupName deployName : string)
| DeploymentOperationsList (resourceGroupName deployName : string)
| ComponentsGet (resourceGroupName resourceName : string)
| APIKeysCreate (resourceGroupName resourceName : string) (options : JValue)
| BotsGet (resourceGroupName botName : string)
| BotsUpdate (resourceGroupName botName : string) (bot : JValue)
| BuildDeploy (runtimePath : Path) (project : JValue)
| LoadContents (modelFiles : list Path) (culture suffix region : JValue)
| LuBuild (arguments : list JValue)
| WriteDialogAssets (buildResult : JValue) (folder : Path).

(** The collaborators outside the class: the HTTP client, the Azure SDK
    clients, the runtime plugin, the LU builder and the clock.  The plugin and
    the builder run on the same disk; the builder also reports through the
    logger it was given. *)
Record Env : Type := {
  (* rp.get(uri, {headers}): the body of the response, as text *)
  rp_get : string -> list (string * JValue) -> Outcome Text;
  (* every other HTTP or SDK call *)
  remote : Call -> Outcome Response;
  (* runtime.buildDeploy(path, project): the disk it leaves, the path it returns *)
  runtime_buildDeploy : Path -> JValue -> Store -> Store * Outcome Path;
  (* loadContents, build, writeDialogAssets: what they log, the disk they leave *)
  builder : Call -> Store -> list Msg * Store * Outcome JValue;
  (* new Date().getTime() *)
  getTime : Z;
  (* the characters of JSON.stringify(v, null, indent), where they end up in a message *)
  JSON_stringify : JValue -> nat -> string;
  JSON_stringify_error : Exn -> string
}.

Record World : Type := {
  files : Store;
  logged : list LogEvent;
  calls : list Call;
  tenantId : JValue
}.

(** A method body: it runs in a world, returns or throws, and leaves a
    world behind. *)
Definition M (A : Type) : Type := World -> Outcome A * World.

Definition ret {A : Type} (a : A) : M A := fun w => (Ok a, w).

Definition throw {A : Type} (e : Exn) : M A := fun w => (Throw e, w).

Definition bind {A B : Type} (m : M A) (k : A -> M B) : M B :=
  fun w =>
    match m w with
    | (Ok a, w') => k a w'
    | (Throw e, w') => (Throw e, w')
    end.

Definition try_catch {A : Type} (m : M A) (handler : Exn -> M A) : M A :=
  fun w =>
    match m w with
    | (Ok a, w') => (Ok a, w')
    | (Throw e, w') => handler e w'
    end.

Declare Scope js_scope.
Delimit Scope js_scope with js.
Notation "x <- m ;; k" := (bind m (fun x => k))
  (at level 100, m at next level, right associativity) : js_scope.
Notation "m ;; k" := (bind m (fun _ => k))
  (at level 100, right associativity) : js_scope.
Local Open Scope js_scope.

(** A value that exists, or a TypeError / other error when it does not. *)
Definition or_throw {A : Type} (o : option A) (e : Exn) : M A :=
  match o with
  | Some a => ret a
  | None => throw e
  end.

(** [v.k] as a statement that may throw. *)
Definition prop (v : JValue) (k : string) : M JValue := or_throw (get_strict v k) TypeError.

(** [for (const x of l) body(x)]. *)
Fixpoint for_each {A : Type} (l : list A) (body : A -> M unit) : M unit :=
  match l with
  | [] => ret tt
  | x :: rest => body x ;; for_each rest body
  end.

(** The four ways a world changes. *)
Definition set_files (s : Store) (w : World) : World :=
  {| files := s; logged := logged w; calls := calls w; tenantId := tenantId w |}.

Definition add_log (ev : LogEvent) (w : World) : World :=
  {| files := files w; logged := (logged w ++ [ev])%list; calls := calls w;
     tenantId := tenantId w |}.

Definition add_call (c : Call) (w : World) : World :=
  {| files := files w; logged := logged w; calls := (calls w ++ [c])%list;
     tenantId := tenantId w |}.

Definition set_tenant (t : JValue) (w : World) : World :=
  {| files := files w; logged := logged w; calls := calls w; tenantId := t |}.

Definition with_files (f : Store -> Store) : M unit :=
  fun w => (Ok tt, set_files (f (files w)) w).

Definition the_files : M Store := fun w => (Ok (files w), w).

Definition record_call (c : Call) : M unit := fun w => (Ok tt, add_call c w).

(** [this.logger({status, message})]. *)
Definition logger (st : LoggerType) (m : Msg) : M unit :=
  fun w => (Ok tt, add_log {| ev_status := st; ev_message := m |} w).

Definition set_tenantId (t : JValue) : M unit := fun w => (Ok tt, set_tenant t w).

Definition the_tenantId : M JValue := fun w => (Ok (tenantId w), w).

Definition of_outcome {A : Type} (o : Outcome A) : M A :=
  match o with
  | Ok a => ret a
  | Throw e => throw e
  end.

(** File system calls of [fs-extra]. *)
Definition pathExists (p : Path) : M bool :=
  s <- the_files ;; ret (match stat s p with Some _ => true | None => false end).

Definition read_node (p : Path) : M Node :=
  s <- the_files ;;
  match stat s p with
  | Some Dir | None => throw (IoError p)
  | Some n => ret n
  end.

Definition readFile (p : Path) : M Text :=
  n <- read_node p ;;
  match n with
  | File t => ret t
  | _ => throw (IoError p)
  end.

Definition readJson (p : Path) : M JValue :=
  n <- read_node p ;;
  match n with
  | File t => or_throw (JSON_parse t) SyntaxError
  | _ => throw SyntaxError
  end.

(** Writing a file: an existing file is replaced; a new one needs the
    directory it goes in. *)
Definition write (p : Path) (n : Node) : M unit :=
  s <- the_files ;;
  match stat s p with
  | Some Dir => throw (IoError p)
  | Some _ => with_files (fun s => put s p n)
  | None => if is_dir s (parent p) then with_files (fun s => put s p n)
            else throw (IoError p)
  end.

Definition writeJson (p : Path) (v : JValue) : M unit :=
  write p (File (JsonText (jsonify v))).

Definition mkdir (p : Path) : M unit :=
  s <- the_files ;;
  match stat s p with
  | Some _ => throw (IoError p)
  | None => if is_dir s (parent p) then with_files (fun s => put s p Dir)
            else throw (IoError p)
  end.

Definition remove (p : Path) : M unit := with_files (fun s => remove_tree s p).

(** ** The class [BotProjectDeploy] *)

Record BotProjectDeployConfig : Type := {
  config_subId : string;
  config_accessToken : string;
  config_creds : JValue;
  config_projPath : Path;
  config_zipPath : option Path;
  config_settingsPath : option Path;
  config_templatePath : option Path
}.

Record BotProjectDeploy : Type := {
  subId : string;
  accessToken : string;
  creds : JValue;
  projPath : Path;
  zipPath : Path;
  settingsPath : Path;
  templatePath : Path
}.

(** [a ?? b]. *)
Definition or_default {A : Type} (a : option A) (b : A) : A :=
  match a with
  | Some x => x
  | None => b
  end.

Definition constructor (config : BotProjectDeployConfig) : BotProjectDeploy :=
  {| subId := config_subId config;
     accessToken := config_accessToken config;
     creds := config_creds config;
     projPath := config_projPath config;
     zipPath := or_default (config_zipPath config)
                  (path_join (config_projPath config) "code.zip");
     settingsPath := or_default (config_settingsPath config)
                       (path_join (config_projPath config) "appsettings.deployment.json");
     templatePath := or_default (config_templatePath config)
                       (path_join (path_join (config_projPath config) "DeploymentTemplates")
                          "template-with-preexisting-rg.json") |}.

(** [for (const x of v)]: arrays and strings can be iterated, nothing else
    that JSON produces can. *)
Definition iterate (v : JValue) : M (list JValue) :=
  match v with
  | JArr elems => ret elems
  | JStr s => ret (chars s)
  | _ => throw TypeError
  end.

(** [v === s] for a string [s]. *)
Definition is_string (v : JValue) (s : string) : bool :=
  match v with
  | JStr s' => s' =? s
  | _ => false
  end.

Definition is_null (v : JValue) : bool :=
  match v with
  | JNull => true
  | _ => false
  end.

Definition pack (scope : JValue) : JValue := JObj [("value", scope)].

(** The body of the loop of [unpackObject]: [None] once reading [.value]
    has thrown. *)
Definition unpack_step (output : JValue) (acc : option (list (string * JValue)))
    (key : string) : option (list (string * JValue)) :=
  match acc with
  | None => None
  | Some unpacked =>
      let objValue := get output key in
      match get_strict objValue "value" with
      | None => None
      | Some x => if truthy x then Some (set_field unpacked key x) else Some unpacked
      end
  end.

Definition unpackObject (output : JValue) : option (list (string * JValue)) :=
  fold_left (unpack_step output) (keys output) (Some []).

Definition getDeploymentTemplateParam (appId : JValue) (appPwd location name : string)
    (shouldCreateAuthoringResource shouldCreateLuisResource useAppInsights
       useCosmosDb useStorage : bool) : JValue :=
  JObj [ ("appId", pack appId);
         ("appSecret", pack (JStr appPwd));
         ("appServicePlanLocation", pack (JStr location));
         ("botId", pack (JStr name));
         ("shouldCreateAuthoringResource", pack (JBool shouldCreateAuthoringResource));
         ("shouldCreateLuisResource", pack (JBool shouldCreateLuisResource));
         ("useAppInsights", pack (JBool useAppInsights));
         ("useCosmosDb", pack (JBool useCosmosDb));
         ("useStorage", pack (JBool useStorage)) ].

Fixpoint filter_m {A : Type} (f : A -> M bool) (l : list A) : M (list A) :=
  match l with
  | [] => ret []
  | x :: rest =>
      keep <- f x ;;
      kept <- filter_m f rest ;;
      ret (if keep then x :: kept else kept)
  end.

(** [target.k = v]: an object is updated in place; setting a property on a
    primitive throws in strict mode ([None]), and a named property set on an
    array is not part of what is later sent or written. *)
Definition set_prop (target : JValue) (k : string) (v : JValue) : option JValue :=
  match target with
  | JObj fields => Some (JObj (set_field fields k v))
  | JArr elems => Some (JArr elems)
  | _ => None
  end.

Section Methods.

Variable E : Env.
Variable this : BotProjectDeploy.

(** An SDK or HTTP call: it is recorded, then answered by the collaborator. *)
Definition call (c : Call) : M Response :=
  record_call c ;; of_outcome (remote E c).

(** [r._response.status], for the envelope of a call that resolved. *)
Definition status_of (r : Response) : M Z :=
  prop (result r) "_response" ;; ret (response_status r).

(** *** Deploying to existing Azure resources *)

Definition getFiles (dir : Path) : M (list Path) :=
  s <- the_files ;;
  if is_dir s dir then ret (files_below s dir) else throw (IoError dir).

(** [archive.glob('**/*', {cwd, dot: true, ignore})]: every node below
    [cwd], named by its path relative to [cwd], except the relative paths the
    ignore patterns match.  A pattern without wildcard, as ['code.zip'], matches
    the one relative path it spells. *)
Definition glob (s : Store) (cwd : Path) (ignore : list Path) : list Path :=
  filter (fun rel => negb (existsb (path_eqb rel) ignore))
    (flat_map (fun e => match relative_to cwd (fst e) with
                        | Some rel => [rel]
                        | None => []
                        end) s).

(** [zipDirectory]: [fs.createWriteStream(out)] opens (creates or empties)
    the file, the archive walks the source directory, ignoring ['code.zip'],
    and is piped to the stream; the promise resolves when the stream closes.
    A stream that cannot be opened (the folder of [out] is missing, or [out] is
    a folder) is an error here, while the code, which listens to no error of
    the stream, goes on without an archive: what is said of the archive is said
    for an output that can be opened. *)
Definition zipDirectory (source out : Path) : M unit :=
  write out (File (RawText "")) ;;
  s <- the_files ;;
  let entries := glob s source [["code.zip"]] in
  with_files (fun s => put s out (Zip entries)).

Definition notEmptyLuisModel (file : Path) : M bool :=
  n <- read_node file ;;
  ret (match n with
       | File (RawText s) => negb (s =? "")
       | _ => true
       end).

Fixpoint find_account (accounts : list JValue) (filter : string) : M JValue :=
  match accounts with
  | [] => ret JUndefined
  | account :: rest =>
      accountName <- prop account "AccountName" ;;
      if is_string accountName filter then ret account else find_account rest filter
  end.

Definition getAccount (accounts : JValue) (filter : string) : M JValue :=
  items <- iterate accounts ;; find_account items filter.

(** A call into the LU builder: it may log through the callback it was
    built with and write on the disk. *)
Definition call_builder (c : Call) : M JValue :=
  record_call c ;;
  s <- the_files ;;
  let r := builder E c s in
  for_each (fst (fst r)) (fun m => logger DEPLOY_INFO m) ;;
  with_files (fun _ => snd (fst r)) ;;
  of_outcome (snd r).

(** The loop of [publishLuis] that reads in all the luis app id mappings. *)
Fixpoint readLuisAppIds (luisConfigFiles : list Path) (luisAppIds : list (string * JValue))
  : M (list (string * JValue)) :=
  match luisConfigFiles with
  | [] => ret luisAppIds
  | luisConfigFile :: rest =>
      luisSettings <- readJson luisConfigFile ;;
      luis <- prop luisSettings "luis" ;;
      readLuisAppIds rest (Object_assign luisAppIds luis)
  end.

(** The base LUIS config object of [publishLuis]. *)
Definition baseLuisConfig (luisEndpoint luisEndpointKey luisAuthoringRegion : JValue)
  : list (string * JValue) :=
  [ ("endpoint", luisEndpoint);
    ("endpointKey", luisEndpointKey);
    ("authoringRegion", luisAuthoringRegion);
    ("authoringKey", luisAuthoringRegion) ].

(** [if (!luisEndpoint) luisEndpoint = `https://${luisAuthoringRegion}.api...`]:
    the value of [luisEndpoint] from there on. *)
Definition endpoint_or_default (luisEndpoint luisAuthoringRegion : JValue) : JValue :=
  if negb (truthy luisEndpoint)
  then JStr ("https://" ++ to_js_string luisAuthoringRegion ++ ".api.cognitive.microsoft.com")
  else luisEndpoint.

(** [err.error] of a caught error: the body of a failed request. *)
Definition err_error (err : Exn) : Text :=
  match err with
  | RpError _ body => body
  | _ => RawText "undefined"
  end.

(** [message.indexOf('access token expiry')], for a truthy [message]. *)
Definition message_indexOf (message : JValue) (t : string) : M Z :=
  match message with
  | JStr s => ret (indexOf s t)
  | JArr elems =>
      ret ((fix position (l : list JValue) (i : Z) : Z :=
              match l with
              | [] => (-1)%Z
              | x :: rest => if is_string x t then i else position rest (i + 1)%Z
              end) elems 0%Z)
  | _ => throw TypeError
  end.

(** The handler of the [try] around the account-list call. *)
Definition onAccountListError (err : Exn) : M JValue :=
  error <- or_throw (JSON_parse (err_error err)) SyntaxError ;;
  let message := get_opt (get_opt error "error") "message" in
  expired <- (if truthy message then
                at_ <- message_indexOf message "access token expiry" ;; ret (0 <? at_)%Z
              else ret false) ;;
  if expired then
    throw (JsError ("Type: " ++ to_js_string (get_opt (get_opt error "error") "code")
                    ++ ", Message: " ++ to_js_string message
                    ++ ", run az account get-access-token, then replace the accessToken in your configuration"))
  else throw err.

Definition luisHeaders (luisAuthoringKey : JValue) : list (string * JValue) :=
  [ ("Authorization", JStr ("Bearer " ++ accessToken this));
    ("Ocp-Apim-Subscription-Key", luisAuthoringKey) ].

(** [publishLuis]: run through the lubuild process in the build folder. *)
Definition publishLuis (workingFolder : Path) (name environment language : string)
    (luisEndpoint luisAuthoringEndpoint luisEndpointKey luisAuthoringKey
       luisAuthoringRegion : JValue) (luisResource : option string) : M unit :=
  if truthy luisAuthoringKey && truthy luisAuthoringRegion then
    botFiles <- getFiles workingFolder ;;
    modelFiles <-
      filter_m (fun name => if endsWith (path_string name) ".lu"
                            then notEmptyLuisModel name else ret false) botFiles ;;
    let generatedFolder := path_join workingFolder "generated" in
    let deploymentSettingsPath := path_join workingFolder "appsettings.deployment.json" in
    generatedExists <- pathExists generatedFolder ;;
    (if negb generatedExists then mkdir generatedFolder else ret tt) ;;
    loadResult <-
      call_builder (LoadContents modelFiles (JStr language) (JStr environment)
                      luisAuthoringRegion) ;;
    let luisEndpoint := endpoint_or_default luisEndpoint luisAuthoringRegion in
    let luisAuthoringEndpoint :=
      if negb (truthy luisAuthoringEndpoint) then luisEndpoint else luisAuthoringEndpoint in
    luContents <- prop loadResult "luContents" ;;
    buildResult <-
      call_builder
        (LuBuild [ luContents; get loadResult "recognizers"; luisAuthoringKey;
                   luisAuthoringEndpoint; JStr name; JStr environment; JStr language;
                   JBool false; get loadResult "multiRecognizers";
                   get loadResult "settings" ]) ;;
    call_builder (WriteDialogAssets buildResult generatedFolder) ;;
    logger DEPLOY_INFO (MText "lubuild succeed") ;;
    allFiles <- getFiles workingFolder ;;
    let luisConfigFiles :=
      filter (fun filename => includes (path_string filename) "luis.settings") allFiles in
    luisAppIds <- readLuisAppIds luisConfigFiles [] ;;
    let luisConfig :=
      Object_assign (baseLuisConfig luisEndpoint luisEndpointKey luisAuthoringRegion)
        (JObj luisAppIds) in
    settings <- readJson deploymentSettingsPath ;;
    settings <- or_throw (set_prop settings "luis" (JObj luisConfig)) TypeError ;;
    writeJson deploymentSettingsPath settings ;;
    accountList <-
      try_catch
        (let getAccountUri := to_js_string luisEndpoint ++ "/luis/api/v2.0/azureaccounts" in
         record_call (RpGet getAccountUri (luisHeaders luisAuthoringKey)) ;;
         response <- of_outcome (rp_get E getAccountUri (luisHeaders luisAuthoringKey)) ;;
         or_throw (JSON_parse response) SyntaxError)
        onAccountListError ;;
    account <-
      getAccount accountList
        (match luisResource with
         | Some r => if r =? "" then name ++ "-" ++ environment ++ "-luis" else r
         | None => name ++ "-" ++ environment ++ "-luis"
         end) ;;
    for_each (map fst luisAppIds)
      (fun k =>
         let luisAppId := get (JObj luisAppIds) k in
         logger DEPLOY_INFO (MText ("Assigning to luis app id: " ++ to_js_string luisAppId)) ;;
         let luisAssignEndpoint :=
           to_js_string luisEndpoint ++ "/luis/api/v2.0/apps/" ++ to_js_string luisAppId
           ++ "/azureaccounts" in
         response <- call (RpPost luisAssignEndpoint (luisHeaders luisAuthoringKey) account) ;;
         logger DEPLOY_INFO (MValue (result response))) ;;
    logger DEPLOY_INFO (MText "Luis Publish Success! ...")
  else ret tt.

Definition deployZip (token : string) (zip : Path) (name env : string)
    (hostname : option string) : M unit :=
  logger DEPLOY_INFO (MText "Retrieve publishing details ...") ;;
  let host := match hostname with
              | Some h => if h =? "" then name ++ "-" ++ env else h
              | None => name ++ "-" ++ env
              end in
  let publishEndpoint := "https://" ++ host ++ ".scm.azurewebsites.net/zipdeploy/?isAsync=true" in
  try_catch
    (response <- call (RpPostStream publishEndpoint token zip) ;;
     logger DEPLOY_INFO (MValue (result response)))
    (fun err =>
       match err with
       | RpError (Some 403%Z) _ =>
           throw (JsError "Token expired, please run az account get-access-token, then replace the accessToken in your configuration")
       | _ => throw err
       end).

Definition call_buildDeploy (runtimePath : Path) (project : JValue) : M Path :=
  record_call (BuildDeploy runtimePath project) ;;
  s <- the_files ;;
  let r := runtime_buildDeploy E runtimePath project s in
  with_files (fun _ => fst r) ;;
  of_outcome (snd r).

(** [deploy]: deploy a bot to a location. *)
Definition deploy (project : JValue) (name environment : string)
    (language hostname luisResource : option string) : M unit :=
  try_catch
    (zipExists <- pathExists (zipPath this) ;;
     (if zipExists then remove (zipPath this) else ret tt) ;;
     pathToArtifacts <- call_buildDeploy (projPath this) project ;;
     settings <- readJson (settingsPath this) ;;
     luis <- prop settings "luis" ;;
     (if truthy luis then
        let luisAuthoringKey := get luis "authoringKey" in
        let luisAuthoringRegion := get luis "region" in
        let luisEndpointKey := get luis "endpointKey" in
        let luisEndpoint := get luis "endpoint" in
        let luisAuthoringEndpoint := get luis "authoringEndpoint" in
        if truthy luisAuthoringKey && truthy luisAuthoringRegion then
          let language := match language with
                          | Some l => if l =? "" then "en-us" else l
                          | None => "en-us"
                          end in
          publishLuis pathToArtifacts name environment language luisEndpoint
            luisAuthoringEndpoint luisEndpointKey luisAuthoringKey luisAuthoringRegion
            luisResource
        else ret tt
      else ret tt) ;;
     logger DEPLOY_INFO (MText "Packing up the bot service ...") ;;
     zipDirectory pathToArtifacts (zipPath this) ;;
     logger DEPLOY_INFO (MText "Packing Service Success!") ;;
     logger DEPLOY_INFO (MText "Publishing to Azure ...") ;;
     deployZip (accessToken this) (zipPath this) name environment hostname ;;
     logger DEPLOY_SUCCESS (MText "Publish To Azure Success!"))
    (fun error => logger DEPLOY_ERROR (MExn error) ;; throw error).

(** *** Creating new Azure resources *)

Definition updateDeploymentJsonFile (resourceGroupName deployName : string)
    (appId : JValue) (appPwd : string) : M JValue :=
  outputs <- call (DeploymentsGet resourceGroupName deployName) ;;
  let outputResult := get_opt (get_opt (result outputs) "properties") "outputs" in
  if truthy outputResult then
    let applicationResult :=
      JObj [("MicrosoftAppId", appId); ("MicrosoftAppPassword", JStr appPwd)] in
    outputObj <- or_throw (unpackObject outputResult) TypeError ;;
    ret (JObj (Object_assign (Object_assign [] (JObj outputObj)) applicationResult))
  else ret JNull.

(** The body of an error, for the errors that carry one. *)
Definition err_body (err : Exn) : JValue :=
  match err with
  | SdkError body => body
  | _ => JUndefined
  end.

Definition getErrorMesssage (err : Exn) : M string :=
  let body := err_body err in
  if truthy body then
    let error := get body "error" in
    if truthy error then
      let details := get error "details" in
      if truthy details then
        items <- iterate details ;;
        fold_left
          (fun acc detail =>
             errMsg <- acc ;;
             m <- prop detail "message" ;;
             ret (errMsg ++ to_js_string m))
          items (ret "")
      else ret (to_js_string (get error "message"))
    else ret (JSON_stringify E body 2)
  else ret (JSON_stringify_error E err).

Definition readTemplateFile (path : Path) : M Text := readFile path.

Definition createResourceGroup (location resourceGroupName : string) : M Response :=
  logger PROVISION_INFO (MText "> Creating resource group ...") ;;
  call (ResourceGroupsCreateOrUpdate resourceGroupName location).

Definition deployParam (template templateParam : JValue) : JValue :=
  JObj [("properties",
         JObj [("template", template); ("parameters", templateParam);
               ("mode", JStr "Incremental")])].

Definition validateDeployment (path : Path) (location resourceGroupName deployName : string)
    (templateParam : JValue) : M Response :=
  logger PROVISION_INFO (MText "> Validating Azure deployment ...") ;;
  templateFile <- readTemplateFile path ;;
  template <- or_throw (JSON_parse templateFile) SyntaxError ;;
  call (DeploymentsValidate resourceGroupName deployName (deployParam template templateParam)).

Definition createDeployment (path : Path) (location resourceGroupName deployName : string)
    (templateParam : JValue) : M Response :=
  logger PROVISION_INFO (MText "> Deploying Azure services (this could take a while)...") ;;
  templateFile <- readTemplateFile path ;;
  template <- or_throw (JSON_parse templateFile) SyntaxError ;;
  call (DeploymentsCreateOrUpdate resourceGroupName deployName (deployParam template templateParam)).

Definition createApp (displayName appPassword : string) : M Response :=
  call (ApplicationsCreate displayName appPassword).

Definition getTenantId : M JValue :=
  if accessToken this =? "" then
    throw (JsError "Error: Missing access token. Please provide a non-expired Azure access token. Tokens can be obtained by running az account get-access-token")
  else if subId this =? "" then
    throw (JsError "Error: Missing subscription Id. Please provide a valid Azure subscription id.")
  else
    try_catch
      (let tenantUrl :=
         "https://management.azure.com/subscriptions/" ++ subId this ++ "?api-version=2020-01-01" in
       let headers := [("Authorization", JStr ("Bearer " ++ accessToken this))] in
       record_call (RpGet tenantUrl headers) ;;
       response <- of_outcome (rp_get E tenantUrl headers) ;;
       jsonRes <- or_throw (JSON_parse response) SyntaxError ;;
       tenant <- prop jsonRes "tenantId" ;;
       match tenant with
       | JUndefined => throw (JsError "No tenants found in the account.")
       | _ => ret tenant
       end)
      (fun err =>
         details <- getErrorMesssage err ;;
         throw (JsError ("Get Tenant Id Failed, details: " ++ details))).

(** [operation?.properties?.statusMessage.error] and the reads below it:
    the optional links cut the whole chain short. *)
Definition statusMessage_error (operation : JValue) (below_error : list string) : M JValue :=
  if nullish operation then ret JUndefined
  else
    let properties := get operation "properties" in
    if nullish properties then ret JUndefined
    else
      error <- prop (get properties "statusMessage") "error" ;;
      fold_left (fun acc k => v <- acc ;; prop v k) below_error (ret error).

Definition resourceType_of (operation : JValue) : string :=
  to_js_string
    (get_opt (get_opt (get_opt operation "properties") "targetResource") "resourceType").

Definition delete_hint (resourceGroupName : string) : string :=
  "+ To delete this resource group, run 'az group delete -g " ++ resourceGroupName
  ++ " --no-wait'".

Definition apiKeyOptions (resourceGroupName timeStamp : string) : JValue :=
  let component :=
    "/subscriptions/" ++ subId this ++ "/resourceGroups/" ++ resourceGroupName
    ++ "/providers/microsoft.insights/components/" ++ resourceGroupName in
  JObj [ ("name", JStr (resourceGroupName ++ "-provision-" ++ timeStamp));
         ("linkedReadProperties",
          JArr [JStr (component ++ "/api"); JStr (component ++ "/agentconfig")]);
         ("linkedWriteProperties", JArr [JStr (component ++ "/annotations")]) ].

Definition with_properties (bot properties : JValue) : JValue :=
  match bot with
  | JObj fields => JObj (set_field fields "properties" properties)
  | _ => bot
  end.

(** The step of [create] that links Application Insights to the bot
    registration ([if (createAppInsights) { ... }]). *)
Definition linkAppInsights (name resourceGroupName timeStamp : string) : M unit :=
  logger PROVISION_INFO (MText "> Linking Application Insights settings to Bot Service ...") ;;
  appComponents <- call (ComponentsGet resourceGroupName resourceGroupName) ;;
  appinsightsId <- prop (result appComponents) "appId" ;;
  appinsightsInstrumentationKey <- prop (result appComponents) "instrumentationKey" ;;
  appinsightsApiKeyResponse <-
    call (APIKeysCreate resourceGroupName resourceGroupName
            (apiKeyOptions resourceGroupName timeStamp)) ;;
  appinsightsApiKey <- prop (result appinsightsApiKeyResponse) "apiKey" ;;
  logger PROVISION_INFO
    (MText ("> AppInsights AppId: " ++ to_js_string appinsightsId ++ " ...")) ;;
  logger PROVISION_INFO
    (MText ("> AppInsights InstrumentationKey: "
            ++ to_js_string appinsightsInstrumentationKey ++ " ...")) ;;
  logger PROVISION_INFO
    (MText ("> AppInsights ApiKey: " ++ to_js_string appinsightsApiKey ++ " ...")) ;;
  if truthy appinsightsId && truthy appinsightsInstrumentationKey && truthy appinsightsApiKey
  then
    botCreated <- call (BotsGet resourceGroupName name) ;;
    properties <- prop (result botCreated) "properties" ;;
    if truthy properties then
      p1 <- or_throw (set_prop properties "developerAppInsightKey"
                        appinsightsInstrumentationKey) TypeError ;;
      p2 <- or_throw (set_prop p1 "developerAppInsightsApiKey" appinsightsApiKey) TypeError ;;
      p3 <- or_throw (set_prop p2 "developerAppInsightsApplicationId" appinsightsId)
              TypeError ;;
      botUpdateResult <-
        call (BotsUpdate resourceGroupName name (with_properties (result botCreated) p3)) ;;
      st <- status_of botUpdateResult ;;
      (if negb (st =? 200)%Z then
         logger PROVISION_ERROR
           (MText ("! Something went wrong while trying to link Application Insights settings to Bot Service Result: "
                   ++ JSON_stringify E (result botUpdateResult) 0)) ;;
         throw (JsError "Linking Application Insights Failed.")
       else ret tt) ;;
      logger PROVISION_INFO
        (MText "> Linking Application Insights settings to Bot Service Success!")
    else
      logger PROVISION_WARNING (MText "! The Bot doesn't have a keys properties to update.")
  else ret tt.

(** The diagnosis [create] logs when the deployment has no outputs
    ([if (!updateResult) { ... }]). *)
Definition reportFailedOperations (resourceGroupName timeStamp : string) : M unit :=
  operations <- call (DeploymentOperationsList resourceGroupName timeStamp) ;;
  if truthy (result operations) then
    items <- match result operations with
             | JArr elems => ret elems
             | _ => throw TypeError
             end ;;
    failedOperations <-
      filter_m (fun value => e <- statusMessage_error value [] ;; ret (negb (is_null e)))
        items ;;
    for_each failedOperations
      (fun operation =>
         code <- statusMessage_error operation ["code"] ;;
         if is_string code "MissingRegistrationForLocation" then
           logger PROVISION_ERROR
             (MText ("! Deployment failed for resource of type " ++ resourceType_of operation
                     ++ ". This resource is not avaliable in the location provided."))
         else
           logger PROVISION_ERROR
             (MText ("! Deployment failed for resource of type " ++ resourceType_of operation
                     ++ ".")) ;;
           logger PROVISION_ERROR (MText ("! Code: " ++ to_js_string code ++ ".")) ;;
           message <- statusMessage_error operation ["message"] ;;
           logger PROVISION_ERROR (MText ("! Message: " ++ to_js_string message ++ ".")))
  else
    logger PROVISION_ERROR
      (MText "! Deployment failed. Please refer to the log file for more information.").

(** [create]: provision a set of Azure resources for use with a bot.  (Of
    the construction of the credentials and of the SDK clients, what is kept
    is the read of [this.creds.clientId], which throws on missing
    credentials.) *)
Definition create (name location environment appPassword : string)
    (createLuisResource createLuisAuthoringResource createCosmosDb createStorage
       createAppInsights : bool) : M JValue :=
  known <- the_tenantId ;;
  (if negb (truthy known) then t <- getTenantId ;; set_tenantId t else ret tt) ;;
  prop (creds this) "clientId" ;;
  existing <- pathExists (settingsPath this) ;;
  settings <- (if existing then readJson (settingsPath this) else ret (JObj [])) ;;
  settingsAppId <- prop settings "MicrosoftAppId" ;;
  appId <-
    (if negb (truthy settingsAppId) then
       (if appPassword =? "" then
          logger PROVISION_INFO (MText "App password is required") ;;
          throw (JsError "App password is required")
        else ret tt) ;;
       logger PROVISION_INFO (MText "> Creating App Registration ...") ;;
       appCreated <- createApp name appPassword ;;
       logger PROVISION_INFO (MValue (result appCreated)) ;;
       prop (result appCreated) "appId"
     else ret settingsAppId) ;;
  logger PROVISION_INFO (MText ("> Create App Id Success! ID: " ++ to_js_string appId)) ;;
  let resourceGroupName := name ++ "-" ++ environment in
  let timeStamp := string_of_Z (getTime E) in
  rpres <- createResourceGroup location resourceGroupName ;;
  logger PROVISION_INFO (MValue (result rpres)) ;;
  let deploymentTemplateParam :=
    getDeploymentTemplateParam appId appPassword location name createLuisAuthoringResource
      createLuisResource createAppInsights createCosmosDb createStorage in
  logger PROVISION_INFO (MValue deploymentTemplateParam) ;;
  validation <-
    validateDeployment (templatePath this) location resourceGroupName timeStamp
      deploymentTemplateParam ;;
  logger PROVISION_INFO (MValue (result validation)) ;;
  validationError <- prop (result validation) "error" ;;
  (if truthy validationError then
     logger PROVISION_ERROR
       (MText "! Template is not valid with provided parameters. Review the log for more information.") ;;
     logger PROVISION_ERROR
       (MText ("! Error: " ++ to_js_string (get validationError "message"))) ;;
     logger PROVISION_ERROR (MText (delete_hint resourceGroupName)) ;;
     logger PROVISION_ERROR_DETAILS (MValue (get validationError "details")) ;;
     throw (JsError ("! Error: " ++ to_js_string (get validationError "message")))
   else ret tt) ;;
  deployment <-
    createDeployment (templatePath this) location resourceGroupName timeStamp
      deploymentTemplateParam ;;
  logger PROVISION_INFO (MValue (result deployment)) ;;
  deploymentStatus <- status_of deployment ;;
  (if negb (deploymentStatus =? 200)%Z then
     logger PROVISION_ERROR
       (MText "! Template is not valid with provided parameters. Review the log for more information.") ;;
     logger PROVISION_ERROR (MText ("! Error: " ++ to_js_string validationError)) ;;
     logger PROVISION_ERROR (MText (delete_hint resourceGroupName)) ;;
     throw (JsError ("! Error: " ++ to_js_string validationError))
   else ret tt) ;;
  (if createAppInsights then linkAppInsights name resourceGroupName timeStamp else ret tt) ;;
  updateResult <-
    updateDeploymentJsonFile resourceGroupName timeStamp appId appPassword ;;
  logger PROVISION_INFO (MValue updateResult) ;;
  (if negb (truthy updateResult) then reportFailedOperations resourceGroupName timeStamp
   else ret tt) ;;
  logger PROVISION_SUCCESS (MText (delete_hint resourceGroupName)) ;;
  ret updateResult.

End Methods.

(** * Vocabulary of the properties *)

(** ** What is read off a run *)

(** The [luis] object of a settings file on disk. *)
Definition luis_of_file (s : Store) (f : Path) : JValue :=
  match stat s f with
  | Some (File (JsonText v)) => get v "luis"
  | _ => JUndefined
  end.

(** The union of a sequence of objects in which, where two of them have the
    same key, the later one gives the value. *)
Fixpoint union_later_wins (objects : list JValue) (k : string) : option JValue :=
  match objects with
  | [] => None
  | o :: later =>
      match union_later_wins later k with
      | Some v => Some v
      | None => lookup (own_props o) k
      end
  end.

(** The files [publishLuis] reads the app ids from. *)
Definition luisConfigFiles_of (s : Store) (workingFolder : Path) : list Path :=
  filter (fun filename => includes (path_string filename) "luis.settings")
    (files_below s workingFolder).

(** The deployment outputs a response of [deployments.get] carries. *)
Definition outputs_of (outputs : Response) : JValue :=
  get_opt (get_opt (result outputs) "properties") "outputs".

(** Steps 4 and 5 of [deploy]: zip the assets, deploy the zip file. *)
Definition packAndUpload (E : Env) (this : BotProjectDeploy) (pathToArtifacts : Path)
    (name environment : string) (hostname : option string) : M unit :=
  logger DEPLOY_INFO (MText "Packing up the bot service ...") ;;
  zipDirectory pathToArtifacts (zipPath this) ;;
  logger DEPLOY_INFO (MText "Packing Service Success!") ;;
  logger DEPLOY_INFO (MText "Publishing to Azure ...") ;;
  deployZip E (accessToken this) (zipPath this) name environment hostname ;;
  logger DEPLOY_SUCCESS (MText "Publish To Azure Success!").

(** The lubuild process of [publishLuis], its first part (up to the message
    [lubuild succeed]): the models are loaded, built and written into the
    [generated] folder of the build. *)
Definition lubuild (E : Env) (workingFolder : Path) (name environment language : string)
    (luisEndpoint luisAuthoringEndpoint luisAuthoringKey luisAuthoringRegion : JValue)
  : M unit :=
  botFiles <- getFiles workingFolder ;;
  modelFiles <-
    filter_m (fun name => if endsWith (path_string name) ".lu"
                          then notEmptyLuisModel name else ret false) botFiles ;;
  let generatedFolder := path_join workingFolder "generated" in
  generatedExists <- pathExists generatedFolder ;;
  (if negb generatedExists then mkdir generatedFolder else ret tt) ;;
  loadResult <-
    call_builder E (LoadContents modelFiles (JStr language) (JStr environment)
                      luisAuthoringRegion) ;;
  let luisEndpoint := endpoint_or_default luisEndpoint luisAuthoringRegion in
  let luisAuthoringEndpoint :=
    if negb (truthy luisAuthoringEndpoint) then luisEndpoint else luisAuthoringEndpoint in
  luContents <- prop loadResult "luContents" ;;
  buildResult <-
    call_builder E
      (LuBuild [ luContents; get loadResult "recognizers"; luisAuthoringKey;
                 luisAuthoringEndpoint; JStr name; JStr environment; JStr language;
                 JBool false; get loadResult "multiRecognizers";
                 get loadResult "settings" ]) ;;
  call_builder E (WriteDialogAssets buildResult generatedFolder) ;;
  logger DEPLOY_INFO (MText "lubuild succeed").

(** The disk as the build step of [deploy] finds it: without the archive
    of a previous run. *)
Definition without_previous_zip (this : BotProjectDeploy) (s : Store) : Store :=
  match stat s (zipPath this) with
  | Some _ => remove_tree s (zipPath this)
  | None => s
  end.

(** ** Kinds of calls *)

(** A call that is not an application registration, and that passes [id] as
    the [appId] template parameter when it validates or applies a template. *)
Definition uses_app_id (id : JValue) (c : Call) : Prop :=
  match c with
  | ApplicationsCreate _ _ => False
  | DeploymentsValidate _ _ p | DeploymentsCreateOrUpdate _ _ p =>
      get (get (get p "properties") "parameters") "appId" = pack id
  | _ => True
  end.

(** The calls [create] makes before it validates the template. *)
Definition before_validation (c : Call) : Prop :=
  match c with
  | DeploymentsValidate _ _ _ | DeploymentsCreateOrUpdate _ _ _ => False
  | _ => True
  end.

Definition not_validation (c : Call) : Prop :=
  match c with
  | DeploymentsValidate _ _ _ => False
  | _ => True
  end.

Definition is_build_or_upload (c : Call) : Prop :=
  match c with
  | BuildDeploy _ _ | RpPostStream _ _ _ => True
  | _ => False
  end.

(** ** Judgements on method bodies *)

(** [wp m Q w]: running [m] in [w] ends in an outcome and a world that
    satisfy [Q]. *)
Definition wp {A : Type} (m : M A) (Q : Outcome A -> World -> Prop) (w : World) : Prop :=
  Q (fst (m w)) (snd (m w)).

(** [preserves R m]: whatever [m] does, the world it leaves is related by
    [R] to the one it started in. *)
Definition preserves {A : Type} (R : World -> World -> Prop) (m : M A) : Prop :=
  forall w, R w (snd (m w)).

(** [returns m P]: whenever [m] returns, what it returns satisfies [P]. *)
Definition returns {A : Type} (m : M A) (P : A -> Prop) : Prop :=
  forall w a w', m w = (Ok a, w') -> P a.

Class Frame (R : World -> World -> Prop) : Prop := {
  frame_refl : forall w, R w w;
  frame_trans : forall w1 w2 w3, R w1 w2 -> R w2 w3 -> R w1 w3
}.

Definition same_files (w w' : World) : Prop := files w' = files w.

(** The calls made between [w] and [w'] all satisfy [P]. *)
Definition calls_within (P : Call -> Prop) (w w' : World) : Prop :=
  exists made, calls w' = (calls w ++ made)%list /\ Forall P made.

Definition both (R1 R2 : World -> World -> Prop) (w w' : World) : Prop :=
  R1 w w' /\ R2 w w'.

(** * A bot project to run the methods on *)

Module Scenario.

Definition answer (v : JValue) : Outcome Response :=
  Ok {| result := v; response_status := 200 |}.

Definition bot : BotProjectDeploy :=
  constructor
    {| config_subId := "sub-1";
       config_accessToken := "token";
       config_creds := JObj [("clientId", JStr "client")];
       config_projPath := ["bot"];
       config_zipPath := None;
       config_settingsPath := None;
       config_templatePath := None |}.

Definition settings : JValue :=
  JObj [ ("MicrosoftAppId", JStr "app-1");
         ("luis", JObj [("authoringKey", JStr "key"); ("region", JStr "westus")]) ].

(** The project folder, with a build folder [out] left by an earlier
    deployment. *)
Definition disk : Store :=
  [ (["bot"], Dir);
    (["bot"; "appsettings.deployment.json"], File (JsonText settings));
    (["bot"; "DeploymentTemplates"], Dir);
    (["bot"; "DeploymentTemplates"; "template-with-preexisting-rg.json"],
     File (JsonText (JObj [("resources", JArr [])])));
    (["bot"; "out"], Dir);
    (["bot"; "out"; "appsettings.deployment.json"],
     File (JsonText (JObj [("luis", JObj [("Old_en_us_lu", JStr "app-0")])])));
    (["bot"; "out"; "main.lu"], File (RawText "# Greeting"));
    (["bot"; "out"; "code.zip"], File (RawText "stale"));
    (["bot"; "out"; "packages"], Dir) ].

Definition disk_without_luis : Store :=
  put disk ["bot"; "appsettings.deployment.json"]
    (File (JsonText (JObj [("MicrosoftAppId", JStr "app-1")]))).

Definition disk_with_two_settings : Store :=
  [ (["bot"], Dir);
    (["bot"; "luis.settings.dev.json"],
     File (JsonText (JObj [("luis", JObj [("Main", JStr "1"); ("Help", JStr "2")])])));
    (["bot"; "luis.settings.prod.json"],
     File (JsonText (JObj [("luis", JObj [("Main", JStr "3")])]))) ].

Definition deployment_outputs : JValue :=
  JObj [ ("luis", pack (JObj [("endpoint", JStr "https://westus.api.cognitive.microsoft.com")]));
         ("cosmosDb", pack (JStr "")) ].

(** A cloud in which every call succeeds. *)
Definition cloud : Env :=
  {| rp_get := fun uri _ =>
       if includes uri "management.azure.com"
       then Ok (JsonText (JObj [("tenantId", JStr "tenant-1")]))
       else Ok (JsonText (JArr [JObj [("AccountName", JStr "mybot-dev-luis")]]));
     remote := fun c =>
       match c with
       | ApplicationsCreate _ _ => answer (JObj [("appId", JStr "app-2")])
       | DeploymentsGet _ _ =>
           answer (JObj [("properties", JObj [("outputs", deployment_outputs)])])
       | ComponentsGet _ _ =>
           answer (JObj [("appId", JStr "insights-1"); ("instrumentationKey", JStr "ikey")])
       | APIKeysCreate _ _ _ => answer (JObj [("apiKey", JStr "akey")])
       | BotsGet _ _ => answer (JObj [("properties", JObj [])])
       | _ => answer (JObj [])
       end;
     runtime_buildDeploy := fun runtimePath _ s => (s, Ok (path_join runtimePath "out"));
     builder := fun c s =>
       match c with
       | WriteDialogAssets _ folder =>
           ([MText "writing dialog assets"],
            put s (path_join folder "luis.settings.dev.westus.json")
              (File (JsonText (JObj [("luis", JObj [("Main_en_us_lu", JStr "app-7")])]))),
            Ok JUndefined)
       | _ => ([], s, Ok (JObj []))
       end;
     getTime := 1600000000000;
     JSON_stringify := fun _ _ => "{}";
     JSON_stringify_error := fun _ => "{}" |}.

Definition template_error : list (string * JValue) :=
  [ ("code", JStr "InvalidTemplate");
    ("message", JStr "The template is not valid");
    ("details", JArr [JObj [("message", JStr "unknown sku")]]) ].

(** The same cloud, refusing the template. *)
Definition cloud_rejecting_template : Env :=
  {| rp_get := rp_get cloud;
     remote := fun c =>
       match c with
       | DeploymentsValidate _ _ _ => answer (JObj [("error", JObj template_error)])
       | _ => remote cloud c
       end;
     runtime_buildDeploy := runtime_buildDeploy cloud;
     builder := builder cloud;
     getTime := getTime cloud;
     JSON_stringify := JSON_stringify cloud;
     JSON_stringify_error := JSON_stringify_error cloud |}.

Definition expiry_body : Text :=
  JsonText (JObj [("error",
                   JObj [("message", JStr "access token expiry UTC time has passed");
                         ("code", JStr "X")])]).

(** The same cloud, whose account list answers that the token expired. *)
Definition cloud_with_expired_token : Env :=
  {| rp_get := fun uri headers =>
       if includes uri "azureaccounts" then Throw (RpError (Some 401%Z) expiry_body)
       else rp_get cloud uri headers;
     remote := remote cloud;
     runtime_buildDeploy := runtime_buildDeploy cloud;
     builder := builder cloud;
     getTime := getTime cloud;
     JSON_stringify := JSON_stringify cloud;
     JSON_stringify_error := JSON_stringify_error cloud |}.

(** A fresh instance in front of a disk: nothing logged, nothing called. *)
Definition start (s : Store) : World :=
  {| files := s; logged := []; calls := []; tenantId := JStr "" |}.

End Scenario.

(** * Vocabulary of the further properties *)

(** ** More relations between worlds *)

Definition same_tenant (w w' : World) : Prop := tenantId w' = tenantId w.

(** The events logged between [w] and [w'] all satisfy [P]. *)
Definition logs_within (P : LogEvent -> Prop) (w w' : World) : Prop :=
  exists events, logged w' = (logged w ++ events)%list /\ Forall P events.

Definition provision_event (ev : LogEvent) : Prop :=
  match ev_status ev with
  | PROVISION_INFO | PROVISION_SUCCESS | PROVISION_ERROR | PROVISION_ERROR_DETAILS
  | PROVISION_WARNING => True
  | _ => False
  end.

Definition deploy_event (ev : LogEvent) : Prop :=
  match ev_status ev with
  | DEPLOY_INFO | DEPLOY_SUCCESS | DEPLOY_ERROR => True
  | _ => False
  end.

(** The event logged last. *)
Definition last_logged (w : World) : option LogEvent := last (map Some (logged w)) None.

(** [ends_logging ev m]: whenever [m] returns, the last event logged is
    [ev]. *)
Definition ends_logging {A : Type} (ev : LogEvent) (m : M A) : Prop :=
  forall w a w', m w = (Ok a, w') -> last_logged w' = Some ev.

(** ** More kinds of calls *)

Definition tenantUrl (this : BotProjectDeploy) : string :=
  "https://management.azure.com/subscriptions/" ++ subId this ++ "?api-version=2020-01-01".

(** The look-up of the tenant, the one HTTP request of [create]. *)
Definition is_tenant_lookup (this : BotProjectDeploy) (c : Call) : Prop :=
  c = RpGet (tenantUrl this) [("Authorization", JStr ("Bearer " ++ accessToken this))].

Definition not_tenant_lookup (c : Call) : Prop :=
  match c with
  | RpGet _ _ => False
  | _ => True
  end.

(** The calls of [create], with the names they are made for: the resource
    group and the Application Insights component are called
    [name-environment], the deployment by the time stamp, the bot and the app
    registration [name]; a template is validated and applied with the
    parameters built from the arguments of [create]. *)
Definition create_call (E : Env) (this : BotProjectDeploy)
    (name location environment appPassword : string)
    (createLuisResource createLuisAuthoringResource createCosmosDb createStorage
       createAppInsights : bool) (c : Call) : Prop :=
  let resourceGroupName := name ++ "-" ++ environment in
  let timeStamp := string_of_Z (getTime E) in
  let sends_parameters p :=
    exists template appId,
      p = deployParam template
            (getDeploymentTemplateParam appId appPassword location name
               createLuisAuthoringResource createLuisResource createAppInsights
               createCosmosDb createStorage) in
  match c with
  | RpGet _ _ => is_tenant_lookup this c
  | ApplicationsCreate displayName password => displayName = name /\ password = appPassword
  | ResourceGroupsCreateOrUpdate rg l => rg = resourceGroupName /\ l = location
  | DeploymentsValidate rg dn p | DeploymentsCreateOrUpdate rg dn p =>
      rg = resourceGroupName /\ dn = timeStamp /\ sends_parameters p
  | DeploymentsGet rg dn | DeploymentOperationsList rg dn =>
      rg = resourceGroupName /\ dn = timeStamp
  | ComponentsGet rg n => rg = resourceGroupName /\ n = resourceGroupName
  | APIKeysCreate rg n options =>
      rg = resourceGroupName /\ n = resourceGroupName
      /\ options = apiKeyOptions this resourceGroupName timeStamp
  | BotsGet rg n | BotsUpdate rg n _ => rg = resourceGroupName /\ n = name
  | _ => False
  end.

(** A call that has nothing to do with Application Insights or with the
    bot registration. *)
Definition not_insights (c : Call) : Prop :=
  match c with
  | ComponentsGet _ _ | APIKeysCreate _ _ _ | BotsGet _ _ | BotsUpdate _ _ _ => False
  | _ => True
  end.

(** [hostname ? hostname : name + '-' + env]. *)
Definition host_of (name env : string) (hostname : option string) : string :=
  match hostname with
  | Some h => if h =? "" then name ++ "-" ++ env else h
  | None => name ++ "-" ++ env
  end.

Definition publishEndpoint_of (name env : string) (hostname : option string) : string :=
  "https://" ++ host_of name env hostname ++ ".scm.azurewebsites.net/zipdeploy/?isAsync=true".

(** The calls of [deploy]: the build of the project, the LU builder, which
    is given the language, [en-us] when there is none, the LUIS requests, which
    carry the access token, and the upload of the archive, with the access
    token, to the site of the bot. *)
Definition deploy_call (this : BotProjectDeploy) (project : JValue) (name environment : string)
    (language hostname : option string) (c : Call) : Prop :=
  match c with
  | BuildDeploy runtimePath p => runtimePath = projPath this /\ p = project
  | LoadContents _ culture suffix _ =>
      culture = JStr (match language with
                      | Some l => if l =? "" then "en-us" else l
                      | None => "en-us"
                      end)
      /\ suffix = JStr environment
  | LuBuild _ | WriteDialogAssets _ _ => True
  | RpGet _ headers | RpPost _ headers _ =>
      lookup headers "Authorization" = Some (JStr ("Bearer " ++ accessToken this))
  | RpPostStream uri bearer file =>
      uri = publishEndpoint_of name environment hostname
      /\ bearer = accessToken this /\ file = zipPath this
  | _ => False
  end.

Definition not_upload (c : Call) : Prop :=
  match c with
  | RpPostStream _ _ _ => False
  | _ => True
  end.

(** The calls of [publishLuis]: the LU builder is given the culture, the
    suffix, the region, the authoring key and the authoring endpoint; the
    requests go to the LUIS endpoint, with the access token and the authoring
    key. *)
Definition luis_call (this : BotProjectDeploy) (workingFolder : Path)
    (name environment language : string)
    (luisEndpoint luisAuthoringEndpoint luisAuthoringKey luisAuthoringRegion : JValue)
    (c : Call) : Prop :=
  let endpoint := endpoint_or_default luisEndpoint luisAuthoringRegion in
  let authoringEndpoint :=
    if truthy luisAuthoringEndpoint then luisAuthoringEndpoint else endpoint in
  match c with
  | LoadContents _ culture suffix region =>
      culture = JStr language /\ suffix = JStr environment /\ region = luisAuthoringRegion
  | LuBuild arguments =>
      exists luContents recognizers multiRecognizers settings,
        arguments = [ luContents; recognizers; luisAuthoringKey; authoringEndpoint;
                      JStr name; JStr environment; JStr language; JBool false;
                      multiRecognizers; settings ]
  | WriteDialogAssets _ folder => folder = path_join workingFolder "generated"
  | RpGet uri headers =>
      uri = to_js_string endpoint ++ "/luis/api/v2.0/azureaccounts"
      /\ headers = luisHeaders this luisAuthoringKey
  | RpPost uri headers _ =>
      (exists luisAppId,
         uri = to_js_string endpoint ++ "/luis/api/v2.0/apps/" ++ luisAppId ++ "/azureaccounts")
      /\ headers = luisHeaders this luisAuthoringKey
  | _ => False
  end.

Definition not_load (c : Call) : Prop :=
  match c with
  | LoadContents _ _ _ _ => False
  | _ => True
  end.

(** A call that, when it validates or applies a template, passes [id] as
    the [appId] parameter. *)
Definition applies_app_id (id : JValue) (c : Call) : Prop :=
  match c with
  | DeploymentsValidate _ _ p | DeploymentsCreateOrUpdate _ _ p =>
      get (get (get p "properties") "parameters") "appId" = pack id
  | _ => True
  end.

Definition not_apply (c : Call) : Prop :=
  match c with
  | DeploymentsCreateOrUpdate _ _ _ => False
  | _ => True
  end.

(** [fs.readFileSync(file).length > 0], for a file that is there. *)
Definition non_empty_file (s : Store) (file : Path) : bool :=
  match stat s file with
  | Some (File (RawText t)) => negb (t =? "")
  | _ => true
  end.

(** The [.lu] files of the build folder that are not empty. *)
Definition modelFiles_of (s : Store) (workingFolder : Path) : list Path :=
  filter (fun name => endsWith (path_string name) ".lu" && non_empty_file s name)
    (files_below s workingFolder).

Definition no_call (c : Call) : Prop := False.

Definition not_request (c : Call) : Prop :=
  match c with
  | RpGet _ _ | RpPost _ _ _ | RpPostStream _ _ _ => False
  | _ => True
  end.

Definition not_operations_list (c : Call) : Prop :=
  match c with
  | DeploymentOperationsList _ _ => False
  | _ => True
  end.

(** [operation.properties.statusMessage.error], for an operation that has
    all of these. *)
Definition error_of (operation : JValue) : JValue :=
  get (get (get operation "properties") "statusMessage") "error".

(** An operation as [deploymentOperations.list] reports it: an object with
    [properties.statusMessage], whose [error] is [null] or an object. *)
Definition reported_operation (operation : JValue) : Prop :=
  nullish operation = false
  /\ nullish (get operation "properties") = false
  /\ nullish (get (get operation "properties") "statusMessage") = false
  /\ (error_of operation = JNull \/ exists fields, error_of operation = JObj fields).

(** What [create] logs about a failed operation. *)
Definition failure_events (operation : JValue) : list LogEvent :=
  let failed := "! Deployment failed for resource of type " ++ resourceType_of operation in
  if is_string (get (error_of operation) "code") "MissingRegistrationForLocation"
  then [ {| ev_status := PROVISION_ERROR;
            ev_message :=
              MText (failed ++ ". This resource is not avaliable in the location provided.") |} ]
  else [ {| ev_status := PROVISION_ERROR; ev_message := MText (failed ++ ".") |};
         {| ev_status := PROVISION_ERROR;
            ev_message :=
              MText ("! Code: " ++ to_js_string (get (error_of operation) "code") ++ ".") |};
         {| ev_status := PROVISION_ERROR;
            ev_message :=
              MText ("! Message: " ++ to_js_string (get (error_of operation) "message")
                     ++ ".") |} ].

(** * The C# runtime template

    The [buildDeploy] step of the runtime registered as [csharp-azurewebapp]
    in [Composer/packages/plugins/runtimes/src/index.ts], the one [deploy]
    calls through [this.runtime.buildDeploy].  What it prints on the console is
    left out. *)

Module CSharpRuntime.

(** The programs it runs on the disk: [dotnet publish project -c release -o
    output] and [fs.copy(src, dest, {overwrite, recursive})]. *)
Record Tools : Type := {
  dotnet_publish : Path -> Path -> Store -> Store * Outcome unit;
  fs_copy : Path -> Path -> Store -> Store * Outcome unit
}.

Definition run_tool (tool : Store -> Store * Outcome unit) : M unit :=
  s <- the_files ;;
  let r := tool s in
  with_files (fun _ => fst r) ;;
  of_outcome (snd r).

(** The content of a new [.deployment] file: two lines. *)
Definition deployment_data : string :=
  "[config]" ++ String (ascii_of_nat 10)
                  "project = Microsoft.BotFramework.Composer.WebApp.csproj".

Definition publishFolder_of (runtimePath : Path) : Path :=
  path_join (path_join (path_join runtimePath "bin") "Release") "netcoreapp3.1".

Definition buildDeploy (T : Tools) (runtimePath : Path) (project : JValue) : M Path :=
  let publishFolder := publishFolder_of runtimePath in
  let deployFilePath := path_join runtimePath ".deployment" in
  let dotnetProjectPath :=
    path_join runtimePath "Microsoft.BotFramework.Composer.WebApp.csproj" in
  deployFileExists <- pathExists deployFilePath ;;
  (if negb deployFileExists then write deployFilePath (File (RawText deployment_data))
   else ret tt) ;;
  run_tool (dotnet_publish T dotnetProjectPath publishFolder) ;;
  let remoteBotPath := path_join publishFolder "ComposerDialogs" in
  let localBotPath := path_join runtimePath "ComposerDialogs" in
  run_tool (fs_copy T localBotPath remoteBotPath) ;;
  ret publishFolder.

(** The step as [deploy] sees it: run on a disk, it leaves a disk and
    returns a path or throws. *)
Definition as_runtime (T : Tools) (runtimePath : Path) (project : JValue) (s : Store)
  : Store * Outcome Path :=
  let r := buildDeploy T runtimePath project
             {| files := s; logged := []; calls := []; tenantId := JUndefined |} in
  (files (snd r), fst r).

End CSharpRuntime.

(** * The card of a node in the visual editor

    The component [CardTemplate]: which parts it renders, in which order and
    with which content.  The styles and the click handlers are left out. *)

Module Card.

(** A [ReactNode] prop: left out ([undefined]), [null], or anything
    else. *)
Inductive ReactNode : Type :=
| Undefined
| Null
| Content (text : string).

Inductive Part : Type :=
| Header (header : ReactNode)
| Body (body : ReactNode)
| Separator
| Footer (footer : ReactNode).

(** [x !== undefined && x !== null]. *)
Definition given (x : ReactNode) : bool :=
  match x with
  | Undefined | Null => false
  | Content _ => true
  end.

Definition is_undefined (x : ReactNode) : bool :=
  match x with
  | Undefined => true
  | _ => false
  end.

Definition CardTemplate (header body footer : ReactNode) : list Part :=
  let displayed := filter given [body; footer] in
  let displayedBody := nth 0 displayed Undefined in
  let displayedFooter := nth 1 displayed Undefined in
  let showFooter := negb (is_undefined displayedFooter) in
  ([Header header; Body displayedBody]
     ++ (if showFooter then [Separator] else [])
     ++ (if showFooter then [Footer footer] else []))%list.

End Card.

(** * More situations to run the methods in *)

Module Cases.

(** An instance that has looked up its tenant already. *)
Definition with_tenant (w : World) : World := set_tenant (JStr "tenant-1") w.

Definition bot_without_token : BotProjectDeploy :=
  constructor
    {| config_subId := "sub-1";
       config_accessToken := "";
       config_creds := JObj [("clientId", JStr "client")];
       config_projPath := ["bot"];
       config_zipPath := None;
       config_settingsPath := None;
       config_templatePath := None |}.

(** A project that was never provisioned: the template is there, a
    settings file is not. *)
Definition new_bot_disk : Store :=
  [ (["bot"], Dir);
    (["bot"; "DeploymentTemplates"], Dir);
    (["bot"; "DeploymentTemplates"; "template-with-preexisting-rg.json"],
     File (JsonText (JObj [("resources", JArr [])]))) ].

(** The cloud in which the deployment is answered with a conflict. *)
Definition cloud_failing_deployment : Env :=
  {| rp_get := rp_get Scenario.cloud;
     remote := fun c =>
       match c with
       | DeploymentsCreateOrUpdate _ _ _ =>
           Ok {| result := JObj [("id", JStr "deployment-1")]; response_status := 409 |}
       | _ => remote Scenario.cloud c
       end;
     runtime_buildDeploy := runtime_buildDeploy Scenario.cloud;
     builder := builder Scenario.cloud;
     getTime := getTime Scenario.cloud;
     JSON_stringify := JSON_stringify Scenario.cloud;
     JSON_stringify_error := JSON_stringify_error Scenario.cloud |}.

Definition operation (resourceType : string) (error : JValue) : JValue :=
  JObj [("properties",
         JObj [("targetResource", JObj [("resourceType", JStr resourceType)]);
               ("statusMessage", JObj [("error", error)])])].

Definition operations : list JValue :=
  [ operation "Microsoft.Web/sites" JNull;
    operation "Microsoft.CognitiveServices/accounts"
      (JObj [("code", JStr "MissingRegistrationForLocation");
             ("message", JStr "not registered")]);
    operation "Microsoft.DocumentDB/databaseAccounts"
      (JObj [("code", JStr "Conflict"); ("message", JStr "name taken")]) ].

(** The cloud in which the deployment has no outputs and two of its three
    operations failed. *)
Definition cloud_without_outputs : Env :=
  {| rp_get := rp_get Scenario.cloud;
     remote := fun c =>
       match c with
       | DeploymentsGet _ _ => Scenario.answer (JObj [("properties", JObj [])])
       | DeploymentOperationsList _ _ => Scenario.answer (JArr operations)
       | _ => remote Scenario.cloud c
       end;
     runtime_buildDeploy := runtime_buildDeploy Scenario.cloud;
     builder := builder Scenario.cloud;
     getTime := getTime Scenario.cloud;
     JSON_stringify := JSON_stringify Scenario.cloud;
     JSON_stringify_error := JSON_stringify_error Scenario.cloud |}.

(** Tools that publish the settings of the project into the output folder
    and create the folder of the dialogs there. *)
Definition tools : CSharpRuntime.Tools :=
  {| CSharpRuntime.dotnet_publish := fun project output s =>
       (put (put s output Dir) (path_join output "appsettings.deployment.json")
          (File (JsonText (JObj []))),
        Ok tt);
     CSharpRuntime.fs_copy := fun src dest s => (put s dest Dir, Ok tt) |}.

Definition cloud_with_csharp_runtime : Env :=
  {| rp_get := rp_get Scenario.cloud;
     remote := remote Scenario.cloud;
     runtime_buildDeploy := CSharpRuntime.as_runtime tools;
     builder := builder Scenario.cloud;
     getTime := getTime Scenario.cloud;
     JSON_stringify := JSON_stringify Scenario.cloud;
     JSON_stringify_error := JSON_stringify_error Scenario.cloud |}.

Definition error_body : JValue :=
  JObj [("error",
         JObj [("message", JStr "The request failed");
               ("details",
                JArr [JObj [("message", JStr "No subscription. ")];
                      JObj [("code", JStr "NoMessage")]])])].

End Cases.

(** * Properties *)

(** ** The model on small inputs *)

Example truthy_samples :
  map truthy [JUndefined; JNull; JBool false; JNum 0; JStr ""; JStr "0"; JNum 7;
              JArr []; JObj []]
  = [false; false; false; false; false; true; true; true; true].
Proof. reflexivity. Qed.

Example Object_assign_sample :
  Object_assign [("a", JNum 1); ("b", JNum 2)] (JObj [("b", JNum 3); ("c", JNull)])
  = [("a", JNum 1); ("b", JNum 3); ("c", JNull)].
Proof. reflexivity. Qed.

Example plain_key_samples :
  map plain_key ["Main_en_us_lu"; "__proto__"; "10"; "0"; ""; "1a"]
  = [true; false; false; false; true; true].
Proof. reflexivity. Qed.

Example prints_exactly_samples :
  map prints_exactly [ JUndefined; JNull; JBool true; JStr "x"; JNum 9007199254740991;
                       JNum 9007199254740992; JNum (-5); JArr []; JObj [] ]
  = [true; true; true; true; true; false; true; false; false].
Proof. reflexivity. Qed.

Example to_js_string_sample :
  to_js_string (JArr [JNum 1; JNull; JStr "x"; JArr [JBool true]]) = "1,,x,true".
Proof. reflexivity. Qed.

Example endsWith_sample :
  (endsWith "/bot/main.lu" ".lu", endsWith "lu" ".lu", includes "/a/luis.settings.dev.json" "luis.settings",
   indexOf "the access token expiry" "access token expiry", indexOf "access token expiry" "access token expiry")
  = (true, false, true, 4%Z, 0%Z).
Proof. reflexivity. Qed.

Example unpackObject_sample :
  unpackObject (JObj [("a", pack (JStr "x")); ("b", pack (JNum 0)); ("c", JStr "no wrapper");
                      ("d", JObj [("type", JStr "String"); ("value", JNum 5)])])
  = Some [("a", JStr "x"); ("d", JNum 5)].
Proof. reflexivity. Qed.

Example unpackObject_null_entry : unpackObject (JObj [("a", JNull)]) = None.
Proof. reflexivity. Qed.


(** * Reasoning about method bodies *)

(** ** Running a body step by step *)

Lemma bind_run {A B : Type} (m : M A) (k : A -> M B) (w : World) :
  bind m k w = match m w with
               | (Ok a, w') => k a w'
               | (Throw e, w') => (Throw e, w')
               end.
Proof. reflexivity. Qed.

Lemma bind_ok_inv {A B : Type} (m : M A) (k : A -> M B) (w w' : World) (b : B) :
  bind m k w = (Ok b, w') ->
  exists a w1, m w = (Ok a, w1) /\ k a w1 = (Ok b, w').
Proof.
  unfold bind. destruct (m w) as [[a | e] w1]; intros H.
  - exists a, w1. split; [reflexivity | exact H].
  - discriminate H.
Qed.

Lemma wp_ret {A : Type} (a : A) Q w : Q (Ok a) w -> wp (ret a) Q w.
Proof. exact (fun H => H). Qed.

Lemma wp_throw {A : Type} (e : Exn) (Q : Outcome A -> World -> Prop) w :
  Q (Throw e) w -> wp (throw e) Q w.
Proof. exact (fun H => H). Qed.

Lemma wp_bind {A B : Type} (m : M A) (k : A -> M B) Q w :
  wp m (fun o w' => match o with
                    | Ok a => wp (k a) Q w'
                    | Throw e => Q (Throw e) w'
                    end) w ->
  wp (bind m k) Q w.
Proof. unfold wp, bind. destruct (m w) as [[a | e] w']; exact (fun H => H). Qed.

Lemma wp_try_catch {A : Type} (m : M A) (h : Exn -> M A) Q w :
  wp m (fun o w' => match o with
                    | Ok a => Q (Ok a) w'
                    | Throw e => wp (h e) Q w'
                    end) w ->
  wp (try_catch m h) Q w.
Proof. unfold wp, try_catch. destruct (m w) as [[a | e] w']; exact (fun H => H). Qed.

Lemma wp_logger st msg Q w :
  Q (Ok tt) (add_log {| ev_status := st; ev_message := msg |} w) -> wp (logger st msg) Q w.
Proof. exact (fun H => H). Qed.

Lemma wp_record_call c Q w : Q (Ok tt) (add_call c w) -> wp (record_call c) Q w.
Proof. exact (fun H => H). Qed.

Lemma wp_the_files Q w : Q (Ok (files w)) w -> wp the_files Q w.
Proof. exact (fun H => H). Qed.

Lemma wp_with_files f Q w : Q (Ok tt) (set_files (f (files w)) w) -> wp (with_files f) Q w.
Proof. exact (fun H => H). Qed.

Lemma wp_the_tenantId Q w : Q (Ok (tenantId w)) w -> wp the_tenantId Q w.
Proof. exact (fun H => H). Qed.

Lemma wp_set_tenantId t Q w : Q (Ok tt) (set_tenant t w) -> wp (set_tenantId t) Q w.
Proof. exact (fun H => H). Qed.

(** ** What a body leaves alone *)

Section Preserves.

Context (R : World -> World -> Prop) `{Frame R}.

Lemma preserves_ret {A : Type} (a : A) : preserves R (ret a).
Proof. intros w. apply frame_refl. Qed.

Lemma preserves_throw {A : Type} (e : Exn) : preserves R (@throw A e).
Proof. intros w. apply frame_refl. Qed.

Lemma preserves_bind {A B : Type} (m : M A) (k : A -> M B) :
  preserves R m -> (forall a, preserves R (k a)) -> preserves R (bind m k).
Proof.
  intros Hm Hk w. unfold bind. specialize (Hm w).
  destruct (m w) as [[a | e] w1]; simpl in *.
  - eapply frame_trans; [exact Hm | apply Hk].
  - exact Hm.
Qed.

Lemma preserves_try_catch {A : Type} (m : M A) (h : Exn -> M A) :
  preserves R m -> (forall e, preserves R (h e)) -> preserves R (try_catch m h).
Proof.
  intros Hm Hh w. unfold try_catch. specialize (Hm w).
  destruct (m w) as [[a | e] w1]; simpl in *.
  - exact Hm.
  - eapply frame_trans; [exact Hm | apply Hh].
Qed.

Lemma preserves_or_throw {A : Type} (o : option A) (e : Exn) : preserves R (or_throw o e).
Proof. destruct o; [apply preserves_ret | apply preserves_throw]. Qed.

Lemma preserves_of_outcome {A : Type} (o : Outcome A) : preserves R (of_outcome o).
Proof. destruct o; [apply preserves_ret | apply preserves_throw]. Qed.

Lemma preserves_prop v k : preserves R (prop v k).
Proof. apply preserves_or_throw. Qed.

Lemma preserves_iterate v : preserves R (iterate v).
Proof. destruct v; first [apply preserves_ret | apply preserves_throw]. Qed.

Lemma preserves_the_files : preserves R the_files.
Proof. intros w. apply frame_refl. Qed.

Lemma preserves_the_tenantId : preserves R the_tenantId.
Proof. intros w. apply frame_refl. Qed.

Lemma preserves_for_each {A : Type} (l : list A) (body : A -> M unit) :
  (forall x, preserves R (body x)) -> preserves R (for_each l body).
Proof.
  intros Hb. induction l as [| x rest IH]; simpl.
  - apply preserves_ret.
  - apply preserves_bind; [apply Hb | intros _; exact IH].
Qed.

Lemma preserves_filter_m {A : Type} (f : A -> M bool) (l : list A) :
  (forall x, preserves R (f x)) -> preserves R (filter_m f l).
Proof.
  intros Hf. induction l as [| x rest IH]; simpl.
  - apply preserves_ret.
  - apply preserves_bind; [apply Hf | intros keep].
    apply preserves_bind; [exact IH | intros kept; apply preserves_ret].
Qed.

Lemma preserves_fold_left {A B : Type} (step : M B -> A -> M B) (l : list A) (init : M B) :
  (forall acc x, preserves R acc -> preserves R (step acc x)) ->
  preserves R init -> preserves R (fold_left step l init).
Proof.
  intros Hs. revert init. induction l as [| x rest IH]; simpl; intros init Hi.
  - exact Hi.
  - apply IH, Hs, Hi.
Qed.

Lemma preserves_pathExists p : preserves R (pathExists p).
Proof. apply preserves_bind; [apply preserves_the_files | intros s; apply preserves_ret]. Qed.

Lemma preserves_read_node p : preserves R (read_node p).
Proof.
  apply preserves_bind; [apply preserves_the_files | intros s].
  destruct (stat s p) as [[| t | es] |]; first [apply preserves_ret | apply preserves_throw].
Qed.

Lemma preserves_readFile p : preserves R (readFile p).
Proof.
  apply preserves_bind; [apply preserves_read_node | intros n].
  destruct n; first [apply preserves_ret | apply preserves_throw].
Qed.

Lemma preserves_readJson p : preserves R (readJson p).
Proof.
  apply preserves_bind; [apply preserves_read_node | intros n].
  destruct n; first [apply preserves_or_throw | apply preserves_throw].
Qed.

End Preserves.


(** ** The relations between worlds that the proofs use *)

#[export] Instance same_files_frame : Frame same_files.
Proof.
  split; unfold same_files.
  - reflexivity.
  - intros w1 w2 w3 H12 H23. congruence.
Qed.

#[export] Instance calls_within_frame (P : Call -> Prop) : Frame (calls_within P).
Proof.
  split; unfold calls_within.
  - intros w. exists []. split; [symmetry; apply app_nil_r | constructor].
  - intros w1 w2 w3 (l1 & E1 & F1) (l2 & E2 & F2).
    exists (l1 ++ l2)%list. split.
    + rewrite E2, E1. symmetry. apply app_assoc.
    + apply Forall_app. split; assumption.
Qed.

#[export] Instance both_frame (R1 R2 : World -> World -> Prop) `{Frame R1} `{Frame R2} :
  Frame (both R1 R2).
Proof.
  split; unfold both.
  - intros w. split; apply frame_refl.
  - intros w1 w2 w3 [A1 A2] [B1 B2]. split; eapply frame_trans; eassumption.
Qed.

Create HintDb frame.

Lemma same_files_add_log ev w : same_files w (add_log ev w).
Proof. reflexivity. Qed.

Lemma same_files_add_call c w : same_files w (add_call c w).
Proof. reflexivity. Qed.

Lemma same_files_set_tenant t w : same_files w (set_tenant t w).
Proof. reflexivity. Qed.

Lemma calls_within_add_log P ev w : calls_within P w (add_log ev w).
Proof. exists []. split; [symmetry; apply app_nil_r | constructor]. Qed.

Lemma calls_within_set_files P s w : calls_within P w (set_files s w).
Proof. exists []. split; [symmetry; apply app_nil_r | constructor]. Qed.

Lemma calls_within_set_tenant P t w : calls_within P w (set_tenant t w).
Proof. exists []. split; [symmetry; apply app_nil_r | constructor]. Qed.

Lemma calls_within_add_call (P : Call -> Prop) c w : P c -> calls_within P w (add_call c w).
Proof. intros Hc. exists [c]. split; [reflexivity | constructor; [exact Hc | constructor]]. Qed.

Lemma both_intro (R1 R2 : World -> World -> Prop) w w' :
  R1 w w' -> R2 w w' -> both R1 R2 w w'.
Proof. split; assumption. Qed.

#[export] Hint Resolve same_files_add_log same_files_add_call same_files_set_tenant
  calls_within_add_log calls_within_set_files calls_within_set_tenant
  calls_within_add_call both_intro : frame.

Section PreservesPrimitives.

Context (R : World -> World -> Prop).

Lemma preserves_logger st msg :
  (forall ev w, R w (add_log ev w)) -> preserves R (logger st msg).
Proof. intros HR w. apply HR. Qed.

Lemma preserves_record_call c :
  (forall w, R w (add_call c w)) -> preserves R (record_call c).
Proof. intros HR w. apply HR. Qed.

Lemma preserves_with_files f :
  (forall s w, R w (set_files s w)) -> preserves R (with_files f).
Proof. intros HR w. apply HR. Qed.

Lemma preserves_set_tenantId t :
  (forall w, R w (set_tenant t w)) -> preserves R (set_tenantId t).
Proof. intros HR w. apply HR. Qed.

End PreservesPrimitives.

(** The side condition of a step: the relation holds across one update of
    the world.  For a recorded call, what is left is that the call is one of
    those the relation allows. *)
Ltac frame_side :=
  intros;
  lazymatch goal with
  | |- both _ _ _ _ => apply both_intro; frame_side
  | |- calls_within _ _ (add_call _ _) =>
      apply calls_within_add_call; simpl; try exact I; try reflexivity
  | |- _ => auto with frame
  end.

(** One step of a proof that a body preserves a relation, read off the
    shape of the body. *)
Ltac preserve_step :=
  lazymatch goal with
  | |- preserves ?R (bind _ _) => apply (@preserves_bind R _); [| intros ?]
  | |- preserves ?R (try_catch _ _) => apply (@preserves_try_catch R _); [| intros ?]
  | |- preserves ?R (ret _) => apply (@preserves_ret R _)
  | |- preserves ?R (throw _) => apply (@preserves_throw R _)
  | |- preserves ?R (or_throw _ _) => apply (@preserves_or_throw R _)
  | |- preserves ?R (of_outcome _) => apply (@preserves_of_outcome R _)
  | |- preserves ?R (prop _ _) => apply (@preserves_prop R _)
  | |- preserves ?R (iterate _) => apply (@preserves_iterate R _)
  | |- preserves ?R the_files => apply (@preserves_the_files R _)
  | |- preserves ?R the_tenantId => apply (@preserves_the_tenantId R _)
  | |- preserves ?R (pathExists _) => apply (@preserves_pathExists R _)
  | |- preserves ?R (read_node _) => apply (@preserves_read_node R _)
  | |- preserves ?R (readFile _) => apply (@preserves_readFile R _)
  | |- preserves ?R (readJson _) => apply (@preserves_readJson R _)
  | |- preserves ?R (for_each _ _) => apply (@preserves_for_each R _); intros ?
  | |- preserves ?R (filter_m _ _) => apply (@preserves_filter_m R _); intros ?
  | |- preserves ?R (fold_left _ _ _) => apply (@preserves_fold_left R _); [intros ? ? ? |]
  | |- preserves _ (logger _ _) => apply preserves_logger; frame_side
  | |- preserves _ (record_call _) => apply preserves_record_call; frame_side
  | |- preserves _ (with_files _) => apply preserves_with_files; frame_side
  | |- preserves _ (set_tenantId _) => apply preserves_set_tenantId; frame_side
  | |- preserves _ (if ?b then _ else _) => destruct b
  | |- preserves _ (match ?x with _ => _ end) => destruct x
  | |- preserves _ _ => first [assumption | progress cbv zeta]
  end.

Ltac preserve := repeat preserve_step.


#[export] Instance eq_frame : Frame (@eq World).
Proof. split; [reflexivity | intros w1 w2 w3 H12 H23; congruence]. Qed.

Lemma unchanged {A : Type} (m : M A) (w w' : World) (o : Outcome A) :
  preserves eq m -> m w = (o, w') -> w' = w.
Proof. intros Hm Hrun. specialize (Hm w). rewrite Hrun in Hm. symmetry. exact Hm. Qed.

Lemma kept {A : Type} (R : World -> World -> Prop) (m : M A) (w w' : World) (o : Outcome A) :
  preserves R m -> m w = (o, w') -> R w w'.
Proof. intros Hm Hrun. specialize (Hm w). rewrite Hrun in Hm. exact Hm. Qed.

(** ** Stepping through a body with a postcondition *)

Lemma wp_frame {A : Type} (R : World -> World -> Prop) (m : M A)
    (Q : Outcome A -> World -> Prop) w :
  preserves R m -> (forall o w1, R w w1 -> Q o w1) -> wp m Q w.
Proof. intros Hm HQ. unfold wp. apply HQ, Hm. Qed.

Lemma wp_unbind {A B : Type} (m : M A) (k : A -> M B) Q w :
  wp (bind m k) Q w ->
  wp m (fun o w' => match o with
                    | Ok a => wp (k a) Q w'
                    | Throw e => Q (Throw e) w'
                    end) w.
Proof. unfold wp, bind. destruct (m w) as [[a | e] w']; exact (fun H => H). Qed.

Lemma wp_bind_frame_acc {A B : Type} (R : World -> World -> Prop) `{Frame R}
    (m : M A) (k : A -> M B) Q w0 w :
  R w0 w -> preserves R m ->
  (forall e w1, R w0 w1 -> Q (Throw e) w1) ->
  (forall a w1, R w0 w1 -> wp (k a) Q w1) ->
  wp (bind m k) Q w.
Proof.
  intros Hw Hm Hthrow Hk. apply wp_bind. unfold wp.
  pose proof (frame_trans _ _ _ Hw (Hm w)) as Hw1.
  destruct (fst (m w)); [apply Hk | apply Hthrow]; exact Hw1.
Qed.

Ltac wp_step :=
  lazymatch goal with
  | |- wp (bind _ _) _ _ => apply wp_bind
  | |- wp (try_catch _ _) _ _ => apply wp_try_catch
  | |- wp (ret _) _ _ => apply wp_ret
  | |- wp (throw _) _ _ => apply wp_throw
  | |- wp (logger _ _) _ _ => apply wp_logger
  | |- wp (record_call _) _ _ => apply wp_record_call
  | |- wp the_files _ _ => apply wp_the_files
  | |- wp (with_files _) _ _ => apply wp_with_files
  | |- wp the_tenantId _ _ => apply wp_the_tenantId
  | |- wp (set_tenantId _) _ _ => apply wp_set_tenantId
  | |- wp (or_throw _ _) _ _ => unfold or_throw
  | |- wp (of_outcome _) _ _ => unfold of_outcome
  | |- wp (prop _ _) _ _ => unfold prop
  | |- wp (pathExists _) _ _ => unfold pathExists
  | |- wp (readJson _) _ _ => unfold readJson
  | |- wp (readFile _) _ _ => unfold readFile
  | |- wp (read_node _) _ _ => unfold read_node
  | |- wp _ _ _ => progress cbv zeta
  end; cbv beta iota.

Ltac wp_steps := repeat wp_step.

(** ** Returned values *)

Lemma returns_ret {A : Type} (a : A) (P : A -> Prop) : P a -> returns (ret a) P.
Proof. intros Ha w a' w' Hrun. injection Hrun as <- _. exact Ha. Qed.

Lemma returns_throw {A : Type} (e : Exn) (P : A -> Prop) : returns (throw e) P.
Proof. intros w a w' Hrun. discriminate Hrun. Qed.

Lemma returns_bind {A B : Type} (m : M A) (k : A -> M B) (P : B -> Prop) :
  (forall a, returns (k a) P) -> returns (bind m k) P.
Proof.
  intros Hk w b w' Hrun. apply bind_ok_inv in Hrun as (a & w1 & _ & Hrun).
  exact (Hk a w1 b w' Hrun).
Qed.

Lemma returns_bind_with {A B : Type} (m : M A) (k : A -> M B) (P0 : A -> Prop)
    (P : B -> Prop) :
  returns m P0 -> (forall a, P0 a -> returns (k a) P) -> returns (bind m k) P.
Proof.
  intros Hm Hk w b w' Hrun. apply bind_ok_inv in Hrun as (a & w1 & Hrun0 & Hrun).
  exact (Hk a (Hm w a w1 Hrun0) w1 b w' Hrun).
Qed.

Lemma wp_of_frame_returns {A : Type} (R : World -> World -> Prop) (P : A -> Prop) (m : M A)
    (Q : Outcome A -> World -> Prop) w :
  preserves R m -> returns m P ->
  (forall o w1, R w w1 -> (forall a, o = Ok a -> P a) -> Q o w1) ->
  wp m Q w.
Proof.
  intros Hpres Hret HQ. unfold wp. apply HQ; [apply Hpres |].
  intros a Ha. apply (Hret w a (snd (m w))).
  rewrite <- Ha. apply surjective_pairing.
Qed.

(** A step of a proof of [returns]: the steps before the one that decides
    the returned value are passed over; [decide_with] is the step that
    decides it. *)
Ltac returns_step decide_with :=
  lazymatch goal with
  | |- returns (bind _ _) _ => first [decide_with | apply returns_bind; intros ?]
  | |- returns (ret _) _ => apply returns_ret; assumption
  | |- returns (throw _) _ => apply returns_throw
  | |- returns (if ?b then _ else _) _ => destruct b
  | |- returns (match ?x with _ => _ end) _ => destruct x
  end.

(** ** Inverting the run of a step *)

Lemma or_throw_inv {A : Type} (o : option A) (e : Exn) (w w' : World) (a : A) :
  or_throw o e w = (Ok a, w') -> o = Some a /\ w' = w.
Proof.
  destruct o as [a' |]; simpl; intros H.
  - injection H as <- <-. split; reflexivity.
  - discriminate H.
Qed.

Lemma readJson_inv p w w' v :
  readJson p w = (Ok v, w') -> stat (files w) p = Some (File (JsonText v)) /\ w' = w.
Proof.
  unfold readJson, read_node, bind, the_files.
  destruct (stat (files w) p) as [[| [v' | s] | es] |]; simpl; intros H;
    try discriminate H.
  injection H as <- <-. split; reflexivity.
Qed.

Lemma writeJson_inv p v w w' :
  writeJson p v w = (Ok tt, w') ->
  w' = set_files (put (files w) p (File (JsonText (jsonify v)))) w.
Proof.
  unfold writeJson, write, bind, the_files, with_files.
  destruct (stat (files w) p) as [[| t | es] |]; simpl; intros H;
    try discriminate H; try (injection H as <-; reflexivity).
  destruct (is_dir (files w) (parent p)); simpl in H;
    [injection H as <-; reflexivity | discriminate H].
Qed.

(** ** Facts about objects *)

Lemma get_nullish v k : nullish v = true -> get v k = JUndefined.
Proof. destruct v; simpl; intros H; try discriminate H; reflexivity. Qed.

Lemma truthy_get_not_nullish v k : truthy (get v k) = true -> nullish v = false.
Proof.
  intros H. destruct (nullish v) eqn:Hn; [| reflexivity].
  rewrite (get_nullish v k Hn) in H. discriminate H.
Qed.

Lemma lookup_set_field_same fields k v : lookup (set_field fields k v) k = Some v.
Proof.
  induction fields as [| [k' v'] rest IH]; simpl.
  - rewrite String.eqb_refl. reflexivity.
  - destruct (k' =? k) eqn:Hk; simpl.
    + rewrite String.eqb_refl. reflexivity.
    + rewrite Hk. exact IH.
Qed.

Lemma lookup_set_field_other fields k k' v :
  k <> k' -> lookup (set_field fields k v) k' = lookup fields k'.
Proof.
  intros Hne. induction fields as [| [k0 v0] rest IH]; simpl.
  - destruct (k =? k') eqn:Hk; [apply String.eqb_eq in Hk; contradiction | reflexivity].
  - destruct (k0 =? k) eqn:Hk; simpl.
    + apply String.eqb_eq in Hk. subst k0.
      destruct (k =? k') eqn:Hk'; [apply String.eqb_eq in Hk'; contradiction | reflexivity].
    + destruct (k0 =? k'); [reflexivity | exact IH].
Qed.

Lemma has_key_set_field fields k v k' :
  has_key (set_field fields k v) k' = (k =? k') || has_key fields k'.
Proof.
  unfold has_key. destruct (k =? k') eqn:Hk.
  - apply String.eqb_eq in Hk. subst k'. rewrite lookup_set_field_same. reflexivity.
  - apply String.eqb_neq in Hk. rewrite (lookup_set_field_other _ _ _ _ Hk). reflexivity.
Qed.

Lemma lookup_none_not_key fields k :
  existsb (String.eqb k) (map fst fields) = false -> lookup fields k = None.
Proof.
  induction fields as [| [k0 v0] rest IH]; simpl; intros H; [reflexivity |].
  apply orb_false_iff in H as [Hk Hrest]. rewrite String.eqb_sym in Hk.
  rewrite Hk. exact (IH Hrest).
Qed.

Lemma unpack_fold_none output l : fold_left (unpack_step output) l None = None.
Proof. induction l as [| key rest IH]; simpl; [reflexivity | exact IH]. Qed.

Lemma unpack_fold output l : forall acc res,
  fold_left (unpack_step output) l (Some acc) = Some res ->
  forall k,
    lookup res k =
    if existsb (String.eqb k) l && truthy (get (get output k) "value")
    then Some (get (get output k) "value")
    else lookup acc k.
Proof.
  induction l as [| key rest IH]; simpl; intros acc res Hfold k.
  - injection Hfold as <-. reflexivity.
  - unfold get_strict in Hfold.
    destruct (nullish (get output key)) eqn:Hnull.
    { rewrite unpack_fold_none in Hfold. discriminate Hfold. }
    destruct (truthy (get (get output key) "value")) eqn:Htruthy.
    + rewrite (IH _ _ Hfold k).
      destruct (k =? key) eqn:Hk; simpl.
      * apply String.eqb_eq in Hk. subst k. rewrite Htruthy.
        destruct (existsb _ rest); simpl; [reflexivity | apply lookup_set_field_same].
      * apply String.eqb_neq in Hk.
        rewrite lookup_set_field_other by (intros Heq; apply Hk; symmetry; exact Heq).
        reflexivity.
    + rewrite (IH _ _ Hfold k).
      destruct (k =? key) eqn:Hk; simpl; [| reflexivity].
      apply String.eqb_eq in Hk. subst k. rewrite Htruthy, andb_false_r.
      reflexivity.
Qed.

Lemma unpackObject_lookup output unpacked :
  unpackObject output = Some unpacked ->
  forall k,
    lookup unpacked k =
    if truthy (get (get output k) "value") then Some (get (get output k) "value") else None.
Proof.
  intros Hun k. unfold unpackObject in Hun.
  rewrite (unpack_fold _ _ _ _ Hun k). simpl.
  destruct (existsb (String.eqb k) (keys output)) eqn:Hin; simpl; [reflexivity |].
  unfold keys in Hin. apply lookup_none_not_key in Hin.
  unfold get at 2. rewrite Hin. reflexivity.
Qed.

Lemma unpackObject_has_key output unpacked :
  unpackObject output = Some unpacked ->
  forall k, has_key unpacked k = truthy (get (get output k) "value").
Proof.
  intros Hun k. unfold has_key. rewrite (unpackObject_lookup _ _ Hun k).
  destruct (truthy _); reflexivity.
Qed.

Lemma has_key_Object_assign_obj target fields k :
  has_key (Object_assign target (JObj fields)) k
  = existsb (String.eqb k) (map fst fields) || has_key target k.
Proof.
  unfold Object_assign. simpl. revert target.
  induction fields as [| [k0 v0] rest IH]; simpl; intros target; [reflexivity |].
  rewrite IH, has_key_set_field. rewrite (String.eqb_sym k k0).
  destruct (k0 =? k), (existsb _ _), (has_key target k); reflexivity.
Qed.

Lemma existsb_keys_has_key fields k :
  existsb (String.eqb k) (map fst fields) = has_key fields k.
Proof.
  unfold has_key. induction fields as [| [k0 v0] rest IH]; simpl; [reflexivity |].
  rewrite (String.eqb_sym k k0). destruct (k0 =? k); simpl; [reflexivity | exact IH].
Qed.

Lemma lookup_not_key fields k : ~ In k (map fst fields) -> lookup fields k = None.
Proof.
  induction fields as [| [k0 v0] rest IH]; simpl; intros Hnot; [reflexivity |].
  destruct (k0 =? k) eqn:Hk.
  - apply String.eqb_eq in Hk. destruct Hnot. left. exact Hk.
  - apply IH. intros Hin. apply Hnot. right. exact Hin.
Qed.

Lemma lookup_fold_set_field props : forall target k,
  NoDup (map fst props) ->
  lookup (fold_left (fun t kv => set_field t (fst kv) (snd kv)) props target) k
  = match lookup props k with
    | Some v => Some v
    | None => lookup target k
    end.
Proof.
  induction props as [| [k0 v0] rest IH]; simpl; intros target k Hnodup; [reflexivity |].
  inversion Hnodup as [| ? ? Hnot Hrest]; subst.
  rewrite (IH _ _ Hrest).
  destruct (k0 =? k) eqn:Hk.
  - apply String.eqb_eq in Hk. subst k0.
    rewrite (lookup_not_key _ _ Hnot). apply lookup_set_field_same.
  - apply String.eqb_neq in Hk.
    rewrite (lookup_set_field_other _ _ _ _ Hk). reflexivity.
Qed.

Lemma lookup_Object_assign target source k :
  NoDup (keys source) ->
  lookup (Object_assign target source) k
  = match lookup (own_props source) k with
    | Some v => Some v
    | None => lookup target k
    end.
Proof. intros Hnodup. apply lookup_fold_set_field. exact Hnodup. Qed.

Lemma nodup_set_field fields k v :
  NoDup (map fst fields) -> NoDup (map fst (set_field fields k v)).
Proof.
  induction fields as [| [k0 v0] rest IH]; simpl; intros Hnd.
  - constructor; [intros [] | constructor].
  - inversion Hnd as [| ? ? Hnot Hrest]; subst.
    destruct (k0 =? k) eqn:Hk; simpl.
    + apply String.eqb_eq in Hk. subst k0. constructor; assumption.
    + constructor; [| apply IH; exact Hrest].
      intros Hin. apply Hnot. clear - Hin Hk.
      induction rest as [| [k1 v1] rest IH]; simpl in *.
      * destruct Hin as [Heq | []]. subst k. rewrite String.eqb_refl in Hk. discriminate Hk.
      * destruct (k1 =? k) eqn:Hk1; simpl in Hin.
        -- apply String.eqb_eq in Hk1. subst k1. exact Hin.
        -- destruct Hin as [Heq | Hin]; [left; exact Heq | right; apply IH; exact Hin].
Qed.

Lemma nodup_Object_assign target source :
  NoDup (map fst target) -> NoDup (map fst (Object_assign target source)).
Proof.
  unfold Object_assign. generalize (own_props source) as props. intros props. revert target.
  induction props as [| [k v] rest IH]; simpl; intros target Hnd; [exact Hnd |].
  apply IH, nodup_set_field, Hnd.
Qed.

Lemma get_jsonify_field fields k v :
  lookup fields k = Some v -> v <> JUndefined ->
  get (jsonify (JObj fields)) k = jsonify v.
Proof.
  intros Hlook Hdef. unfold get. simpl.
  induction fields as [| [k0 x] rest IH]; simpl in *; [discriminate Hlook |].
  destruct (k0 =? k) eqn:Hk.
  - injection Hlook as ->.
    destruct v; try (simpl; rewrite Hk; reflexivity). contradiction.
  - destruct x; simpl; rewrite ?Hk; apply IH; exact Hlook.
Qed.

Lemma lookup_jsonify_not_key fields k :
  lookup fields k = None ->
  get (jsonify (JObj fields)) k = JUndefined.
Proof.
  unfold get. simpl.
  induction fields as [| [k0 x] rest IH]; simpl; intros Hnone; [reflexivity |].
  destruct (k0 =? k) eqn:Hk; [discriminate Hnone |].
  destruct x; simpl; rewrite ?Hk; apply IH; exact Hnone.
Qed.

Lemma JValue_undefined_dec (v : JValue) : {v = JUndefined} + {v <> JUndefined}.
Proof. destruct v; first [left; reflexivity | right; discriminate]. Qed.

Lemma get_jsonify fields k :
  NoDup (map fst fields) ->
  get (jsonify (JObj fields)) k = jsonify (get (JObj fields) k).
Proof.
  intros Hnodup. destruct (lookup fields k) as [v |] eqn:Hlook.
  - unfold get at 2. simpl. rewrite Hlook.
    destruct (JValue_undefined_dec v) as [-> | Hdef].
    + clear - Hnodup Hlook. unfold get. simpl.
      induction fields as [| [k0 x] rest IH]; simpl in *; [discriminate Hlook |].
      inversion Hnodup as [| ? ? Hnot Hrest]; subst.
      destruct (k0 =? k) eqn:Hk.
      * injection Hlook as ->. apply String.eqb_eq in Hk. subst k0.
        apply (lookup_jsonify_not_key rest k). apply lookup_not_key. exact Hnot.
      * destruct x; simpl; rewrite ?Hk; apply IH; assumption.
    + apply get_jsonify_field; assumption.
  - rewrite (lookup_jsonify_not_key _ _ Hlook). unfold get. simpl. rewrite Hlook.
    reflexivity.
Qed.

(** ** Facts about the disk *)

Lemma path_eqb_refl p : path_eqb p p = true.
Proof. unfold path_eqb. destruct (path_eq_dec p p); [reflexivity | contradiction]. Qed.

Lemma stat_put_same s p n : p <> [] -> stat (put s p n) p = Some n.
Proof.
  intros Hp. destruct p as [| a p']; [contradiction |].
  unfold stat. induction s as [| [q m] rest IH]; simpl.
  - rewrite path_eqb_refl. reflexivity.
  - destruct (path_eqb q (a :: p')) eqn:Hq; simpl.
    + rewrite path_eqb_refl. reflexivity.
    + rewrite Hq. exact IH.
Qed.

Lemma relative_to_app dir : forall p rel, relative_to dir p = Some rel -> p = (dir ++ rel)%list.
Proof.
  induction dir as [| a dir' IH]; intros p rel H.
  - destruct p; simpl in H; [discriminate H | injection H as <-; reflexivity].
  - destruct p as [| b p']; simpl in H; [discriminate H |].
    destruct (a =? b) eqn:Hab; [| discriminate H].
    apply String.eqb_eq in Hab. subst b. simpl. f_equal. apply IH. exact H.
Qed.

Lemma glob_In s cwd ignore rel :
  In rel (glob s cwd ignore) ->
  ~ In rel ignore /\ exists e, In e s /\ relative_to cwd (fst e) = Some rel.
Proof.
  unfold glob. intros H. apply filter_In in H as [Hin Hkeep]. split.
  - intros Hign. apply negb_true_iff in Hkeep.
    assert (existsb (path_eqb rel) ignore = true) as Habs.
    { apply existsb_exists. exists rel. split; [exact Hign | apply path_eqb_refl]. }
    rewrite Habs in Hkeep. discriminate Hkeep.
  - apply in_flat_map in Hin as (e & He & Hrel). exists e. split; [exact He |].
    destruct (relative_to cwd (fst e)) as [rel' |]; [| destruct Hrel].
    destruct Hrel as [-> | []]. reflexivity.
Qed.


(** ** Provisioning: [create] *)

Section CreateProps.

Variable E : Env.
Variable this : BotProjectDeploy.

Lemma call_returns c : returns (call E c) (fun r => remote E c = Ok r).
Proof.
  unfold call. apply returns_bind. intros _.
  intros w a w' Hrun. unfold of_outcome in Hrun.
  destruct (remote E c); [injection Hrun as <- _; reflexivity | discriminate Hrun].
Qed.

Lemma getTenantId_same_files : preserves same_files (getTenantId E this).
Proof. unfold getTenantId, getErrorMesssage. preserve. Qed.

Lemma create_same_files name location environment appPassword createLuisResource
    createLuisAuthoringResource createCosmosDb createStorage createAppInsights :
  preserves same_files
    (create E this name location environment appPassword createLuisResource
       createLuisAuthoringResource createCosmosDb createStorage createAppInsights).
Proof.
  unfold create, linkAppInsights, reportFailedOperations, updateDeploymentJsonFile,
    validateDeployment, createDeployment, createResourceGroup, createApp, readTemplateFile,
    status_of, statusMessage_error, call.
  preserve. apply getTenantId_same_files.
Qed.

Lemma getTenantId_frame id :
  preserves (both same_files (calls_within (uses_app_id id))) (getTenantId E this).
Proof. unfold getTenantId, getErrorMesssage. preserve. Qed.

Lemma updateDeploymentJsonFile_appId rg dn appId pw :
  returns (updateDeploymentJsonFile E rg dn appId pw)
    (fun v => forall r, v = JObj r -> lookup r "MicrosoftAppId" = Some appId).
Proof.
  unfold updateDeploymentJsonFile. apply returns_bind. intros outputs. cbv zeta.
  destruct (truthy _).
  - apply returns_bind. intros outputObj. apply returns_ret.
    intros r Hr. injection Hr as <-.
    unfold Object_assign at 1. simpl.
    rewrite lookup_set_field_other by discriminate.
    apply lookup_set_field_same.
  - apply returns_ret. intros r Hr. discriminate Hr.
Qed.

Lemma updateDeploymentJsonFile_keys rg dn appId pw :
  returns (updateDeploymentJsonFile E rg dn appId pw)
    (fun v => forall r, v = JObj r ->
       exists outputs,
         remote E (DeploymentsGet rg dn) = Ok outputs
         /\ forall k,
              has_key r k =
              (k =? "MicrosoftAppId") || (k =? "MicrosoftAppPassword")
              || truthy (get (get (outputs_of outputs) k) "value")).
Proof.
  unfold updateDeploymentJsonFile.
  eapply returns_bind_with; [apply call_returns |]. cbv beta zeta. intros outputs Hcall.
  fold (outputs_of outputs).
  destruct (truthy (outputs_of outputs)).
  - intros w a w' Hrun. apply bind_ok_inv in Hrun as (outputObj & w1 & Hun & Hrun).
    injection Hrun as <- _. intros r Hr. injection Hr as <-.
    exists outputs. split; [exact Hcall |]. intros k.
    apply or_throw_inv in Hun as [Hunpack _].
    rewrite !has_key_Object_assign_obj. simpl.
    rewrite existsb_keys_has_key, (unpackObject_has_key _ _ Hunpack k).
    unfold has_key at 1. simpl.
    destruct (k =? "MicrosoftAppId"), (k =? "MicrosoftAppPassword"), (truthy _); reflexivity.
  - apply returns_ret. intros r Hr. discriminate Hr.
Qed.

Lemma create_record_keys name location environment appPassword createLuisResource
    createLuisAuthoringResource createCosmosDb createStorage createAppInsights :
  returns (create E this name location environment appPassword createLuisResource
             createLuisAuthoringResource createCosmosDb createStorage createAppInsights)
    (fun v => forall r, v = JObj r ->
       exists outputs,
         remote E (DeploymentsGet (name ++ "-" ++ environment) (string_of_Z (getTime E)))
         = Ok outputs
         /\ forall k,
              has_key r k =
              (k =? "MicrosoftAppId") || (k =? "MicrosoftAppPassword")
              || truthy (get (get (outputs_of outputs) k) "value")).
Proof.
  unfold create. cbv zeta.
  repeat returns_step
    ltac:(eapply returns_bind_with;
          [apply updateDeploymentJsonFile_keys | cbv beta; intros ? ?]).
Qed.

(** C6.  When the settings file holds a MicrosoftAppId (a truthy one, that
    is a non-empty string), [create] never calls the application-registration
    creation API, whatever app password it is given: every call it makes is
    another one, the template is validated and applied with that id as its
    [appId] parameter, and the record it returns, when it returns one, carries
    that id as MicrosoftAppId. *)
Theorem create_reuses_MicrosoftAppId name location environment appPassword
    createLuisResource createLuisAuthoringResource createCosmosDb createStorage
    createAppInsights w settings :
  stat (files w) (settingsPath this) = Some (File (JsonText settings)) ->
  truthy (get settings "MicrosoftAppId") = true ->
  let run := create E this name location environment appPassword createLuisResource
               createLuisAuthoringResource createCosmosDb createStorage createAppInsights w in
  calls_within (uses_app_id (get settings "MicrosoftAppId")) w (snd run)
  /\ forall r, fst run = Ok (JObj r) ->
               lookup r "MicrosoftAppId" = Some (get settings "MicrosoftAppId").
Proof.
  intros Hstat Htruthy. set (id := get settings "MicrosoftAppId") in *.
  cbv zeta.
  change (wp (create E this name location environment appPassword createLuisResource
                createLuisAuthoringResource createCosmosDb createStorage createAppInsights)
            (fun o w' => calls_within (uses_app_id id) w w'
                         /\ forall r, o = Ok (JObj r) -> lookup r "MicrosoftAppId" = Some id) w).
  unfold create.
  wp_steps.
  apply (wp_frame (both same_files (calls_within (uses_app_id id)))).
  { destruct (negb _); preserve. apply getTenantId_frame. }
  intros o w1 [Hfiles Hcalls]. destruct o as [[] | e].
  2: { split; [exact Hcalls | intros r Hr; discriminate Hr]. }
  wp_steps.
  destruct (get_strict (creds this) "clientId"); wp_steps.
  2: { split; [exact Hcalls | intros r Hr; discriminate Hr]. }
  rewrite Hfiles, Hstat. wp_steps. rewrite Hfiles, Hstat. wp_steps.
  unfold JSON_parse. wp_steps.
  unfold get_strict. rewrite (truthy_get_not_nullish _ _ Htruthy).
  wp_step. wp_step. fold id. rewrite Htruthy. cbn [negb]. wp_step.
  apply (wp_of_frame_returns (calls_within (uses_app_id id))
           (fun v => forall r, v = JObj r -> lookup r "MicrosoftAppId" = Some id)).
  - unfold createResourceGroup, validateDeployment, createDeployment, linkAppInsights,
      reportFailedOperations, updateDeploymentJsonFile, readTemplateFile, status_of,
      statusMessage_error, call.
    preserve.
  - repeat returns_step
      ltac:(eapply returns_bind_with;
            [apply updateDeploymentJsonFile_appId | cbv beta; intros ? ?]).
  - intros o w2 Hcalls2 Hret. split.
    + exact (frame_trans _ _ _ Hcalls Hcalls2).
    + intros r Hr. exact (Hret _ Hr r eq_refl).
Qed.

(** C5.  Take any run of [create] in which the template was sent for
    validation and the answer carried an [error] object.  Then [create]
    throws the error built from the message of that object, the last things
    it logged are the error, the hint to delete the resource group and the
    nested [details] list, and the create-or-update call was never made. *)
Theorem create_throws_on_validation_error name location environment appPassword
    createLuisResource createLuisAuthoringResource createCosmosDb createStorage
    createAppInsights w rg dn p r error :
  let run := create E this name location environment appPassword createLuisResource
               createLuisAuthoringResource createCosmosDb createStorage createAppInsights w in
  forall made,
    calls (snd run) = (calls w ++ made)%list ->
    In (DeploymentsValidate rg dn p) made ->
    remote E (DeploymentsValidate rg dn p) = Ok r ->
    get (result r) "error" = JObj error ->
    fst run = Throw (JsError ("! Error: " ++ to_js_string (get (JObj error) "message")))
    /\ (forall rg' dn' p', ~ In (DeploymentsCreateOrUpdate rg' dn' p') made)
    /\ exists earlier,
         logged (snd run) =
         (earlier ++
          [ {| ev_status := PROVISION_ERROR;
               ev_message := MText "! Template is not valid with provided parameters. Review the log for more information." |};
            {| ev_status := PROVISION_ERROR;
               ev_message := MText ("! Error: " ++ to_js_string (get (JObj error) "message")) |};
            {| ev_status := PROVISION_ERROR;
               ev_message := MText (delete_hint (name ++ "-" ++ environment)) |};
            {| ev_status := PROVISION_ERROR_DETAILS;
               ev_message := MValue (get (JObj error) "details") |} ])%list.
Proof.
  cbv zeta. intros made Hmade Hin Hresp Herror. revert made Hmade Hin.
  set (Q := fun (o : Outcome JValue) (w' : World) =>
              forall made, calls w' = (calls w ++ made)%list ->
                In (DeploymentsValidate rg dn p) made ->
                o = Throw (JsError ("! Error: " ++ to_js_string (get (JObj error) "message")))
                /\ (forall rg' dn' p', ~ In (DeploymentsCreateOrUpdate rg' dn' p') made)
                /\ exists earlier,
                     logged w' =
                     (earlier ++
                      [ {| ev_status := PROVISION_ERROR;
                           ev_message := MText "! Template is not valid with provided parameters. Review the log for more information." |};
                        {| ev_status := PROVISION_ERROR;
                           ev_message := MText ("! Error: " ++ to_js_string (get (JObj error) "message")) |};
                        {| ev_status := PROVISION_ERROR;
                           ev_message := MText (delete_hint (name ++ "-" ++ environment)) |};
                        {| ev_status := PROVISION_ERROR_DETAILS;
                           ev_message := MValue (get (JObj error) "details") |} ])%list).
  change (wp (create E this name location environment appPassword createLuisResource
                createLuisAuthoringResource createCosmosDb createStorage createAppInsights)
            Q w).
  assert (Hearly : forall (o : Outcome JValue) w1,
             calls_within before_validation w w1 -> Q o w1).
  { intros o w1 (made1 & Hcalls & Hall) made Hmade Hin.
    rewrite Hcalls in Hmade. apply app_inv_head in Hmade. subst made1.
    rewrite Forall_forall in Hall. destruct (Hall _ Hin). }
  assert (Hstart : calls_within before_validation w w) by apply frame_refl.
  unfold create.
  do 11 (apply (wp_bind_frame_acc (calls_within before_validation) _ _ _ w);
         [ eassumption
         | unfold createApp, createResourceGroup, getTenantId, getErrorMesssage, call; preserve
         | intros ? ?; apply Hearly
         | clear Hstart; intros ? ? Hstart ]).
  unfold validateDeployment, readTemplateFile, call.
  wp_steps.
  destruct (stat _ _) as [[| t | es] |]; wp_steps; try (apply Hearly; exact Hstart).
  destruct (JSON_parse t) as [template |]; wp_steps; try (apply Hearly; exact Hstart).
  set (c := DeploymentsValidate _ _ _).
  destruct Hstart as (made0 & Hcalls0 & Hall0).
  assert (Hthis : forall made rest,
             ((calls w10 ++ [c]) ++ rest)%list = (calls w ++ made)%list ->
             Forall not_validation rest ->
             In (DeploymentsValidate rg dn p) made ->
             made = (made0 ++ [c] ++ rest)%list /\ remote E c = Ok r).
  { intros made rest Hmade Hrest Hin. rewrite Hcalls0, <- !app_assoc in Hmade.
    apply app_inv_head in Hmade. subst made. split; [reflexivity |].
    apply in_app_or in Hin as [Hin | [Hin | Hin]].
    - rewrite Forall_forall in Hall0. destruct (Hall0 _ Hin).
    - rewrite Hin. exact Hresp.
    - rewrite Forall_forall in Hrest. destruct (Hrest _ Hin). }
  assert (Hnow : forall made,
             (calls w10 ++ [c])%list = (calls w ++ made)%list ->
             In (DeploymentsValidate rg dn p) made ->
             made = (made0 ++ [c])%list /\ remote E c = Ok r).
  { intros made Hmade Hin. apply (Hthis made []); [| constructor | exact Hin].
    rewrite app_nil_r. exact Hmade. }
  destruct (remote E c) as [validation | e] eqn:Hc; wp_steps.
  2: { intros made Hmade Hin. destruct (Hnow made Hmade Hin) as [_ Habs]. discriminate Habs. }
  unfold get_strict. destruct (nullish (result validation)) eqn:Hnull; wp_steps.
  { intros made Hmade Hin. destruct (Hnow made Hmade Hin) as [_ Heq].
    injection Heq as ->. rewrite (get_nullish _ _ Hnull) in Herror. discriminate Herror. }
  destruct (truthy (get (result validation) "error")) eqn:Htruthy; wp_steps.
  - intros made Hmade Hin. destruct (Hnow made Hmade Hin) as [-> Heq].
    injection Heq as ->. rewrite Herror. split; [reflexivity | split].
    + intros rg' dn' p' Hin'. apply in_app_or in Hin' as [Hin' | [Hin' | []]].
      * rewrite Forall_forall in Hall0. destruct (Hall0 _ Hin').
      * (unfold c in Hin'; discriminate Hin').
    + cbn [logged add_log add_call]. rewrite <- !app_assoc. simpl.
      exists (logged w10 ++ [ {| ev_status := PROVISION_INFO; ev_message := MText "> Validating Azure deployment ..." |}; {| ev_status := PROVISION_INFO; ev_message := MValue (result r) |} ])%list.
      rewrite <- app_assoc. reflexivity.
  - apply wp_unbind. apply (wp_frame (calls_within not_validation)).
    + unfold createDeployment, linkAppInsights, reportFailedOperations,
        updateDeploymentJsonFile, readTemplateFile, status_of, statusMessage_error, call.
      preserve.
    + intros o w11 (rest & Hcalls11 & Hrest) made Hmade Hin.
      rewrite Hcalls11 in Hmade. cbn [calls add_log add_call] in Hmade.
      destruct (Hthis made rest Hmade Hrest Hin) as [_ Heq].
      injection Heq as ->. rewrite Herror in Htruthy. discriminate Htruthy.
Qed.


(** C10, as amended.  For outputs none of which is named [__proto__]: the
    flat mapping [unpackObject] produces has key [k] exactly when
    [output[k].value] is truthy, and then holds that value: an entry whose
    wrapped value is falsy is left out.  The settings record [create] returns
    has, besides, the two keys MicrosoftAppId and MicrosoftAppPassword,
    whatever the outputs are: a key other than these two is in it exactly when
    [output[k].value] is truthy. *)
Theorem settings_record_keys :
  (forall output unpacked,
     ~ In "__proto__" (keys output) ->
     unpackObject output = Some unpacked ->
     forall k,
       has_key unpacked k = truthy (get (get output k) "value")
       /\ (truthy (get (get output k) "value") = true ->
           lookup unpacked k = Some (get (get output k) "value")))
  /\ (forall name location environment appPassword createLuisResource
             createLuisAuthoringResource createCosmosDb createStorage createAppInsights w r,
        fst (create E this name location environment appPassword createLuisResource
               createLuisAuthoringResource createCosmosDb createStorage createAppInsights w)
        = Ok (JObj r) ->
        exists outputs,
          remote E (DeploymentsGet (name ++ "-" ++ environment) (string_of_Z (getTime E)))
          = Ok outputs
          /\ has_key r "MicrosoftAppId" = true
          /\ has_key r "MicrosoftAppPassword" = true
          /\ (~ In "__proto__" (keys (outputs_of outputs)) ->
              forall k,
                k <> "MicrosoftAppId" -> k <> "MicrosoftAppPassword" ->
                has_key r k = truthy (get (get (outputs_of outputs) k) "value"))).
Proof.
  split.
  - intros output unpacked _ Hun k. split.
    + apply unpackObject_has_key. exact Hun.
    + intros Htruthy. rewrite (unpackObject_lookup _ _ Hun k), Htruthy. reflexivity.
  - intros name location environment appPassword b1 b2 b3 b4 b5 w r Hrun.
    destruct (create_record_keys name location environment appPassword b1 b2 b3 b4 b5
                w (JObj r) (snd (create E this name location environment appPassword
                                   b1 b2 b3 b4 b5 w))) with (r := r)
      as (outputs & Hcall & Hkeys).
    { rewrite <- Hrun. apply surjective_pairing. }
    { reflexivity. }
    exists outputs. split; [exact Hcall |]. split; [| split].
    + rewrite Hkeys. reflexivity.
    + rewrite Hkeys. reflexivity.
    + intros _ k Hid Hpw. rewrite Hkeys.
      apply String.eqb_neq in Hid, Hpw. rewrite Hid, Hpw. reflexivity.
Qed.

End CreateProps.
(** C1 (the code does not do what the claim and its own comments say).
    [create] never writes to the disk: whatever it is given, the files are
    afterwards what they were before.  In particular, on the scenario where
    every call succeeds, it returns the settings record (the unwrapped
    deployment outputs merged with MicrosoftAppId and MicrosoftAppPassword),
    and the deployment-settings file still holds its old content. *)
Theorem create_returns_settings_without_writing_them :
  (forall E this name location environment appPassword createLuisResource
          createLuisAuthoringResource createCosmosDb createStorage createAppInsights w,
     files (snd (create E this name location environment appPassword createLuisResource
                   createLuisAuthoringResource createCosmosDb createStorage
                   createAppInsights w))
     = files w)
  /\ (let run := create Scenario.cloud Scenario.bot "mybot" "westus" "dev" "secret"
                   true true true true true (Scenario.start Scenario.disk) in
      fst run
      = Ok (JObj [ ("luis",
                    JObj [("endpoint", JStr "https://westus.api.cognitive.microsoft.com")]);
                   ("MicrosoftAppId", JStr "app-1");
                   ("MicrosoftAppPassword", JStr "secret") ])
      /\ stat (files (snd run)) (settingsPath Scenario.bot)
         = Some (File (JsonText Scenario.settings))).
Proof.
  split.
  - intros E this name location environment appPassword b1 b2 b3 b4 b5 w.
    exact (create_same_files E this name location environment appPassword
             b1 b2 b3 b4 b5 w).
  - vm_compute. split; reflexivity.
Qed.

(** At the scenario in which every call succeeds and the settings file
    holds the id [app-1]. *)
Lemma create_reuses_MicrosoftAppId_witness :
  stat (files (Scenario.start Scenario.disk)) (settingsPath Scenario.bot)
  = Some (File (JsonText Scenario.settings))
  /\ truthy (get Scenario.settings "MicrosoftAppId") = true
  /\ (let run := create Scenario.cloud Scenario.bot "mybot" "westus" "dev" "secret"
                   true true true true true (Scenario.start Scenario.disk) in
      calls_within (uses_app_id (JStr "app-1")) (Scenario.start Scenario.disk) (snd run)
      /\ forall r, fst run = Ok (JObj r) -> lookup r "MicrosoftAppId" = Some (JStr "app-1")).
Proof.
  split; [reflexivity | split; [reflexivity |]].
  exact (create_reuses_MicrosoftAppId Scenario.cloud Scenario.bot "mybot" "westus" "dev"
           "secret" true true true true true (Scenario.start Scenario.disk)
           Scenario.settings eq_refl eq_refl).
Defined.

(** At the scenario in which the cloud refuses the template. *)
Lemma create_throws_on_validation_error_witness :
  let run := create Scenario.cloud_rejecting_template Scenario.bot "mybot" "westus" "dev"
               "secret" true true true true true (Scenario.start Scenario.disk) in
  let validate :=
    DeploymentsValidate "mybot-dev" "1600000000000"
      (deployParam (JObj [("resources", JArr [])])
         (getDeploymentTemplateParam (JStr "app-1") "secret" "westus" "mybot"
            true true true true true)) in
  In validate (calls (snd run))
  /\ remote Scenario.cloud_rejecting_template validate
     = Scenario.answer (JObj [("error", JObj Scenario.template_error)])
  /\ fst run = Throw (JsError "! Error: The template is not valid")
  /\ forall rg dn p, ~ In (DeploymentsCreateOrUpdate rg dn p) (calls (snd run)).
Proof.
  cbv zeta.
  assert (Hin : In (DeploymentsValidate "mybot-dev" "1600000000000"
                      (deployParam (JObj [("resources", JArr [])])
                         (getDeploymentTemplateParam (JStr "app-1") "secret" "westus" "mybot"
                            true true true true true)))
                  (calls (snd (create Scenario.cloud_rejecting_template Scenario.bot "mybot"
                                 "westus" "dev" "secret" true true true true true
                                 (Scenario.start Scenario.disk))))).
  { vm_compute. right. right. left. reflexivity. }
  split; [exact Hin | split; [reflexivity |]].
  destruct (create_throws_on_validation_error Scenario.cloud_rejecting_template Scenario.bot
              "mybot" "westus" "dev" "secret" true true true true true
              (Scenario.start Scenario.disk) _ _ _ _ Scenario.template_error
              _ eq_refl Hin eq_refl eq_refl) as (Hthrow & Hnever & _).
  split; [exact Hthrow | exact Hnever].
Defined.

(** The record [create] returns has the key MicrosoftAppId although the
    deployment outputs have no such entry: its keys are not only those whose
    wrapped output value is truthy. *)
Lemma create_record_has_key_without_output :
  let run := create Scenario.cloud Scenario.bot "mybot" "westus" "dev" "secret"
               true true true true true (Scenario.start Scenario.disk) in
  exists r,
    fst run = Ok (JObj r)
    /\ remote Scenario.cloud (DeploymentsGet "mybot-dev" "1600000000000")
       = Scenario.answer (JObj [("properties", JObj [("outputs", Scenario.deployment_outputs)])])
    /\ has_key r "MicrosoftAppId" = true
    /\ truthy (get (get Scenario.deployment_outputs "MicrosoftAppId") "value") = false.
Proof.
  eexists. split; [vm_compute; reflexivity |].
  split; [reflexivity | split; reflexivity].
Qed.

(** On an outputs object with a truthy, a falsy and an unwrapped entry, and
    at the scenario in which every call succeeds. *)
Lemma settings_record_keys_witness :
  (let output := JObj [("a", pack (JStr "x")); ("b", pack (JNum 0)); ("c", JStr "bare")] in
   ~ In "__proto__" (keys output)
   /\ unpackObject output = Some [("a", JStr "x")]
   /\ forall k,
        has_key [("a", JStr "x")] k = truthy (get (get output k) "value")
        /\ (truthy (get (get output k) "value") = true ->
            lookup [("a", JStr "x")] k = Some (get (get output k) "value")))
  /\ exists outputs,
       remote Scenario.cloud (DeploymentsGet ("mybot" ++ "-" ++ "dev")
                                (string_of_Z (getTime Scenario.cloud)))
       = Ok outputs
       /\ ~ In "__proto__" (keys (outputs_of outputs))
       /\ forall k,
            k <> "MicrosoftAppId" -> k <> "MicrosoftAppPassword" ->
            has_key [ ("luis",
                       JObj [("endpoint", JStr "https://westus.api.cognitive.microsoft.com")]);
                      ("MicrosoftAppId", JStr "app-1");
                      ("MicrosoftAppPassword", JStr "secret") ] k
            = truthy (get (get (outputs_of outputs) k) "value").
Proof.
  destruct (settings_record_keys Scenario.cloud Scenario.bot) as [Hunpack Hcreate].
  split.
  - cbv zeta.
    assert (Hplain : ~ In "__proto__"
                       (keys (JObj [("a", pack (JStr "x")); ("b", pack (JNum 0));
                                    ("c", JStr "bare")]))).
    { simpl. intros [H | [H | [H | []]]]; discriminate H. }
    split; [exact Hplain | split; [reflexivity |]].
    exact (Hunpack (JObj [("a", pack (JStr "x")); ("b", pack (JNum 0)); ("c", JStr "bare")])
             [("a", JStr "x")] Hplain eq_refl).
  - destruct (Hcreate "mybot" "westus" "dev" "secret" true true true true true
                (Scenario.start Scenario.disk) _ eq_refl)
      as (outputs & Hcall & _ & _ & Hkeys).
    assert (Hplain : ~ In "__proto__" (keys (outputs_of outputs))).
    { assert (Hout : Ok outputs
                     = Scenario.answer
                         (JObj [("properties",
                                 JObj [("outputs", Scenario.deployment_outputs)])]))
        by (rewrite <- Hcall; reflexivity).
      injection Hout as ->. simpl.
      intros Hin. repeat (destruct Hin as [Hin | Hin]; [discriminate Hin |]). exact Hin. }
    exists outputs. split; [exact Hcall | split; [exact Hplain | exact (Hkeys Hplain)]].
Defined.

(** ** Deploying: [publishLuis], [zipDirectory] and [deploy] *)

Lemma bind_step {A B : Type} (m : M A) (k : A -> M B) (w : World) (a : A) (w1 : World) :
  m w = (Ok a, w1) -> bind m k w = k a w1.
Proof. intros H. unfold bind. rewrite H. reflexivity. Qed.

Lemma getFiles_inv dir w w' l :
  getFiles dir w = (Ok l, w') -> l = files_below (files w) dir /\ w' = w.
Proof.
  unfold getFiles, bind, the_files. destruct (is_dir (files w) dir); simpl; intros H.
  - injection H as <- <-. split; reflexivity.
  - discriminate H.
Qed.

Lemma readLuisAppIds_unchanged l : forall acc, preserves eq (readLuisAppIds l acc).
Proof. induction l as [| f rest IH]; intros acc; simpl; preserve. apply IH. Qed.

Lemma readLuisAppIds_nodup l : forall acc w w' merged,
  NoDup (map fst acc) ->
  readLuisAppIds l acc w = (Ok merged, w') -> NoDup (map fst merged).
Proof.
  induction l as [| f rest IH]; simpl; intros acc w w' merged Hnd Hrun.
  - injection Hrun as <- _. exact Hnd.
  - apply bind_ok_inv in Hrun as (luisSettings & w1 & _ & Hrun).
    apply bind_ok_inv in Hrun as (luis & w2 & _ & Hrun).
    eapply IH; [| exact Hrun]. apply nodup_Object_assign, Hnd.
Qed.

Lemma readLuisAppIds_union luisConfigFiles w : forall luisAppIds,
  (forall f, In f luisConfigFiles ->
     exists v, stat (files w) f = Some (File (JsonText v))
               /\ nullish v = false
               /\ NoDup (keys (get v "luis"))) ->
  exists merged,
    readLuisAppIds luisConfigFiles luisAppIds w = (Ok merged, w)
    /\ forall k,
         lookup merged k
         = match union_later_wins (map (luis_of_file (files w)) luisConfigFiles) k with
           | Some v => Some v
           | None => lookup luisAppIds k
           end.
Proof.
  induction luisConfigFiles as [| f rest IH]; intros luisAppIds Hfiles.
  - exists luisAppIds. split; reflexivity.
  - destruct (Hfiles f (or_introl eq_refl)) as (v & Hstat & Hnull & Hnodup).
    destruct (IH (Object_assign luisAppIds (get v "luis"))) as (merged & Hrun & Hmerged).
    { intros f' Hin. apply Hfiles. right. exact Hin. }
    exists merged. split.
    + simpl. unfold bind, readJson, read_node, the_files, bind, prop, get_strict. simpl.
      rewrite Hstat. simpl. rewrite Hnull. simpl. exact Hrun.
    + intros k. rewrite (Hmerged k). simpl.
      destruct (union_later_wins _ k); [reflexivity |].
      unfold luis_of_file. rewrite Hstat. apply lookup_Object_assign. exact Hnodup.
Qed.

Lemma keys_set_field fields k v k' :
  In k' (map fst (set_field fields k v)) <-> k' = k \/ In k' (map fst fields).
Proof.
  induction fields as [| [k0 v0] rest IH]; simpl.
  - split; [intros [H | []]; left; symmetry; exact H | intros [H | []]; left; symmetry; exact H].
  - destruct (k0 =? k) eqn:Hk; simpl.
    + apply String.eqb_eq in Hk. subst k0. split.
      * intros [H | H]; [left; symmetry; exact H | right; right; exact H].
      * intros [H | [H | H]]; [left; symmetry; exact H | left; exact H | right; exact H].
    + destruct IH as [IH1 IH2]. split.
      * intros [H | H]; [right; left; exact H |].
        destruct (IH1 H) as [H' | H']; [left; exact H' | right; right; exact H'].
      * intros [H | [H | H]];
          [right; apply IH2; left; exact H | left; exact H | right; apply IH2; right; exact H].
Qed.

Lemma keys_Object_assign target source k :
  In k (map fst (Object_assign target source))
  <-> In k (keys source) \/ In k (map fst target).
Proof.
  unfold Object_assign, keys. generalize (own_props source) as props. intros props.
  revert target. induction props as [| [k0 v0] rest IH]; simpl; intros target.
  - tauto.
  - destruct (IH (set_field target k0 v0)) as [IH1 IH2].
    pose proof (keys_set_field target k0 v0 k) as [S1 S2]. split.
    + intros H. destruct (IH1 H) as [H' | H']; [left; right; exact H' |].
      destruct (S1 H') as [-> | H'']; [left; left; reflexivity | right; exact H''].
    + intros [[<- | H] | H]; apply IH2.
      * right. apply S2. left. reflexivity.
      * left. exact H.
      * right. apply S2. right. exact H.
Qed.

Lemma readLuisAppIds_keys l : forall acc w w' merged,
  readLuisAppIds l acc w = (Ok merged, w') ->
  forall k,
    In k (map fst merged)
    <-> In k (map fst acc) \/ exists f, In f l /\ In k (keys (luis_of_file (files w) f)).
Proof.
  induction l as [| f rest IH]; simpl; intros acc w w' merged Hrun k.
  - injection Hrun as <- _. split; [auto | intros [H | (f & [] & _)]; exact H].
  - apply bind_ok_inv in Hrun as (luisSettings & w1 & Hread & Hrun).
    apply readJson_inv in Hread as [Hstat ->].
    apply bind_ok_inv in Hrun as (luis & w2 & Hprop & Hrun).
    apply or_throw_inv in Hprop as [Hluis ->].
    unfold get_strict in Hluis. destruct (nullish luisSettings); [discriminate Hluis |].
    injection Hluis as <-.
    rewrite (IH _ _ _ _ Hrun k), keys_Object_assign.
    assert (Hfile : luis_of_file (files w) f = get luisSettings "luis")
      by (unfold luis_of_file; rewrite Hstat; reflexivity).
    rewrite <- Hfile. split.
    + intros [[H | H] | (f' & Hin & H)].
      * right. exists f. split; [left; reflexivity | exact H].
      * left. exact H.
      * right. exists f'. split; [right; exact Hin | exact H].
    + intros [H | (f' & [<- | Hin] & H)].
      * left. right. exact H.
      * left. left. exact H.
      * right. exists f'. split; [exact Hin | exact H].
Qed.

Section DeployProps.

Variable E : Env.
Variable this : BotProjectDeploy.

Lemma onAccountListError_same_files err : preserves same_files (onAccountListError err).
Proof. unfold onAccountListError, message_indexOf. preserve. Qed.

Lemma find_account_same_files accounts filter :
  preserves same_files (find_account accounts filter).
Proof. induction accounts as [| a rest IH]; simpl; preserve. Qed.

Lemma publishLuis_inv workingFolder name environment language luisEndpoint
    luisAuthoringEndpoint luisEndpointKey luisAuthoringKey luisAuthoringRegion luisResource
    w w' :
  publishLuis E this workingFolder name environment language luisEndpoint
    luisAuthoringEndpoint luisEndpointKey luisAuthoringKey luisAuthoringRegion luisResource w
  = (Ok tt, w') ->
  truthy luisAuthoringKey && truthy luisAuthoringRegion = true ->
  let deploymentSettingsPath := path_join workingFolder "appsettings.deployment.json" in
  let base := baseLuisConfig (endpoint_or_default luisEndpoint luisAuthoringRegion)
                luisEndpointKey luisAuthoringRegion in
  exists w1 luisAppIds settings written,
    lubuild E workingFolder name environment language luisEndpoint luisAuthoringEndpoint
      luisAuthoringKey luisAuthoringRegion w = (Ok tt, w1)
    /\ readLuisAppIds (luisConfigFiles_of (files w1) workingFolder) [] w1 = (Ok luisAppIds, w1)
    /\ stat (files w1) deploymentSettingsPath = Some (File (JsonText settings))
    /\ set_prop settings "luis" (JObj (Object_assign base (JObj luisAppIds))) = Some written
    /\ stat (files w') deploymentSettingsPath = Some (File (JsonText (jsonify written))).
Proof.
  intros Hrun Hguard. cbv zeta. unfold publishLuis in Hrun. rewrite Hguard in Hrun.
  cbv zeta in Hrun.
  apply bind_ok_inv in Hrun as (botFiles & wa & H1 & Hrun).
  apply bind_ok_inv in Hrun as (modelFiles & wb & H2 & Hrun).
  apply bind_ok_inv in Hrun as (generatedExists & wc & H3 & Hrun).
  apply bind_ok_inv in Hrun as ([] & wd & H4 & Hrun).
  apply bind_ok_inv in Hrun as (loadResult & we & H5 & Hrun).
  apply bind_ok_inv in Hrun as (luContents & wf & H6 & Hrun).
  apply bind_ok_inv in Hrun as (buildResult & wg & H7 & Hrun).
  apply bind_ok_inv in Hrun as (written0 & wh & H8 & Hrun).
  apply bind_ok_inv in Hrun as ([] & w1 & H9 & Hrun).
  assert (Hbuild : lubuild E workingFolder name environment language luisEndpoint
                     luisAuthoringEndpoint luisAuthoringKey luisAuthoringRegion w
                   = (Ok tt, w1)).
  { unfold lubuild. cbv zeta.
    rewrite (bind_step _ _ _ _ _ H1), (bind_step _ _ _ _ _ H2), (bind_step _ _ _ _ _ H3),
      (bind_step _ _ _ _ _ H4), (bind_step _ _ _ _ _ H5), (bind_step _ _ _ _ _ H6),
      (bind_step _ _ _ _ _ H7), (bind_step _ _ _ _ _ H8).
    exact H9. }
  apply bind_ok_inv in Hrun as (allFiles & w2 & Hfiles & Hrun).
  apply getFiles_inv in Hfiles as [-> ->].
  apply bind_ok_inv in Hrun as (luisAppIds & w2 & Hids & Hrun).
  pose proof (unchanged _ _ _ _ (readLuisAppIds_unchanged _ _) Hids) as ->.
  apply bind_ok_inv in Hrun as (settings & w2 & Hread & Hrun).
  apply readJson_inv in Hread as [Hstat ->].
  apply bind_ok_inv in Hrun as (written & w2 & Hset & Hrun).
  apply or_throw_inv in Hset as [Hset ->].
  apply bind_ok_inv in Hrun as ([] & w2 & Hwrite & Hrun).
  apply writeJson_inv in Hwrite. subst w2.
  match type of Hrun with ?tail _ = _ =>
    assert (Htail : preserves same_files tail)
  end.
  { unfold getAccount, call. preserve.
    - apply onAccountListError_same_files.
    - apply find_account_same_files. }
  pose proof (kept _ _ _ _ _ Htail Hrun) as Hsame. unfold same_files in Hsame.
  simpl in Hsame.
  exists w1, luisAppIds, settings, written.
  split; [exact Hbuild |].
  split; [exact Hids | split; [exact Hstat | split; [exact Hset |]]].
  rewrite Hsame. apply stat_put_same. unfold path_join. intros Habs.
  apply app_eq_nil in Habs as [_ Habs]. discriminate Habs.
Qed.

Lemma packAndUpload_calls pathToArtifacts name environment hostname :
  preserves (calls_within is_build_or_upload)
    (packAndUpload E this pathToArtifacts name environment hostname).
Proof.
  unfold packAndUpload, zipDirectory, write, deployZip, call. preserve.
Qed.


(** C4, as amended.  An attempt of [publishLuis] that completes replaces the
    [luis] sub-record of the deployment-settings file of the build folder by
    the base config merged with the app ids read, at that attempt, from the
    luis.settings files of the build tree as the lubuild process has left it,
    none of them holding an id under the name [__proto__] (and the authoring
    region being a value printed as it is, as a string is).  So every name
    under which one of those files holds an id is a name of the mapping read,
    and, the settings file holding an object, the [luis] sub-record written
    back contains every app id of the mapping (nothing is said of the ids that
    were only in the sub-record it replaces). *)
Theorem publishLuis_writes_found_app_ids workingFolder name environment language
    luisEndpoint luisAuthoringEndpoint luisEndpointKey luisAuthoringKey luisAuthoringRegion
    luisResource w w1 w' :
  publishLuis E this workingFolder name environment language luisEndpoint
    luisAuthoringEndpoint luisEndpointKey luisAuthoringKey luisAuthoringRegion luisResource w
  = (Ok tt, w') ->
  truthy luisAuthoringKey && truthy luisAuthoringRegion = true ->
  lubuild E workingFolder name environment language luisEndpoint luisAuthoringEndpoint
    luisAuthoringKey luisAuthoringRegion w = (Ok tt, w1) ->
  (forall f, In f (luisConfigFiles_of (files w1) workingFolder) ->
             ~ In "__proto__" (keys (luis_of_file (files w1) f))) ->
  prints_exactly luisAuthoringRegion = true ->
  let deploymentSettingsPath := path_join workingFolder "appsettings.deployment.json" in
  let base := baseLuisConfig (endpoint_or_default luisEndpoint luisAuthoringRegion)
                luisEndpointKey luisAuthoringRegion in
  exists luisAppIds settings written,
    readLuisAppIds (luisConfigFiles_of (files w1) workingFolder) [] w1 = (Ok luisAppIds, w1)
    /\ (forall f k,
          In f (luisConfigFiles_of (files w1) workingFolder) ->
          In k (keys (luis_of_file (files w1) f)) -> has_key luisAppIds k = true)
    /\ stat (files w1) deploymentSettingsPath = Some (File (JsonText settings))
    /\ set_prop settings "luis" (JObj (Object_assign base (JObj luisAppIds))) = Some written
    /\ stat (files w') deploymentSettingsPath = Some (File (JsonText (jsonify written)))
    /\ forall fields k v,
         settings = JObj fields ->
         lookup luisAppIds k = Some v -> v <> JUndefined ->
         get (get (jsonify written) "luis") k = jsonify v.
Proof.
  intros Hrun Hguard Hbuild _ _. cbv zeta.
  destruct (publishLuis_inv _ _ _ _ _ _ _ _ _ _ _ _ Hrun Hguard)
    as (w0 & luisAppIds & settings & written & Hbuild0 & Hids & Hstat & Hset & Hwritten).
  rewrite Hbuild in Hbuild0. injection Hbuild0 as <-.
  exists luisAppIds, settings, written.
  split; [exact Hids | split].
  { intros f k Hf Hk. rewrite <- existsb_keys_has_key.
    apply existsb_exists. exists k. split; [| apply String.eqb_refl].
    apply (readLuisAppIds_keys _ _ _ _ _ Hids k). right. exists f. split; assumption. }
  split; [exact Hstat | split; [exact Hset | split; [exact Hwritten |]]].
  intros fields k v -> Hlook Hdef. simpl in Hset. injection Hset as <-.
  rewrite (get_jsonify_field _ "luis" _ (lookup_set_field_same _ _ _)) by discriminate.
  apply get_jsonify_field; [| exact Hdef].
  rewrite lookup_Object_assign.
  - simpl. rewrite Hlook. reflexivity.
  - exact (readLuisAppIds_nodup _ [] _ _ _ (NoDup_nil _) Hids).
Qed.

(** C9.  An attempt of [publishLuis] that completes writes, as the [luis]
    sub-record of the settings file, the base config with the app ids merged
    on top, the app ids being those read from the luis.settings files the
    lubuild process has left (none of them under the name [__proto__]; the
    authoring region is a value printed as it is, as a string is).  In
    that base config the field [authoringKey] holds the value of the argument
    [luisAuthoringRegion] (and not [luisAuthoringKey]), as the field
    [authoringRegion] does, while [endpointKey] holds [luisEndpointKey] and
    [endpoint] holds [luisEndpoint] (itself, when it is truthy, and else the
    default address the code has just given it): each of the four fields is
    read back from the file with that value, unless an app id has its name. *)
Theorem publishLuis_base_config workingFolder name environment language
    luisEndpoint luisAuthoringEndpoint luisEndpointKey luisAuthoringKey luisAuthoringRegion
    luisResource w w1 w' :
  publishLuis E this workingFolder name environment language luisEndpoint
    luisAuthoringEndpoint luisEndpointKey luisAuthoringKey luisAuthoringRegion luisResource w
  = (Ok tt, w') ->
  truthy luisAuthoringKey && truthy luisAuthoringRegion = true ->
  lubuild E workingFolder name environment language luisEndpoint luisAuthoringEndpoint
    luisAuthoringKey luisAuthoringRegion w = (Ok tt, w1) ->
  (forall f, In f (luisConfigFiles_of (files w1) workingFolder) ->
             ~ In "__proto__" (keys (luis_of_file (files w1) f))) ->
  prints_exactly luisAuthoringRegion = true ->
  let deploymentSettingsPath := path_join workingFolder "appsettings.deployment.json" in
  let endpoint :=
    if truthy luisEndpoint then luisEndpoint
    else JStr ("https://" ++ to_js_string luisAuthoringRegion
               ++ ".api.cognitive.microsoft.com") in
  exists luisAppIds settings written,
    readLuisAppIds (luisConfigFiles_of (files w1) workingFolder) [] w1 = (Ok luisAppIds, w1)
    /\ stat (files w1) deploymentSettingsPath = Some (File (JsonText settings))
    /\ set_prop settings "luis"
         (JObj (Object_assign [ ("endpoint", endpoint);
                                ("endpointKey", luisEndpointKey);
                                ("authoringRegion", luisAuthoringRegion);
                                ("authoringKey", luisAuthoringRegion) ]
                  (JObj luisAppIds)))
       = Some written
    /\ stat (files w') deploymentSettingsPath = Some (File (JsonText (jsonify written)))
    /\ forall fields,
         settings = JObj fields ->
         let luis := get (jsonify written) "luis" in
         (has_key luisAppIds "authoringKey" = false ->
          get luis "authoringKey" = jsonify luisAuthoringRegion)
         /\ (has_key luisAppIds "authoringRegion" = false ->
             get luis "authoringRegion" = jsonify luisAuthoringRegion)
         /\ (has_key luisAppIds "endpointKey" = false ->
             get luis "endpointKey" = jsonify luisEndpointKey)
         /\ (has_key luisAppIds "endpoint" = false ->
             get luis "endpoint" = jsonify endpoint).
Proof.
  intros Hrun Hguard Hbuild _ _. cbv zeta.
  set (endpoint := if truthy luisEndpoint then luisEndpoint
                   else JStr ("https://" ++ to_js_string luisAuthoringRegion
                              ++ ".api.cognitive.microsoft.com")).
  destruct (publishLuis_inv _ _ _ _ _ _ _ _ _ _ _ _ Hrun Hguard)
    as (w0 & luisAppIds & settings & written & Hbuild0 & Hids & Hstat & Hset & Hwritten).
  rewrite Hbuild in Hbuild0. injection Hbuild0 as <-.
  assert (Hendpoint : endpoint_or_default luisEndpoint luisAuthoringRegion = endpoint)
    by (unfold endpoint_or_default, endpoint; destruct (truthy luisEndpoint); reflexivity).
  unfold baseLuisConfig in Hset. rewrite Hendpoint in Hset.
  exists luisAppIds, settings, written.
  split; [exact Hids | split; [exact Hstat | split; [exact Hset | split; [exact Hwritten |]]]].
  intros fields ->. unfold set_prop in Hset. injection Hset as <-.
  rewrite (get_jsonify_field _ "luis" _ (lookup_set_field_same _ _ _)) by discriminate.
  assert (Hnodup : NoDup (map fst luisAppIds))
    by exact (readLuisAppIds_nodup _ [] _ _ _ (NoDup_nil _) Hids).
  set (base := [ ("endpoint", endpoint); ("endpointKey", luisEndpointKey);
                 ("authoringRegion", luisAuthoringRegion);
                 ("authoringKey", luisAuthoringRegion) ]).
  assert (Hfield : forall k,
             has_key luisAppIds k = false ->
             get (jsonify (JObj (Object_assign base (JObj luisAppIds)))) k
             = jsonify (get (JObj base) k)).
  { intros k Hk. rewrite get_jsonify.
    - f_equal. unfold get. cbn [own_props]. rewrite lookup_Object_assign by exact Hnodup.
      cbn [own_props]. unfold has_key in Hk.
      destruct (lookup luisAppIds k); [discriminate Hk | reflexivity].
    - apply nodup_Object_assign. simpl. repeat constructor; simpl; intuition discriminate. }
  cbv zeta. repeat split; intros Hk; rewrite (Hfield _ Hk); reflexivity.
Qed.

(** C7.  When the settings file read after the build has no [luis] key, or
    has one without a truthy [authoringKey] or without a truthy [region] under
    it, [deploy] does nothing of the LUIS publishing: once the build is done
    its run is the run of steps 4 and 5 (zip the assets, deploy the zip file),
    and the only calls it makes are the build and the upload.  ([publishLuis]
    itself does nothing at all unless it is given both an authoring key and an
    authoring region.) *)
Theorem deploy_skips_luis_without_settings project name environment language hostname
    luisResource w built pathToArtifacts settings :
  runtime_buildDeploy E (projPath this) project (without_previous_zip this (files w))
  = (built, Ok pathToArtifacts) ->
  stat built (settingsPath this) = Some (File (JsonText settings)) ->
  nullish settings = false ->
  truthy (get settings "luis")
  && truthy (get (get settings "luis") "authoringKey")
  && truthy (get (get settings "luis") "region") = false ->
  let after_build :=
    {| files := built; logged := logged w;
       calls := (calls w ++ [BuildDeploy (projPath this) project])%list;
       tenantId := tenantId w |} in
  deploy E this project name environment language hostname luisResource w
  = try_catch (packAndUpload E this pathToArtifacts name environment hostname)
      (fun error => logger DEPLOY_ERROR (MExn error) ;; throw error) after_build
  /\ calls_within is_build_or_upload w
       (snd (deploy E this project name environment language hostname luisResource w))
  /\ (forall workingFolder language' luisEndpoint luisAuthoringEndpoint luisEndpointKey
              luisAuthoringKey luisAuthoringRegion w0,
         truthy luisAuthoringKey && truthy luisAuthoringRegion = false ->
         publishLuis E this workingFolder name environment language' luisEndpoint
           luisAuthoringEndpoint luisEndpointKey luisAuthoringKey luisAuthoringRegion
           luisResource w0
         = (Ok tt, w0)).
Proof.
  intros Hbuild Hstat Hnull Hluis after_build.
  assert (Heq : deploy E this project name environment language hostname luisResource w
                = try_catch (packAndUpload E this pathToArtifacts name environment hostname)
                    (fun error => logger DEPLOY_ERROR (MExn error) ;; throw error)
                    after_build).
  { destruct w as [fs lg cs tid]. unfold after_build. simpl in *.
    unfold deploy, try_catch.
    match goal with
    | |- match ?X ?w1 with _ => _ end = match ?Y ?w2 with _ => _ end =>
        assert (Hrun : X w1 = Y w2); [| rewrite Hrun; reflexivity]
    end.
    unfold without_previous_zip in Hbuild. simpl in Hbuild.
    rewrite bind_run. unfold pathExists at 1. rewrite bind_run.
    unfold the_files at 1, ret at 1. cbn [files].
    erewrite (bind_step _ _ _ tt
                {| files := match stat fs (zipPath this) with
                            | Some _ => remove_tree fs (zipPath this)
                            | None => fs
                            end;
                   logged := lg; calls := cs; tenantId := tid |}).
    2: { destruct (stat fs (zipPath this)); reflexivity. }
    erewrite (bind_step _ _ _ pathToArtifacts
                {| files := built; logged := lg;
                   calls := (cs ++ [BuildDeploy (projPath this) project])%list;
                   tenantId := tid |}).
    2: { unfold call_buildDeploy, bind, record_call, the_files, with_files, of_outcome, ret.
         simpl. rewrite Hbuild. reflexivity. }
    erewrite (bind_step _ _ _ settings).
    2: { unfold readJson, read_node, bind, the_files, ret. simpl. rewrite Hstat. reflexivity. }
    erewrite (bind_step _ _ _ (get settings "luis")).
    2: { unfold prop, get_strict. rewrite Hnull. reflexivity. }
    erewrite (bind_step _ _ _ tt).
    2: { destruct (truthy (get settings "luis")); [| reflexivity].
         simpl in Hluis. rewrite Hluis. reflexivity. }
    reflexivity. }
  split; [exact Heq | split].
  - rewrite Heq.
    assert (Hfirst : calls_within is_build_or_upload w after_build).
    { exists [BuildDeploy (projPath this) project]. split; [reflexivity |].
      constructor; [exact I | constructor]. }
    eapply frame_trans; [exact Hfirst |].
    apply (preserves_try_catch (calls_within is_build_or_upload)).
    + apply packAndUpload_calls.
    + intros e. preserve.
  - intros workingFolder language' luisEndpoint luisAuthoringEndpoint luisEndpointKey
      luisAuthoringKey luisAuthoringRegion w0 Hguard.
    unfold publishLuis. rewrite Hguard. reflexivity.
Qed.

End DeployProps.

(** C8.  For every sequence of luis.settings files (each one a JSON file
    holding an object, in which a key occurs once and none is [__proto__], as
    the files LuBuild generates are), the loop of [publishLuis] returns a
    mapping that is the union of the [luis] objects of those files: a key has
    the value it has in the last file, in the order of enumeration, whose
    [luis] object has it. *)
Theorem readLuisAppIds_is_union_later_wins luisConfigFiles w :
  (forall f, In f luisConfigFiles ->
     exists v, stat (files w) f = Some (File (JsonText v))
               /\ nullish v = false
               /\ NoDup (keys (get v "luis"))
               /\ ~ In "__proto__" (keys (get v "luis"))) ->
  exists merged,
    readLuisAppIds luisConfigFiles [] w = (Ok merged, w)
    /\ forall k,
         lookup merged k
         = union_later_wins (map (luis_of_file (files w)) luisConfigFiles) k.
Proof.
  intros Hfiles.
  destruct (readLuisAppIds_union luisConfigFiles w []) as (merged & Hrun & Hmerged).
  { intros f Hin. destruct (Hfiles f Hin) as (v & Hstat & Hnull & Hnodup & _).
    exists v. split; [exact Hstat | split; [exact Hnull | exact Hnodup]]. }
  exists merged. split; [exact Hrun |].
  intros k. rewrite (Hmerged k).
  destruct (union_later_wins _ k); reflexivity.
Qed.

(** C2, as amended.  The archive [zipDirectory] produces never contains
    the entry [code.zip] at the top of the source directory.  Hence it has no
    entry at its own output path when that path is [code.zip] directly in the
    source directory, or lies outside the source directory; and the archive is
    produced as soon as the output directory exists. *)
Theorem zipDirectory_leaves_out_top_level_code_zip source out w :
  out = path_join source "code.zip" \/ below source out = false ->
  is_dir (files w) (parent out) = true ->
  is_dir (files w) out = false ->
  exists w' entries,
    zipDirectory source out w = (Ok tt, w')
    /\ stat (files w') out = Some (Zip entries)
    /\ ~ In ["code.zip"] entries
    /\ forall rel, In rel entries -> (source ++ rel)%list <> out.
Proof.
  intros Hout Hparent Hnotdir.
  assert (Hne : out <> []).
  { intros ->. unfold is_dir in Hnotdir. simpl in Hnotdir. discriminate Hnotdir. }
  set (s1 := put (files w) out (File (RawText ""))).
  set (entries := glob s1 source [["code.zip"]]).
  exists (set_files (put s1 out (Zip entries)) (set_files s1 w)), entries.
  split; [| split; [| split]].
  - unfold zipDirectory, write, bind, the_files, with_files, throw. simpl.
    unfold is_dir in Hnotdir, Hparent.
    destruct (stat (files w) out) as [[| t | es] |] eqn:Hstat;
      simpl in Hnotdir; try discriminate; try reflexivity.
    unfold is_dir.
    destruct (stat (files w) (parent out)) as [[| t | es] |];
      simpl in Hparent; try discriminate. reflexivity.
  - simpl. apply stat_put_same. exact Hne.
  - intros Hin. apply glob_In in Hin as [Hnot _]. apply Hnot. left. reflexivity.
  - intros rel Hin Heq. apply glob_In in Hin as [Hnot (e & He & Hrel)].
    destruct Hout as [Hout | Hout].
    + rewrite Hout in Heq. unfold path_join in Heq. apply app_inv_head in Heq.
      apply Hnot. left. symmetry. exact Heq.
    + apply relative_to_app in Hrel as Hpath. rewrite <- Hpath in Heq.
      unfold below in Hout. rewrite <- Heq, Hrel in Hout. discriminate Hout.
Qed.

(** C3 (the code misses the case the claim describes).  When the body of
    the error thrown by the account-list call has a message that begins with
    the token-expiry text, [indexOf] answers 0, the test [> 0] fails, and the
    handler rethrows the error as it is; so does [publishLuis] on the scenario
    whose account list answers with such a body. *)
Theorem publishLuis_rethrows_expiry_at_start_verbatim :
  (forall statusCode code rest w,
     let err :=
       RpError statusCode
         (JsonText (JObj [("error",
                           JObj [("message", JStr ("access token expiry" ++ rest));
                                 ("code", code)])])) in
     onAccountListError err w = (Throw err, w))
  /\ fst (publishLuis Scenario.cloud_with_expired_token Scenario.bot ["bot"; "out"]
            "mybot" "dev" "en-us" JUndefined JUndefined JUndefined (JStr "key")
            (JStr "westus") None (Scenario.start Scenario.disk))
     = Throw (RpError (Some 401%Z) Scenario.expiry_body).
Proof.
  split.
  - intros statusCode code rest w. destruct rest; reflexivity.
  - vm_compute. reflexivity.
Qed.

(** When the token-expiry text comes later in the message, the handler
    throws the descriptive error. *)
Example onAccountListError_expiry_inside_message :
  fst (onAccountListError
         (RpError (Some 401%Z)
            (JsonText (JObj [("error",
                              JObj [("message", JStr "The access token expiry time has passed");
                                    ("code", JStr "X")])])))
         (Scenario.start []))
  = Throw (JsError "Type: X, Message: The access token expiry time has passed, run az account get-access-token, then replace the accessToken in your configuration").
Proof. reflexivity. Qed.

(** The output path is [packages/code.zip] inside the source directory: the
    archive has an entry at that very path, on the first run (the stream has
    created the file) and again on a second run (the file is there from the
    first). *)
Lemma zipDirectory_archives_its_nested_output :
  let source := ["bot"; "out"] in
  let out := ["bot"; "out"; "packages"; "code.zip"] in
  let run := zipDirectory source out (Scenario.start Scenario.disk) in
  let again := zipDirectory source out (snd run) in
  (source ++ ["packages"; "code.zip"])%list = out
  /\ fst run = Ok tt
  /\ (exists entries,
        stat (files (snd run)) out = Some (Zip entries)
        /\ In ["packages"; "code.zip"] entries)
  /\ fst again = Ok tt
  /\ (exists entries,
        stat (files (snd again)) out = Some (Zip entries)
        /\ In ["packages"; "code.zip"] entries).
Proof.
  cbv zeta. split; [reflexivity | split; [reflexivity | split; [| split]]].
  - eexists. split; [vm_compute; reflexivity | simpl; auto 10].
  - reflexivity.
  - eexists. split; [vm_compute; reflexivity | simpl; auto 10].
Qed.

(** The output path is [code.zip] directly in the source directory. *)
Lemma zipDirectory_leaves_out_top_level_code_zip_witness :
  let source := ["bot"; "out"] in
  let out := ["bot"; "out"; "code.zip"] in
  let w := Scenario.start Scenario.disk in
  out = path_join source "code.zip"
  /\ is_dir (files w) (parent out) = true
  /\ is_dir (files w) out = false
  /\ exists w' entries,
       zipDirectory source out w = (Ok tt, w')
       /\ stat (files w') out = Some (Zip entries)
       /\ ~ In ["code.zip"] entries
       /\ forall rel, In rel entries -> (source ++ rel)%list <> out.
Proof.
  cbv zeta. split; [reflexivity | split; [reflexivity | split; [reflexivity |]]].
  exact (zipDirectory_leaves_out_top_level_code_zip ["bot"; "out"] ["bot"; "out"; "code.zip"]
           (Scenario.start Scenario.disk) (or_introl eq_refl) eq_refl eq_refl).
Defined.

(** The settings file of the build folder holds the app id of an earlier
    attempt, for a model the build tree has no luis.settings entry for any
    more: the attempt completes and the id is gone from the [luis] sub-record
    it wrote. *)
Lemma publishLuis_drops_earlier_app_id :
  let file := ["bot"; "out"; "appsettings.deployment.json"] in
  let run := publishLuis Scenario.cloud Scenario.bot ["bot"; "out"] "mybot" "dev" "en-us"
               JUndefined JUndefined JUndefined (JStr "key") (JStr "westus") None
               (Scenario.start Scenario.disk) in
  fst run = Ok tt
  /\ get (luis_of_file Scenario.disk file) "Old_en_us_lu" = JStr "app-0"
  /\ get (luis_of_file (files (snd run)) file) "Old_en_us_lu" = JUndefined
  /\ get (luis_of_file (files (snd run)) file) "Main_en_us_lu" = JStr "app-7".
Proof.
  cbv zeta. split; [vm_compute; reflexivity |].
  split; [reflexivity |]. split; vm_compute; reflexivity.
Qed.

(** At the scenario in which every call succeeds: the lubuild process
    leaves one luis.settings file, with one app id. *)
Lemma publishLuis_writes_found_app_ids_witness :
  let workingFolder := ["bot"; "out"] in
  let w := Scenario.start Scenario.disk in
  let w1 := snd (lubuild Scenario.cloud workingFolder "mybot" "dev" "en-us" JUndefined
                   JUndefined (JStr "key") (JStr "westus") w) in
  let w' := snd (publishLuis Scenario.cloud Scenario.bot workingFolder "mybot" "dev" "en-us"
                   JUndefined JUndefined JUndefined (JStr "key") (JStr "westus") None w) in
  let base := baseLuisConfig (endpoint_or_default JUndefined (JStr "westus")) JUndefined
                (JStr "westus") in
  truthy (JStr "key") && truthy (JStr "westus") = true
  /\ prints_exactly (JStr "westus") = true
  /\ map (fun f => (f, luis_of_file (files w1) f)) (luisConfigFiles_of (files w1) workingFolder)
     = [ (["bot"; "out"; "generated"; "luis.settings.dev.westus.json"],
          JObj [("Main_en_us_lu", JStr "app-7")]) ]
  /\ exists luisAppIds settings written,
       readLuisAppIds (luisConfigFiles_of (files w1) workingFolder) [] w1
       = (Ok luisAppIds, w1)
       /\ (forall f k,
             In f (luisConfigFiles_of (files w1) workingFolder) ->
             In k (keys (luis_of_file (files w1) f)) -> has_key luisAppIds k = true)
       /\ stat (files w1) (path_join workingFolder "appsettings.deployment.json")
          = Some (File (JsonText settings))
       /\ set_prop settings "luis" (JObj (Object_assign base (JObj luisAppIds)))
          = Some written
       /\ stat (files w') (path_join workingFolder "appsettings.deployment.json")
          = Some (File (JsonText (jsonify written)))
       /\ forall fields k v,
            settings = JObj fields ->
            lookup luisAppIds k = Some v -> v <> JUndefined ->
            get (get (jsonify written) "luis") k = jsonify v.
Proof.
  cbv zeta. split; [reflexivity | split; [reflexivity | split; [vm_compute; reflexivity |]]].
  refine (publishLuis_writes_found_app_ids Scenario.cloud Scenario.bot ["bot"; "out"] "mybot"
            "dev" "en-us" JUndefined JUndefined JUndefined (JStr "key") (JStr "westus") None
            (Scenario.start Scenario.disk) _ _ _ eq_refl _ _ eq_refl).
  - vm_compute. reflexivity.
  - vm_compute. reflexivity.
  - intros f Hin.
    assert (Hfiles : luisConfigFiles_of
                       (files (snd (lubuild Scenario.cloud ["bot"; "out"] "mybot" "dev"
                                      "en-us" JUndefined JUndefined (JStr "key")
                                      (JStr "westus") (Scenario.start Scenario.disk))))
                       ["bot"; "out"]
                     = [["bot"; "out"; "generated"; "luis.settings.dev.westus.json"]])
      by (vm_compute; reflexivity).
    rewrite Hfiles in Hin. destruct Hin as [<- | []].
    vm_compute. intros [H | []]. discriminate H.
Defined.

(** At the scenario in which every call succeeds; no endpoint is given, so
    the default one is used, and the one app id has another name than the four
    fields. *)
Lemma publishLuis_base_config_witness :
  let workingFolder := ["bot"; "out"] in
  let w := Scenario.start Scenario.disk in
  let w1 := snd (lubuild Scenario.cloud workingFolder "mybot" "dev" "en-us" JUndefined
                   JUndefined (JStr "key") (JStr "westus") w) in
  let w' := snd (publishLuis Scenario.cloud Scenario.bot workingFolder "mybot" "dev" "en-us"
                   JUndefined JUndefined JUndefined (JStr "key") (JStr "westus") None w) in
  let luis := luis_of_file (files w') ["bot"; "out"; "appsettings.deployment.json"] in
  truthy (JStr "key") && truthy (JStr "westus") = true
  /\ readLuisAppIds (luisConfigFiles_of (files w1) workingFolder) [] w1
     = (Ok [("Main_en_us_lu", JStr "app-7")], w1)
  /\ get luis "authoringKey" = JStr "westus"
  /\ get luis "authoringRegion" = JStr "westus"
  /\ get luis "endpointKey" = JUndefined
  /\ get luis "endpoint" = JStr "https://westus.api.cognitive.microsoft.com".
Proof.
  cbv zeta. split; [reflexivity |].
  assert (Hids : readLuisAppIds
                   (luisConfigFiles_of
                      (files (snd (lubuild Scenario.cloud ["bot"; "out"] "mybot" "dev"
                                     "en-us" JUndefined JUndefined (JStr "key")
                                     (JStr "westus") (Scenario.start Scenario.disk))))
                      ["bot"; "out"]) []
                   (snd (lubuild Scenario.cloud ["bot"; "out"] "mybot" "dev" "en-us"
                           JUndefined JUndefined (JStr "key") (JStr "westus")
                           (Scenario.start Scenario.disk)))
                 = (Ok [("Main_en_us_lu", JStr "app-7")],
                    snd (lubuild Scenario.cloud ["bot"; "out"] "mybot" "dev" "en-us"
                           JUndefined JUndefined (JStr "key") (JStr "westus")
                           (Scenario.start Scenario.disk)))).
  { vm_compute. reflexivity. }
  split; [exact Hids |].
  destruct (publishLuis_base_config Scenario.cloud Scenario.bot ["bot"; "out"] "mybot"
              "dev" "en-us" JUndefined JUndefined JUndefined (JStr "key") (JStr "westus") None
              (Scenario.start Scenario.disk)
              (snd (lubuild Scenario.cloud ["bot"; "out"] "mybot" "dev" "en-us" JUndefined
                      JUndefined (JStr "key") (JStr "westus") (Scenario.start Scenario.disk)))
              (snd (publishLuis Scenario.cloud Scenario.bot ["bot"; "out"] "mybot" "dev"
                      "en-us" JUndefined JUndefined JUndefined (JStr "key") (JStr "westus")
                      None (Scenario.start Scenario.disk))))
    as (luisAppIds & settings & written & Hids' & Hstat & _ & Hwritten & Hfields).
  { vm_compute. reflexivity. }
  { reflexivity. }
  { vm_compute. reflexivity. }
  { intros f Hin.
    assert (Hfiles : luisConfigFiles_of
                       (files (snd (lubuild Scenario.cloud ["bot"; "out"] "mybot" "dev"
                                      "en-us" JUndefined JUndefined (JStr "key")
                                      (JStr "westus") (Scenario.start Scenario.disk))))
                       ["bot"; "out"]
                     = [["bot"; "out"; "generated"; "luis.settings.dev.westus.json"]])
      by (vm_compute; reflexivity).
    rewrite Hfiles in Hin. destruct Hin as [<- | []].
    vm_compute. intros [H | []]. discriminate H. }
  { reflexivity. }
  rewrite Hids in Hids'. injection Hids' as <-.
  assert (Hsettings : settings = JObj [("luis", JObj [("Old_en_us_lu", JStr "app-0")])]).
  { assert (Hsome : Some (File (JsonText settings))
                    = Some (File (JsonText (JObj [("luis",
                                                   JObj [("Old_en_us_lu", JStr "app-0")])]))))
      by (rewrite <- Hstat; vm_compute; reflexivity).
    injection Hsome as ->. reflexivity. }
  destruct (Hfields _ Hsettings) as (Hkey & Hregion & Hendpointkey & Hendpoint).
  change (path_join ["bot"; "out"] "appsettings.deployment.json")
    with ["bot"; "out"; "appsettings.deployment.json"] in Hwritten.
  unfold luis_of_file. rewrite Hwritten.
  split; [exact (Hkey eq_refl) | split; [exact (Hregion eq_refl) |]].
  split; [exact (Hendpointkey eq_refl) | exact (Hendpoint eq_refl)].
Defined.

(** The settings file has no [luis] key: the build is followed at once by
    the packaging and the upload to [mybot-dev]. *)
Lemma deploy_skips_luis_without_settings_witness :
  let w := Scenario.start Scenario.disk_without_luis in
  let run := deploy Scenario.cloud Scenario.bot JNull "mybot" "dev" None None None w in
  runtime_buildDeploy Scenario.cloud (projPath Scenario.bot) JNull
    (without_previous_zip Scenario.bot (files w))
  = (Scenario.disk_without_luis, Ok ["bot"; "out"])
  /\ stat Scenario.disk_without_luis (settingsPath Scenario.bot)
     = Some (File (JsonText (JObj [("MicrosoftAppId", JStr "app-1")])))
  /\ calls_within is_build_or_upload w (snd run)
  /\ calls (snd run)
     = [ BuildDeploy ["bot"] JNull;
         RpPostStream "https://mybot-dev.scm.azurewebsites.net/zipdeploy/?isAsync=true"
           "token" ["bot"; "code.zip"] ].
Proof.
  cbv zeta. split; [reflexivity | split; [reflexivity |]].
  split; [| vm_compute; reflexivity].
  exact (proj1 (proj2 (deploy_skips_luis_without_settings Scenario.cloud Scenario.bot JNull
                         "mybot" "dev" None None None
                         (Scenario.start Scenario.disk_without_luis)
                         Scenario.disk_without_luis ["bot"; "out"]
                         (JObj [("MicrosoftAppId", JStr "app-1")])
                         eq_refl eq_refl eq_refl eq_refl))).
Defined.

(** Two settings files with the key [Main] in both: the later one wins. *)
Lemma readLuisAppIds_is_union_later_wins_witness :
  let w := Scenario.start Scenario.disk_with_two_settings in
  let found := luisConfigFiles_of (files w) ["bot"] in
  found = [["bot"; "luis.settings.dev.json"]; ["bot"; "luis.settings.prod.json"]]
  /\ exists merged,
       readLuisAppIds found [] w = (Ok merged, w)
       /\ (forall k, lookup merged k
                     = union_later_wins (map (luis_of_file (files w)) found) k)
       /\ union_later_wins (map (luis_of_file (files w)) found) "Main" = Some (JStr "3")
       /\ union_later_wins (map (luis_of_file (files w)) found) "Help" = Some (JStr "2").
Proof.
  cbv zeta. split; [reflexivity |].
  destruct (readLuisAppIds_is_union_later_wins
              [["bot"; "luis.settings.dev.json"]; ["bot"; "luis.settings.prod.json"]]
              (Scenario.start Scenario.disk_with_two_settings))
    as (merged & Hrun & Hmerged).
  - intros f [<- | [<- | []]].
    + eexists. split; [reflexivity | split; [reflexivity | split]].
      * simpl. repeat constructor; simpl; intuition discriminate.
      * simpl. intuition discriminate.
    + eexists. split; [reflexivity | split; [reflexivity | split]].
      * simpl. repeat constructor; simpl; intuition discriminate.
      * simpl. intuition discriminate.
  - exists merged. split; [exact Hrun | split; [exact Hmerged | split; reflexivity]].
Defined.

(** * Further properties *)

(** ** More reasoning about method bodies *)

#[export] Instance same_tenant_frame : Frame same_tenant.
Proof.
  split; unfold same_tenant.
  - reflexivity.
  - intros w1 w2 w3 H12 H23. congruence.
Qed.

#[export] Instance logs_within_frame (P : LogEvent -> Prop) : Frame (logs_within P).
Proof.
  split; unfold logs_within.
  - intros w. exists []. split; [symmetry; apply app_nil_r | constructor].
  - intros w1 w2 w3 (l1 & E1 & F1) (l2 & E2 & F2).
    exists (l1 ++ l2)%list. split.
    + rewrite E2, E1. symmetry. apply app_assoc.
    + apply Forall_app. split; assumption.
Qed.

Lemma same_tenant_add_log ev w : same_tenant w (add_log ev w).
Proof. reflexivity. Qed.

Lemma same_tenant_add_call c w : same_tenant w (add_call c w).
Proof. reflexivity. Qed.

Lemma same_tenant_set_files s w : same_tenant w (set_files s w).
Proof. reflexivity. Qed.

Lemma logs_within_add_call P c w : logs_within P w (add_call c w).
Proof. exists []. split; [symmetry; apply app_nil_r | constructor]. Qed.

Lemma logs_within_set_files P s w : logs_within P w (set_files s w).
Proof. exists []. split; [symmetry; apply app_nil_r | constructor]. Qed.

Lemma logs_within_set_tenant P t w : logs_within P w (set_tenant t w).
Proof. exists []. split; [symmetry; apply app_nil_r | constructor]. Qed.

Lemma logs_within_add_log (P : LogEvent -> Prop) ev w : P ev -> logs_within P w (add_log ev w).
Proof. intros Hev. exists [ev]. split; [reflexivity | constructor; [exact Hev | constructor]]. Qed.

#[export] Hint Resolve same_tenant_add_log same_tenant_add_call same_tenant_set_files
  logs_within_add_call logs_within_set_files logs_within_set_tenant : frame.

Lemma preserves_logger_event (R : World -> World -> Prop) st msg :
  (forall w, R w (add_log {| ev_status := st; ev_message := msg |} w)) ->
  preserves R (logger st msg).
Proof. intros HR w. apply HR. Qed.

(** The side condition of a step for a relation that speaks of the events
    logged. *)
Ltac log_side :=
  intros;
  lazymatch goal with
  | |- both _ _ _ _ => apply both_intro; log_side
  | |- logs_within _ _ (add_log _ _) => apply logs_within_add_log; exact I
  | |- _ => frame_side
  end.

Ltac preserve_log_step :=
  lazymatch goal with
  | |- preserves _ (logger _ _) => apply preserves_logger_event; log_side
  | |- _ => preserve_step
  end.

Ltac preserve_log := repeat preserve_log_step.

(** The loops and handlers of [publishLuis] and [getTenantId], for any
    relation: they only read, or throw. *)
Section PreservesLoops.

Context (R : World -> World -> Prop) `{Frame R}.

Lemma preserves_readLuisAppIds l : forall acc, preserves R (readLuisAppIds l acc).
Proof. induction l as [| f rest IH]; intros acc; simpl; preserve. apply IH. Qed.

Lemma preserves_find_account accounts filter : preserves R (find_account accounts filter).
Proof. induction accounts as [| a rest IH]; simpl; preserve. Qed.

Lemma preserves_getAccount accounts filter : preserves R (getAccount accounts filter).
Proof. unfold getAccount. preserve. apply preserves_find_account. Qed.

Lemma preserves_onAccountListError err : preserves R (onAccountListError err).
Proof. unfold onAccountListError, message_indexOf. preserve. Qed.

Lemma preserves_getErrorMesssage E err : preserves R (getErrorMesssage E err).
Proof. unfold getErrorMesssage. preserve. Qed.

End PreservesLoops.

Lemma last_logged_add_log ev w : last_logged (add_log ev w) = Some ev.
Proof. unfold last_logged. simpl. rewrite map_app. apply last_last. Qed.

Lemma ends_logging_bind {A B : Type} ev (m : M A) (k : A -> M B) :
  (forall a, ends_logging ev (k a)) -> ends_logging ev (bind m k).
Proof.
  intros Hk w b w' Hrun. apply bind_ok_inv in Hrun as (a & w1 & _ & Hrun).
  exact (Hk a w1 b w' Hrun).
Qed.

Lemma ends_logging_logger st msg :
  ends_logging {| ev_status := st; ev_message := msg |} (logger st msg).
Proof. intros w a w' Hrun. injection Hrun as _ <-. apply last_logged_add_log. Qed.

Lemma ends_logging_logger_ret {A : Type} st msg (a : A) :
  ends_logging {| ev_status := st; ev_message := msg |} (logger st msg ;; ret a).
Proof. intros w a' w' Hrun. injection Hrun as _ <-. apply last_logged_add_log. Qed.

Lemma ends_logging_throw {A : Type} ev (e : Exn) : ends_logging ev (@throw A e).
Proof. intros w a w' Hrun. discriminate Hrun. Qed.

Ltac ends_step :=
  lazymatch goal with
  | |- ends_logging _ (bind (logger _ _) (fun _ => ret _)) => apply ends_logging_logger_ret
  | |- ends_logging _ (bind _ _) => apply ends_logging_bind; intros ?
  | |- ends_logging _ (logger _ _) => apply ends_logging_logger
  end.

Lemma wp_bind_frame_returns {A B : Type} (R : World -> World -> Prop) `{Frame R}
    (P : A -> Prop) (m : M A) (k : A -> M B) Q w0 w :
  R w0 w -> preserves R m -> returns m P ->
  (forall e w1, R w0 w1 -> Q (Throw e) w1) ->
  (forall a w1, R w0 w1 -> P a -> wp (k a) Q w1) ->
  wp (bind m k) Q w.
Proof.
  intros Hw Hm Hret Hthrow Hk. apply wp_bind. unfold wp.
  pose proof (frame_trans _ _ _ Hw (Hm w)) as Hw1.
  destruct (m w) as [[a | e] w1] eqn:Hrun; simpl in *.
  - apply Hk; [exact Hw1 | exact (Hret _ _ _ Hrun)].
  - apply Hthrow. exact Hw1.
Qed.

(** The converse of a step into a [bind]: the continuation is put back. *)
Ltac wp_refold :=
  lazymatch goal with
  | |- wp ?m (fun o w' => match o with
                          | Ok a => wp (@?k a) ?Q w'
                          | Throw e => _
                          end) ?w =>
      apply (wp_unbind m k Q w)
  end.

Lemma try_catch_ok_inv {A : Type} (m : M A) (h : Exn -> M A) w a w' :
  try_catch m h w = (Ok a, w') ->
  m w = (Ok a, w') \/ exists e w1, m w = (Throw e, w1) /\ h e w1 = (Ok a, w').
Proof.
  unfold try_catch. destruct (m w) as [[a0 | e] w1]; intros Hrun.
  - left. exact Hrun.
  - right. exists e, w1. split; [reflexivity | exact Hrun].
Qed.

(** ** Provisioning, further *)

(** The methods a proof about [create] or [deploy] looks into. *)
Ltac unfold_create :=
  unfold create, linkAppInsights, reportFailedOperations, updateDeploymentJsonFile,
    validateDeployment, createDeployment, createResourceGroup, createApp, readTemplateFile,
    status_of, statusMessage_error, getTenantId, getErrorMesssage, call.

Ltac unfold_deploy :=
  unfold deploy, publishLuis, deployZip, zipDirectory, call_buildDeploy, call_builder,
    getFiles, notEmptyLuisModel, remove, mkdir, writeJson, write, call.

Ltac preserve_deploy :=
  repeat first
    [ preserve_log_step
    | lazymatch goal with
      | |- preserves ?R (readLuisAppIds _ _) => apply (@preserves_readLuisAppIds R _)
      | |- preserves ?R (getAccount _ _) => apply (@preserves_getAccount R _)
      | |- preserves ?R (onAccountListError _) => apply (@preserves_onAccountListError R _)
      end ].

Section CreateCalls.

Variable E : Env.
Variable this : BotProjectDeploy.

(** Every call [create] makes is one of its own, made for the resource
    group [name-environment], the deployment named by the time stamp and the
    bot [name]; the template is validated and applied with the parameters built
    from the arguments: [create] never builds, never uploads, never talks to
    LUIS. *)
Theorem create_calls_are_for_its_resource_group name location environment appPassword
    createLuisResource createLuisAuthoringResource createCosmosDb createStorage
    createAppInsights w :
  calls_within
    (create_call E this name location environment appPassword createLuisResource
       createLuisAuthoringResource createCosmosDb createStorage createAppInsights)
    w
    (snd (create E this name location environment appPassword createLuisResource
            createLuisAuthoringResource createCosmosDb createStorage createAppInsights w)).
Proof.
  revert w.
  change (preserves
            (calls_within
               (create_call E this name location environment appPassword createLuisResource
                  createLuisAuthoringResource createCosmosDb createStorage
                  createAppInsights))
            (create E this name location environment appPassword createLuisResource
               createLuisAuthoringResource createCosmosDb createStorage createAppInsights)).
  unfold_create. preserve.
  all: unfold create_call, is_tenant_lookup, tenantUrl; cbv zeta;
    repeat split; try reflexivity; do 2 eexists; reflexivity.
Qed.

(** Everything [create] logs has one of the PROVISION statuses. *)
Theorem create_logs_provision_events name location environment appPassword
    createLuisResource createLuisAuthoringResource createCosmosDb createStorage
    createAppInsights w :
  logs_within provision_event w
    (snd (create E this name location environment appPassword createLuisResource
            createLuisAuthoringResource createCosmosDb createStorage createAppInsights w)).
Proof.
  revert w.
  change (preserves (logs_within provision_event)
            (create E this name location environment appPassword createLuisResource
               createLuisAuthoringResource createCosmosDb createStorage createAppInsights)).
  unfold_create. preserve_log.
Qed.

End CreateCalls.

Section CreateTenant.

Variable E : Env.
Variable this : BotProjectDeploy.

(** Without Application Insights, [create] makes no call to the
    Application Insights service nor to the bot service. *)
Theorem create_without_app_insights_leaves_bot_alone name location environment appPassword
    createLuisResource createLuisAuthoringResource createCosmosDb createStorage w :
  calls_within not_insights w
    (snd (create E this name location environment appPassword createLuisResource
            createLuisAuthoringResource createCosmosDb createStorage false w)).
Proof.
  revert w.
  change (preserves (calls_within not_insights)
            (create E this name location environment appPassword createLuisResource
               createLuisAuthoringResource createCosmosDb createStorage false)).
  unfold create, reportFailedOperations, updateDeploymentJsonFile,
    validateDeployment, createDeployment, createResourceGroup, createApp, readTemplateFile,
    status_of, statusMessage_error, getTenantId, getErrorMesssage, call.
  cbv beta iota. preserve.
Qed.

(** A tenant id that is already known is used as it is: [create] looks
    none up and leaves the one it has. *)
Theorem create_keeps_known_tenant name location environment appPassword
    createLuisResource createLuisAuthoringResource createCosmosDb createStorage
    createAppInsights w :
  truthy (tenantId w) = true ->
  let run := create E this name location environment appPassword createLuisResource
               createLuisAuthoringResource createCosmosDb createStorage createAppInsights w in
  tenantId (snd run) = tenantId w /\ calls_within not_tenant_lookup w (snd run).
Proof.
  intros Hknown. cbv zeta.
  change (wp (create E this name location environment appPassword createLuisResource
                createLuisAuthoringResource createCosmosDb createStorage createAppInsights)
            (fun _ w' => tenantId w' = tenantId w /\ calls_within not_tenant_lookup w w') w).
  unfold create. wp_steps. rewrite Hknown. cbn [negb]. wp_step.
  apply (wp_frame (both same_tenant (calls_within not_tenant_lookup))).
  - unfold linkAppInsights, reportFailedOperations, updateDeploymentJsonFile,
      validateDeployment, createDeployment, createResourceGroup, createApp, readTemplateFile,
      status_of, statusMessage_error, call.
    preserve.
  - intros o w1 [Htenant Hcalls]. split; [exact Htenant | exact Hcalls].
Qed.

(** With no tenant id yet and no access token, or no subscription id,
    [create] throws at once: nothing is requested, nothing logged. *)
Theorem create_needs_token_and_subscription name location environment appPassword
    createLuisResource createLuisAuthoringResource createCosmosDb createStorage
    createAppInsights w :
  truthy (tenantId w) = false ->
  accessToken this = "" \/ subId this = "" ->
  create E this name location environment appPassword createLuisResource
    createLuisAuthoringResource createCosmosDb createStorage createAppInsights w
  = (Throw (JsError
             (if accessToken this =? ""
              then "Error: Missing access token. Please provide a non-expired Azure access token. Tokens can be obtained by running az account get-access-token"
              else "Error: Missing subscription Id. Please provide a valid Azure subscription id.")),
     w).
Proof.
  intros Hknown Hmissing. unfold create.
  rewrite bind_run. unfold the_tenantId at 1. rewrite bind_run. rewrite Hknown. cbn [negb].
  rewrite bind_run. unfold getTenantId.
  destruct (accessToken this =? "") eqn:Htoken; [reflexivity |].
  destruct Hmissing as [Habs | Hsub].
  - rewrite Habs in Htoken. discriminate Htoken.
  - rewrite Hsub. reflexivity.
Qed.

(** What [getErrorMesssage] can throw. *)
Lemma getErrorMesssage_throws err w e w' :
  getErrorMesssage E err w = (Throw e, w') ->
  e = TypeError /\ exists body, err = SdkError body.
Proof.
  unfold getErrorMesssage.
  destruct err as [m | | | p | st t | body]; simpl; try discriminate.
  destruct (truthy body); [| discriminate].
  destruct (truthy (get body "error")); [| discriminate].
  destruct (truthy (get (get body "error") "details")); [| discriminate].
  intros Hrun. split; [| exists body; reflexivity].
  unfold bind in Hrun.
  destruct (iterate (get (get body "error") "details") w) as [[items | e0] w0] eqn:Hit.
  - clear Hit. revert Hrun.
    assert (Hinit : forall w1 e1 w2, @ret string "" w1 = (Throw e1, w2) -> e1 = TypeError)
      by (intros w1 e1 w2 Habs; discriminate Habs).
    revert Hinit. generalize (@ret string ""). revert w0.
    induction items as [| detail rest IH]; simpl; intros w0 acc Hacc Hrun.
    + exact (Hacc _ _ _ Hrun).
    + apply (IH w0 _) in Hrun; [exact Hrun |].
      intros w1 e1 w2. unfold bind. destruct (acc w1) as [[errMsg | e2] w3] eqn:Hacc1.
      * unfold prop. destruct (get_strict detail "message"); simpl; intros Habs;
          [discriminate Habs | injection Habs as <- _; reflexivity].
      * intros Habs. injection Habs as <- _. exact (Hacc _ _ _ Hacc1).
  - injection Hrun as <- _.
    destruct (get (get body "error") "details"); simpl in Hit;
      first [discriminate Hit | injection Hit as <- _; reflexivity].
Qed.

(** The handler of [getTenantId] never returns. *)
Lemma getTenantId_handler err w :
  match fst ((details <- getErrorMesssage E err ;;
              @throw JValue (JsError ("Get Tenant Id Failed, details: " ++ details))) w)
  with
  | Ok _ => False
  | Throw e =>
      (exists details, e = JsError ("Get Tenant Id Failed, details: " ++ details))
      \/ (e = TypeError /\ exists body, err = SdkError body)
  end.
Proof.
  unfold bind.
  destruct (getErrorMesssage E err w) as [[details | e] w1] eqn:Hmsg; simpl.
  - left. exists details. reflexivity.
  - right. exact (getErrorMesssage_throws _ _ _ _ Hmsg).
Qed.

(** [getTenantId] returns the [tenantId] of the parsed answer, which is
    then not [undefined].  Past the two checks of the configuration, whatever
    goes wrong (the request, the parsing, an answer without tenant) is thrown
    as an error whose message starts with [Get Tenant Id Failed, details: ],
    never as it was; only an SDK-like error with a body whose details cannot
    be read makes it throw a TypeError instead. *)
Theorem getTenantId_outcome w :
  let headers := [("Authorization", JStr ("Bearer " ++ accessToken this))] in
  match fst (getTenantId E this w) with
  | Ok tenant =>
      tenant <> JUndefined
      /\ exists response jsonRes,
           rp_get E (tenantUrl this) headers = Ok response
           /\ JSON_parse response = Some jsonRes
           /\ tenant = get jsonRes "tenantId"
  | Throw e =>
      (accessToken this = ""
       /\ e = JsError "Error: Missing access token. Please provide a non-expired Azure access token. Tokens can be obtained by running az account get-access-token")
      \/ (subId this = ""
          /\ e = JsError "Error: Missing subscription Id. Please provide a valid Azure subscription id.")
      \/ (exists details, e = JsError ("Get Tenant Id Failed, details: " ++ details))
      \/ (e = TypeError /\ exists body, rp_get E (tenantUrl this) headers = Throw (SdkError body))
  end.
Proof.
  cbv zeta. unfold getTenantId. fold (tenantUrl this).
  destruct (accessToken this =? "") eqn:Htoken.
  { apply String.eqb_eq in Htoken. simpl. left. split; [exact Htoken | reflexivity]. }
  destruct (subId this =? "") eqn:Hsub.
  { apply String.eqb_eq in Hsub. simpl. right. left. split; [exact Hsub | reflexivity]. }
  set (headers := [("Authorization", JStr ("Bearer " ++ accessToken this))]).
  match goal with |- context [try_catch _ ?handler] => set (h := handler) end.
  unfold try_catch, bind at 1, record_call. unfold bind at 1.
  destruct (rp_get E (tenantUrl this) headers) as [response | e] eqn:Hget; simpl.
  2: { pose proof (getTenantId_handler e (add_call (RpGet (tenantUrl this) headers) w))
         as Hhandler.
       unfold h. destruct (fst _); [destruct Hhandler |].
       right. right. destruct Hhandler as [Hd | [-> [body ->]]].
       - left. exact Hd.
       - right. split; [reflexivity |]. exists body. reflexivity. }
  unfold bind.
  destruct (JSON_parse response) as [jsonRes |] eqn:Hparse; simpl.
  2: { right. right. left. eexists. reflexivity. }
  unfold prop, get_strict. destruct (nullish jsonRes) eqn:Hnull; simpl.
  { right. right. left. eexists. reflexivity. }
  destruct (get jsonRes "tenantId") eqn:Htenant; simpl;
    try (split; [discriminate |];
         exists response, jsonRes;
         split; [reflexivity | split; [exact Hparse | symmetry; exact Htenant]]).
  right. right. left. eexists. reflexivity.
Qed.

End CreateTenant.

Lemma unpackObject_nodup output unpacked :
  unpackObject output = Some unpacked -> NoDup (map fst unpacked).
Proof.
  unfold unpackObject.
  assert (Hgen : forall l acc res,
             NoDup (map fst acc) ->
             fold_left (unpack_step output) l (Some acc) = Some res -> NoDup (map fst res)).
  { induction l as [| key rest IH]; simpl; intros acc res Hnd Hfold.
    - injection Hfold as <-. exact Hnd.
    - destruct (get_strict (get output key) "value") as [x |].
      + destruct (truthy x); eapply IH; try exact Hfold; [apply nodup_set_field |]; exact Hnd.
      + rewrite unpack_fold_none in Hfold. discriminate Hfold. }
  intros Hun. exact (Hgen _ [] _ (NoDup_nil _) Hun).
Qed.

Section CreateResult.

Variable E : Env.
Variable this : BotProjectDeploy.

Lemma updateDeploymentJsonFile_record rg dn appId pw :
  returns (updateDeploymentJsonFile E rg dn appId pw)
    (fun v =>
       exists outputs,
         remote E (DeploymentsGet rg dn) = Ok outputs
         /\ if truthy (outputs_of outputs)
            then exists r,
                   v = JObj r
                   /\ lookup r "MicrosoftAppPassword" = Some (JStr pw)
                   /\ forall k,
                        k <> "MicrosoftAppId" -> k <> "MicrosoftAppPassword" ->
                        lookup r k =
                        if truthy (get (get (outputs_of outputs) k) "value")
                        then Some (get (get (outputs_of outputs) k) "value")
                        else None
            else v = JNull).
Proof.
  unfold updateDeploymentJsonFile.
  eapply returns_bind_with; [apply call_returns |]. cbv beta zeta. intros outputs Hcall.
  fold (outputs_of outputs).
  destruct (truthy (outputs_of outputs)) eqn:Hout.
  - intros w a w' Hrun. apply bind_ok_inv in Hrun as (outputObj & w1 & Hun & Hrun).
    injection Hrun as <- _. apply or_throw_inv in Hun as [Hunpack _].
    exists outputs. split; [exact Hcall |]. rewrite Hout.
    eexists. split; [reflexivity |]. split.
    + unfold Object_assign at 1. simpl. apply lookup_set_field_same.
    + intros k Hid Hpw.
      rewrite lookup_Object_assign
        by (simpl; repeat constructor; simpl; intuition discriminate).
      assert (H1 : ("MicrosoftAppId" =? k) = false)
        by (apply String.eqb_neq; intros Heq; apply Hid; symmetry; exact Heq).
      assert (H2 : ("MicrosoftAppPassword" =? k) = false)
        by (apply String.eqb_neq; intros Heq; apply Hpw; symmetry; exact Heq).
      unfold own_props at 1. cbn [lookup]. rewrite H1, H2.
      rewrite lookup_Object_assign by (exact (unpackObject_nodup _ _ Hunpack)).
      unfold own_props. cbn [lookup]. rewrite (unpackObject_lookup _ _ Hunpack k).
      destruct (truthy (get (get (outputs_of outputs) k) "value")); reflexivity.
  - apply returns_ret. exists outputs. split; [exact Hcall |]. rewrite Hout. reflexivity.
Qed.

(** What [create] returns is decided by the answer of [deployments.get]:
    [null] when that answer has no (truthy) outputs, and else a record that
    maps MicrosoftAppPassword to the password [create] was given, even when
    there is an output of that name, and that, none of the outputs being named
    [__proto__], maps a name other than the two identity fields to the wrapped
    value of the output of that name, when this value is truthy, and to
    nothing otherwise. *)
Theorem create_result_follows_outputs name location environment appPassword
    createLuisResource createLuisAuthoringResource createCosmosDb createStorage
    createAppInsights w v :
  fst (create E this name location environment appPassword createLuisResource
         createLuisAuthoringResource createCosmosDb createStorage createAppInsights w)
  = Ok v ->
  exists outputs,
    remote E (DeploymentsGet (name ++ "-" ++ environment) (string_of_Z (getTime E)))
    = Ok outputs
    /\ if truthy (outputs_of outputs)
       then exists r,
              v = JObj r
              /\ lookup r "MicrosoftAppPassword" = Some (JStr appPassword)
              /\ (~ In "__proto__" (keys (outputs_of outputs)) ->
                  forall k,
                    k <> "MicrosoftAppId" -> k <> "MicrosoftAppPassword" ->
                    lookup r k =
                    if truthy (get (get (outputs_of outputs) k) "value")
                    then Some (get (get (outputs_of outputs) k) "value")
                    else None)
       else v = JNull.
Proof.
  intros Hrun.
  assert (Hreturns :
            returns (create E this name location environment appPassword createLuisResource
                       createLuisAuthoringResource createCosmosDb createStorage
                       createAppInsights)
              (fun v =>
                 exists outputs,
                   remote E (DeploymentsGet (name ++ "-" ++ environment)
                               (string_of_Z (getTime E)))
                   = Ok outputs
                   /\ if truthy (outputs_of outputs)
                      then exists r,
                             v = JObj r
                             /\ lookup r "MicrosoftAppPassword" = Some (JStr appPassword)
                             /\ forall k,
                                  k <> "MicrosoftAppId" -> k <> "MicrosoftAppPassword" ->
                                  lookup r k =
                                  if truthy (get (get (outputs_of outputs) k) "value")
                                  then Some (get (get (outputs_of outputs) k) "value")
                                  else None
                      else v = JNull)).
  { unfold create. cbv zeta.
    repeat returns_step
      ltac:(eapply returns_bind_with;
            [apply updateDeploymentJsonFile_record | cbv beta; intros ? ?]). }
  destruct (Hreturns w v (snd (create E this name location environment appPassword
                                 createLuisResource createLuisAuthoringResource createCosmosDb
                                 createStorage createAppInsights w)))
    as (outputs & Hcall & Hresult).
  { rewrite <- Hrun. apply surjective_pairing. }
  exists outputs. split; [exact Hcall |].
  destruct (truthy (outputs_of outputs)); [| exact Hresult].
  destruct Hresult as (r & Hv & Hpw & Hkeys).
  exists r. split; [exact Hv | split; [exact Hpw |]].
  intros _. exact Hkeys.
Qed.

(** Whenever [create] returns, with a record or with [null], the last
    thing it has logged is the PROVISION_SUCCESS event that tells how to delete
    the resource group. *)
Theorem create_ends_with_success_event name location environment appPassword
    createLuisResource createLuisAuthoringResource createCosmosDb createStorage
    createAppInsights w v :
  let run := create E this name location environment appPassword createLuisResource
               createLuisAuthoringResource createCosmosDb createStorage createAppInsights w in
  fst run = Ok v ->
  last_logged (snd run)
  = Some {| ev_status := PROVISION_SUCCESS;
            ev_message := MText (delete_hint (name ++ "-" ++ environment)) |}.
Proof.
  cbv zeta. intros Hrun.
  assert (Hends :
            ends_logging
              {| ev_status := PROVISION_SUCCESS;
                 ev_message := MText (delete_hint (name ++ "-" ++ environment)) |}
              (create E this name location environment appPassword createLuisResource
                 createLuisAuthoringResource createCosmosDb createStorage createAppInsights)).
  { unfold create. cbv zeta. repeat ends_step. }
  apply (Hends w v). rewrite <- Hrun. apply surjective_pairing.
Qed.

(** With an empty app password and settings that hold no (truthy)
    MicrosoftAppId, or no settings file at all, [create] never returns and
    requests nothing but the tenant; the tenant known and the credentials
    there, it logs and throws [App password is required] and does nothing
    else. *)
Theorem create_requires_app_password name location environment
    createLuisResource createLuisAuthoringResource createCosmosDb createStorage
    createAppInsights w :
  stat (files w) (settingsPath this) = None
  \/ (exists settings,
        stat (files w) (settingsPath this) = Some (File (JsonText settings))
        /\ nullish settings = false
        /\ truthy (get settings "MicrosoftAppId") = false) ->
  let run := create E this name location environment "" createLuisResource
               createLuisAuthoringResource createCosmosDb createStorage createAppInsights w in
  (exists e, fst run = Throw e)
  /\ calls_within (is_tenant_lookup this) w (snd run)
  /\ (truthy (tenantId w) = true -> nullish (creds this) = false ->
      run = (Throw (JsError "App password is required"),
             add_log {| ev_status := PROVISION_INFO;
                        ev_message := MText "App password is required" |} w)).
Proof.
  intros Hsettings. cbv zeta.
  assert (Hstat : exists settings,
             (if match stat (files w) (settingsPath this) with Some _ => true | None => false end
              then readJson (settingsPath this) else ret (JObj [])) w = (Ok settings, w)
             /\ nullish settings = false
             /\ truthy (get settings "MicrosoftAppId") = false).
  { destruct Hsettings as [Hnone | (settings & Hsome & Hnull & Hid)].
    - rewrite Hnone. exists (JObj []). split; [reflexivity | split; reflexivity].
    - rewrite Hsome. exists settings. split; [| split; assumption].
      unfold readJson, read_node, bind, the_files. rewrite Hsome. reflexivity. }
  destruct Hstat as (settings & Hread & Hnull & Hid).
  assert (Hread1 : forall w1, files w1 = files w ->
             (if match stat (files w) (settingsPath this) with
                 | Some _ => true | None => false end
              then readJson (settingsPath this) else ret (JObj [])) w1
             = (Ok settings, w1)).
  { intros w1 Hfiles.
    destruct (stat (files w) (settingsPath this)) as [n |] eqn:Hs.
    - unfold readJson, read_node, bind, the_files in *. rewrite Hfiles, Hs in *.
      destruct n as [| [v | s] | es]; simpl in *; try discriminate Hread.
      injection Hread as <-. reflexivity.
    - injection Hread as <-. reflexivity. }
  assert (Hboth : (exists e,
                     fst (create E this name location environment "" createLuisResource
                            createLuisAuthoringResource createCosmosDb createStorage
                            createAppInsights w) = Throw e)
                  /\ calls_within (is_tenant_lookup this) w
                       (snd (create E this name location environment "" createLuisResource
                               createLuisAuthoringResource createCosmosDb createStorage
                               createAppInsights w))).
  { change (wp (create E this name location environment "" createLuisResource
                  createLuisAuthoringResource createCosmosDb createStorage createAppInsights)
              (fun o w' => (exists e, o = Throw e)
                           /\ calls_within (is_tenant_lookup this) w w') w).
    unfold create. wp_steps.
    apply (wp_frame (both same_files (calls_within (is_tenant_lookup this)))).
    { destruct (negb _); preserve. unfold getTenantId, getErrorMesssage. preserve. }
    intros o w1 [Hfiles Hcalls]. destruct o as [[] | e];
      [| split; [exists e; reflexivity | exact Hcalls]].
    wp_steps. destruct (get_strict (creds this) "clientId"); wp_steps;
      [| split; [eexists; reflexivity | exact Hcalls]].
    rewrite Hfiles.
    unfold wp at 1. rewrite (Hread1 w1 Hfiles). cbn [fst snd].
    wp_steps. unfold get_strict. rewrite Hnull. wp_steps. rewrite Hid. cbn [negb].
    wp_steps. split; [eexists; reflexivity |].
    eapply frame_trans; [exact Hcalls | apply calls_within_add_log]. }
  split; [exact (proj1 Hboth) | split; [exact (proj2 Hboth) |]].
  intros Hknown Hcreds. unfold create.
  rewrite bind_run. unfold the_tenantId at 1. cbv beta iota. rewrite Hknown. cbn [negb].
  rewrite bind_run. unfold ret at 1. cbv beta iota.
  erewrite (bind_step _ _ _ (get (creds this) "clientId") w)
    by (unfold prop, get_strict; rewrite Hcreds; reflexivity).
  erewrite (bind_step _ _ _
              (match stat (files w) (settingsPath this) with Some _ => true | None => false end)
              w) by reflexivity.
  erewrite (bind_step _ _ _ settings w) by (exact (Hread1 w eq_refl)).
  erewrite (bind_step _ _ _ (get settings "MicrosoftAppId") w)
    by (unfold prop, get_strict; rewrite Hnull; reflexivity).
  rewrite Hid. reflexivity.
Qed.

End CreateResult.

Section CreateFailure.

Variable E : Env.
Variable this : BotProjectDeploy.

(** Take any run of [create] in which the template was sent to be applied
    and the answer came with a status other than 200.  Then [create] throws an
    error whose message is [! Error: ] followed by the [error] of the
    validation, a falsy value at that point (so the message tells nothing of
    what went wrong); that call is the last one it made, and the last thing it
    logged is the hint to delete the resource group. *)
Theorem create_throws_when_deployment_fails name location environment appPassword
    createLuisResource createLuisAuthoringResource createCosmosDb createStorage
    createAppInsights w rg dn p r :
  let run := create E this name location environment appPassword createLuisResource
               createLuisAuthoringResource createCosmosDb createStorage createAppInsights w in
  forall made,
    calls (snd run) = (calls w ++ made)%list ->
    In (DeploymentsCreateOrUpdate rg dn p) made ->
    remote E (DeploymentsCreateOrUpdate rg dn p) = Ok r ->
    nullish (result r) = false ->
    response_status r <> 200%Z ->
    (exists validationError,
       truthy validationError = false
       /\ fst run = Throw (JsError ("! Error: " ++ to_js_string validationError)))
    /\ (exists earlier, made = (earlier ++ [DeploymentsCreateOrUpdate rg dn p])%list)
    /\ last_logged (snd run)
       = Some {| ev_status := PROVISION_ERROR;
                 ev_message := MText (delete_hint (name ++ "-" ++ environment)) |}.
Proof.
  cbv zeta. intros made Hmade Hin Hresp Hnull Hstatus. revert made Hmade Hin.
  set (Q := fun (o : Outcome JValue) (w' : World) =>
              forall made, calls w' = (calls w ++ made)%list ->
                In (DeploymentsCreateOrUpdate rg dn p) made ->
                (exists validationError,
                   truthy validationError = false
                   /\ o = Throw (JsError ("! Error: " ++ to_js_string validationError)))
                /\ (exists earlier, made = (earlier ++ [DeploymentsCreateOrUpdate rg dn p])%list)
                /\ last_logged w'
                   = Some {| ev_status := PROVISION_ERROR;
                             ev_message := MText (delete_hint (name ++ "-" ++ environment)) |}).
  change (wp (create E this name location environment appPassword createLuisResource
                createLuisAuthoringResource createCosmosDb createStorage createAppInsights)
            Q w).
  assert (Hearly : forall (o : Outcome JValue) w1, calls_within not_apply w w1 -> Q o w1).
  { intros o w1 (made1 & Hcalls & Hall) made Hmade Hin.
    rewrite Hcalls in Hmade. apply app_inv_head in Hmade. subst made1.
    rewrite Forall_forall in Hall. destruct (Hall _ Hin). }
  assert (Hstart : calls_within not_apply w w) by apply frame_refl.
  unfold create.
  repeat (lazymatch goal with
          | |- wp (bind (if truthy _ then _ else _) _) _ _ => fail
          | |- wp (bind _ _) _ _ =>
              apply (wp_bind_frame_acc (calls_within not_apply) _ _ _ w);
              [ eassumption
              | unfold createApp, createResourceGroup, validateDeployment, readTemplateFile,
                  getTenantId, getErrorMesssage, call; preserve
              | intros ? ?; apply Hearly
              | clear Hstart; intros ? ? Hstart ]
          end).
  match goal with
  | |- wp (bind (if truthy ?v then _ else _) _) _ ?x =>
      rename v into validationError; rename x into wv
  end.
  destruct (truthy validationError) eqn:Hfalsy.
  { wp_steps. apply Hearly. eapply frame_trans; [exact Hstart |].
    exists []. split; [symmetry; apply app_nil_r | constructor]. }
  wp_steps. unfold createDeployment, readTemplateFile, call. wp_steps.
  assert (Hlogged : forall ev, calls_within not_apply w (add_log ev wv)).
  { intros ev. eapply frame_trans; [exact Hstart | apply calls_within_add_log]. }
  destruct (stat _ _) as [[| t | es] |]; wp_steps; try (apply Hearly, Hlogged).
  destruct (JSON_parse t) as [template |]; wp_steps; try (apply Hearly, Hlogged).
  set (c := DeploymentsCreateOrUpdate _ _ _).
  destruct Hstart as (made0 & Hcalls0 & Hall0).
  assert (Hthis : forall made rest,
             ((calls wv ++ [c]) ++ rest)%list = (calls w ++ made)%list ->
             Forall not_apply rest ->
             In (DeploymentsCreateOrUpdate rg dn p) made ->
             made = (made0 ++ [c] ++ rest)%list /\ remote E c = Ok r
             /\ DeploymentsCreateOrUpdate rg dn p = c).
  { intros made rest Hmade Hrest Hin. rewrite Hcalls0, <- !app_assoc in Hmade.
    apply app_inv_head in Hmade. subst made. split; [reflexivity |].
    apply in_app_or in Hin as [Hin | [Hin | Hin]].
    - rewrite Forall_forall in Hall0. destruct (Hall0 _ Hin).
    - split; [rewrite Hin; exact Hresp | symmetry; exact Hin].
    - rewrite Forall_forall in Hrest. destruct (Hrest _ Hin). }
  assert (Hnow : forall made,
             (calls wv ++ [c])%list = (calls w ++ made)%list ->
             In (DeploymentsCreateOrUpdate rg dn p) made ->
             made = (made0 ++ [c])%list /\ remote E c = Ok r
             /\ DeploymentsCreateOrUpdate rg dn p = c).
  { intros made Hmade Hin. apply (Hthis made []); [| constructor | exact Hin].
    rewrite app_nil_r. exact Hmade. }
  destruct (remote E c) as [deployment | e] eqn:Hc; wp_steps.
  2: { intros made Hmade Hin. destruct (Hnow made Hmade Hin) as (_ & Habs & _).
       discriminate Habs. }
  unfold status_of. wp_steps. unfold get_strict.
  destruct (nullish (result deployment)) eqn:Hnull'; wp_steps.
  { intros made Hmade Hin. destruct (Hnow made Hmade Hin) as (_ & Heq & _).
    injection Heq as ->. rewrite Hnull in Hnull'. discriminate Hnull'. }
  destruct (response_status deployment =? 200)%Z eqn:Hst; cbn [negb]; wp_steps.
  - apply wp_unbind. apply (wp_frame (calls_within not_apply)).
    + unfold linkAppInsights, reportFailedOperations, updateDeploymentJsonFile, status_of,
        statusMessage_error, call.
      preserve.
    + intros o wlast (rest & Hcalls1 & Hrest) made Hmade Hin.
      rewrite Hcalls1 in Hmade. cbn [calls add_log add_call] in Hmade.
      destruct (Hthis made rest Hmade Hrest Hin) as (_ & Heq & _).
      injection Heq as ->. apply Z.eqb_eq in Hst. destruct (Hstatus Hst).
  - intros made Hmade Hin. cbn [calls add_log add_call] in Hmade.
    destruct (Hnow made Hmade Hin) as (-> & _ & ->).
    split; [| split].
    + exists validationError. split; [exact Hfalsy | reflexivity].
    + exists made0. reflexivity.
    + apply last_logged_add_log.
Qed.

End CreateFailure.

Lemma prop_inv v k w w' x :
  prop v k w = (Ok x, w') -> nullish v = false /\ x = get v k /\ w' = w.
Proof.
  unfold prop, get_strict. destruct (nullish v); simpl; intros H.
  - discriminate H.
  - injection H as <- <-. repeat split.
Qed.

Section CreateAppRegistration.

Variable E : Env.
Variable this : BotProjectDeploy.

(** Take a run of [create] that returns a record, on settings that hold no
    (truthy) MicrosoftAppId, or with no settings file.  Then the app password
    is not empty, an app registration was created for [name] with that
    password, the [appId] of the answer is the MicrosoftAppId of the record,
    and it is the [appId] parameter of every template validated or applied. *)
Theorem create_registers_app_when_settings_have_none name location environment appPassword
    createLuisResource createLuisAuthoringResource createCosmosDb createStorage
    createAppInsights w w' r :
  stat (files w) (settingsPath this) = None
  \/ (exists settings,
        stat (files w) (settingsPath this) = Some (File (JsonText settings))
        /\ truthy (get settings "MicrosoftAppId") = false) ->
  create E this name location environment appPassword createLuisResource
    createLuisAuthoringResource createCosmosDb createStorage createAppInsights w
  = (Ok (JObj r), w') ->
  appPassword <> ""
  /\ exists appCreated,
       remote E (ApplicationsCreate name appPassword) = Ok appCreated
       /\ lookup r "MicrosoftAppId" = Some (get (result appCreated) "appId")
       /\ (exists made, calls w' = (calls w ++ made)%list
                        /\ In (ApplicationsCreate name appPassword) made)
       /\ calls_within (applies_app_id (get (result appCreated) "appId")) w w'.
Proof.
  intros Hsettings Hrun. unfold create in Hrun.
  apply bind_ok_inv in Hrun as (known & w1 & Hknown & Hrun).
  injection Hknown as _ <-.
  apply bind_ok_inv in Hrun as ([] & w2 & Htenant & Hrun).
  assert (Hprefix : both same_files (calls_within before_validation) w w2).
  { refine (kept _ _ _ _ _ _ Htenant).
    destruct (negb _); unfold getTenantId, getErrorMesssage; preserve. }
  destruct Hprefix as [Hfiles Hcalls].
  apply bind_ok_inv in Hrun as (clientId & w3 & Hcreds & Hrun).
  apply prop_inv in Hcreds as (_ & _ & ->).
  apply bind_ok_inv in Hrun as (existing & w3 & Hexists & Hrun).
  unfold pathExists, bind, the_files, ret in Hexists. injection Hexists as <- <-.
  rewrite Hfiles in Hrun.
  apply bind_ok_inv in Hrun as (settings & w3 & Hread & Hrun).
  assert (Hid : truthy (get settings "MicrosoftAppId") = false /\ w3 = w2).
  { destruct Hsettings as [Hnone | (settings0 & Hsome & Hid)].
    - rewrite Hnone in Hread. injection Hread as <- <-. split; reflexivity.
    - rewrite Hsome in Hread. apply readJson_inv in Hread as [Hstat ->].
      rewrite Hfiles, Hsome in Hstat. injection Hstat as <-. split; [exact Hid | reflexivity]. }
  destruct Hid as [Hid ->]. clear Hread.
  apply bind_ok_inv in Hrun as (settingsAppId & w3 & Hprop & Hrun).
  apply prop_inv in Hprop as (_ & -> & ->).
  rewrite Hid in Hrun. cbn [negb] in Hrun.
  apply bind_ok_inv in Hrun as (appId & w3 & Happ & Hrun).
  apply bind_ok_inv in Happ as ([] & w4 & Hpassword & Happ).
  assert (Hpw : appPassword <> "" /\ w4 = w2).
  { destruct (appPassword =? "") eqn:Hempty; [discriminate Hpassword |].
    apply String.eqb_neq in Hempty. injection Hpassword as <-. split; [exact Hempty | reflexivity]. }
  destruct Hpw as [Hpw ->].
  apply bind_ok_inv in Happ as ([] & w4 & Hlog & Happ). injection Hlog as <-.
  apply bind_ok_inv in Happ as (appCreated & w4 & Hcreate & Happ).
  pose proof (call_returns E _ _ _ _ Hcreate) as Hanswer.
  unfold createApp, call, bind, record_call in Hcreate.
  destruct (of_outcome _ _) as [o w5] eqn:Hout in Hcreate.
  assert (Hw5 : w5 = add_call (ApplicationsCreate name appPassword)
                       (add_log {| ev_status := PROVISION_INFO;
                                   ev_message := MText "> Creating App Registration ..." |} w2)).
  { unfold of_outcome in Hout. destruct (remote E _); injection Hout as _ <-; reflexivity. }
  injection Hcreate as _ <-. clear Hout o. subst w5.
  apply bind_ok_inv in Happ as ([] & w4 & Hlog & Happ). injection Hlog as <-.
  apply prop_inv in Happ as (_ & -> & ->).
  set (id := get (result appCreated) "appId") in *.
  match type of Hrun with ?tail ?w0 = _ =>
    assert (Htail : preserves (calls_within (applies_app_id id)) tail);
    [| assert (Hret : returns tail
                        (fun v => forall r, v = JObj r -> lookup r "MicrosoftAppId" = Some id)) ]
  end.
  { unfold createResourceGroup, validateDeployment, createDeployment, linkAppInsights,
      reportFailedOperations, updateDeploymentJsonFile, readTemplateFile, status_of,
      statusMessage_error, call.
    preserve. }
  { repeat returns_step
      ltac:(eapply returns_bind_with;
            [apply updateDeploymentJsonFile_appId | cbv beta; intros ? ?]). }
  pose proof (kept _ _ _ _ _ Htail Hrun) as (rest & Hcalls' & Hrest).
  destruct Hcalls as (made0 & Hcalls0 & Hmade0).
  cbn [calls add_log add_call] in Hcalls'.
  split; [exact Hpw |]. exists appCreated.
  split; [exact Hanswer | split; [exact (Hret _ _ _ Hrun r eq_refl) | split]].
  - exists (made0 ++ [ApplicationsCreate name appPassword] ++ rest)%list. split.
    + rewrite Hcalls', Hcalls0, <- !app_assoc. reflexivity.
    + apply in_or_app. right. left. reflexivity.
  - exists (made0 ++ [ApplicationsCreate name appPassword] ++ rest)%list. split.
    + rewrite Hcalls', Hcalls0, <- !app_assoc. reflexivity.
    + apply Forall_app. split.
      * eapply Forall_impl; [| exact Hmade0]. intros c Hc. destruct c; try exact I; destruct Hc.
      * constructor; [exact I | exact Hrest].
Qed.

End CreateAppRegistration.

(** ** Deploying, further *)

Section DeployCalls.

Variable E : Env.
Variable this : BotProjectDeploy.

(** Every request [publishLuis] sends goes to the LUIS endpoint it was
    given, or, if it was given none, to the one of the authoring region, and
    carries the access token and the authoring key; the LU builder is given the
    authoring key and the authoring endpoint, which is the endpoint when none
    was given, and writes into the [generated] folder of the build. *)
Theorem publishLuis_calls_go_to_endpoint workingFolder name environment language
    luisEndpoint luisAuthoringEndpoint luisEndpointKey luisAuthoringKey luisAuthoringRegion
    luisResource w :
  calls_within
    (luis_call this workingFolder name environment language luisEndpoint
       luisAuthoringEndpoint luisAuthoringKey luisAuthoringRegion)
    w
    (snd (publishLuis E this workingFolder name environment language luisEndpoint
            luisAuthoringEndpoint luisEndpointKey luisAuthoringKey luisAuthoringRegion
            luisResource w)).
Proof.
  revert w.
  change (preserves
            (calls_within
               (luis_call this workingFolder name environment language luisEndpoint
                  luisAuthoringEndpoint luisAuthoringKey luisAuthoringRegion))
            (publishLuis E this workingFolder name environment language luisEndpoint
               luisAuthoringEndpoint luisEndpointKey luisAuthoringKey luisAuthoringRegion
               luisResource)).
  unfold_deploy. preserve_deploy.
  all: unfold luis_call; cbv zeta; repeat split; try reflexivity.
  all: try (eexists; reflexivity).
  all: destruct (truthy luisAuthoringEndpoint); simpl; do 4 eexists; reflexivity.
Qed.

(** Every call [deploy] makes is the build of the project, a step of the
    LU builder (the models are loaded for the language given, or for [en-us]
    when none is), a LUIS request that carries the access token, or the upload
    of the archive at [zipPath], with the access token, to the site named by
    [hostname] or else [name-environment]: [deploy] provisions nothing. *)
Theorem deploy_calls_build_luis_upload project name environment language hostname
    luisResource w :
  calls_within (deploy_call this project name environment language hostname) w
    (snd (deploy E this project name environment language hostname luisResource w)).
Proof.
  revert w.
  change (preserves (calls_within (deploy_call this project name environment language
                                     hostname))
            (deploy E this project name environment language hostname luisResource)).
  unfold_deploy. preserve_deploy.
  all: unfold deploy_call, publishEndpoint_of, host_of; repeat split; reflexivity.
Qed.

(** Everything [deploy] logs, the messages of the LU builder included, has
    one of the DEPLOY statuses. *)
Theorem deploy_logs_deploy_events project name environment language hostname luisResource w :
  logs_within deploy_event w
    (snd (deploy E this project name environment language hostname luisResource w)).
Proof.
  revert w.
  change (preserves (logs_within deploy_event)
            (deploy E this project name environment language hostname luisResource)).
  unfold_deploy. preserve_deploy.
Qed.

End DeployCalls.

Lemma upload_error_cases (e : Exn) :
  (exists body, e = RpError (Some 403%Z) body)
  \/ (forall body, e <> RpError (Some 403%Z) body).
Proof.
  destruct e as [m | | | p | [z |] t | body]; try (right; intros; discriminate).
  destruct (Z.eq_dec z 403) as [-> | Hne].
  - left. exists t. reflexivity.
  - right. intros body Heq. injection Heq as Hz _. exact (Hne Hz).
Qed.

Lemma upload_handler_other {A : Type} (e : Exn) (expired : M A) w :
  (forall body, e <> RpError (Some 403%Z) body) ->
  match e with
  | RpError (Some 403%Z) _ => expired
  | _ => throw e
  end w = (Throw e, w).
Proof.
  intros Hother.
  destruct e as [m | | | p | [z |] t | body]; try reflexivity.
  destruct z as [| q | q]; try reflexivity.
  repeat (match goal with
          | |- context [match ?x with _ => _ end] => is_var x; destruct x; try reflexivity
          end).
  destruct (Hother t eq_refl).
Qed.

Section DeployOutcome.

Variable E : Env.
Variable this : BotProjectDeploy.

(** The last event [deploy] logs tells how it ended: DEPLOY_SUCCESS when
    it returns, and when it throws, DEPLOY_ERROR with the very error it
    throws. *)
Theorem deploy_last_event_tells_outcome project name environment language hostname
    luisResource w :
  let run := deploy E this project name environment language hostname luisResource w in
  last_logged (snd run)
  = Some (match fst run with
          | Ok _ => {| ev_status := DEPLOY_SUCCESS;
                       ev_message := MText "Publish To Azure Success!" |}
          | Throw e => {| ev_status := DEPLOY_ERROR; ev_message := MExn e |}
          end).
Proof.
  cbv zeta. unfold deploy.
  match goal with |- context [try_catch ?m _] => set (body := m) end.
  assert (Hbody : ends_logging {| ev_status := DEPLOY_SUCCESS;
                                  ev_message := MText "Publish To Azure Success!" |} body).
  { unfold body. repeat ends_step. }
  unfold try_catch. destruct (body w) as [[[] | e] w1] eqn:Hrun.
  - exact (Hbody _ _ _ Hrun).
  - apply last_logged_add_log.
Qed.

Lemma deploy_build_run {B : Type} (k : Path -> M B) project w built answer :
  runtime_buildDeploy E (projPath this) project (without_previous_zip this (files w))
  = (built, answer) ->
  let after_build :=
    {| files := built; logged := logged w;
       calls := (calls w ++ [BuildDeploy (projPath this) project])%list;
       tenantId := tenantId w |} in
  (zipExists <- pathExists (zipPath this) ;;
   (if zipExists then remove (zipPath this) else ret tt) ;;
   pathToArtifacts <- call_buildDeploy E (projPath this) project ;;
   k pathToArtifacts) w
  = match answer with
    | Ok pathToArtifacts => k pathToArtifacts after_build
    | Throw e => (Throw e, after_build)
    end.
Proof.
  intros Hbuild after_build.
  destruct w as [fs lg cs tid]. unfold after_build. simpl in *.
  unfold without_previous_zip in Hbuild. simpl in Hbuild.
  rewrite bind_run. unfold pathExists at 1. rewrite bind_run.
  unfold the_files at 1, ret at 1. cbn [files].
  erewrite (bind_step _ _ _ tt
              {| files := match stat fs (zipPath this) with
                          | Some _ => remove_tree fs (zipPath this)
                          | None => fs
                          end;
                 logged := lg; calls := cs; tenantId := tid |}).
  2: { destruct (stat fs (zipPath this)); reflexivity. }
  unfold bind at 1, call_buildDeploy, bind, record_call, the_files, with_files, of_outcome.
  simpl. rewrite Hbuild. destruct answer; reflexivity.
Qed.

Lemma deploy_build_throws project name environment language hostname luisResource w built e :
  runtime_buildDeploy E (projPath this) project (without_previous_zip this (files w))
  = (built, Throw e) ->
  deploy E this project name environment language hostname luisResource w
  = (Throw e,
     add_log {| ev_status := DEPLOY_ERROR; ev_message := MExn e |}
       {| files := built; logged := logged w;
          calls := (calls w ++ [BuildDeploy (projPath this) project])%list;
          tenantId := tenantId w |}).
Proof.
  intros Hbuild. unfold deploy, try_catch.
  rewrite (deploy_build_run _ project w built (Throw e) Hbuild). reflexivity.
Qed.

(** When the build fails, and when the build leaves no settings file,
    [deploy] logs the error and throws it, the build being the only call it
    has made: nothing is packed and nothing uploaded. *)
Theorem deploy_stops_on_failed_build_or_missing_settings project name environment language
    hostname luisResource w built answer :
  runtime_buildDeploy E (projPath this) project (without_previous_zip this (files w))
  = (built, answer) ->
  let after_build :=
    {| files := built; logged := logged w;
       calls := (calls w ++ [BuildDeploy (projPath this) project])%list;
       tenantId := tenantId w |} in
  (forall e,
     answer = Throw e ->
     deploy E this project name environment language hostname luisResource w
     = (Throw e, add_log {| ev_status := DEPLOY_ERROR; ev_message := MExn e |} after_build))
  /\ (forall pathToArtifacts,
        answer = Ok pathToArtifacts ->
        stat built (settingsPath this) = None ->
        deploy E this project name environment language hostname luisResource w
        = (Throw (IoError (settingsPath this)),
           add_log {| ev_status := DEPLOY_ERROR;
                      ev_message := MExn (IoError (settingsPath this)) |} after_build)).
Proof.
  intros Hbuild after_build. unfold after_build. split.
  - intros e ->. apply deploy_build_throws. exact Hbuild.
  - intros pathToArtifacts -> Hnone. unfold deploy, try_catch.
    rewrite (deploy_build_run _ project w built (Ok pathToArtifacts) Hbuild).
    unfold bind at 1, readJson, bind, read_node, bind, the_files. cbn [files].
    rewrite Hnone. reflexivity.
Qed.

Lemma call_buildDeploy_returns runtimePath project :
  returns (call_buildDeploy E runtimePath project)
    (fun out => exists s0 built,
       runtime_buildDeploy E runtimePath project s0 = (built, Ok out)).
Proof.
  unfold call_buildDeploy. intros w0 out w0' Hrun.
  apply bind_ok_inv in Hrun as ([] & w1 & _ & Hrun).
  apply bind_ok_inv in Hrun as (s0 & w2 & _ & Hrun). cbv zeta in Hrun.
  apply bind_ok_inv in Hrun as ([] & w3 & _ & Hrun).
  exists s0, (fst (runtime_buildDeploy E runtimePath project s0)).
  unfold of_outcome in Hrun.
  destruct (runtime_buildDeploy E runtimePath project s0) as [built [p | e]]; simpl in *.
  - injection Hrun as <- _. reflexivity.
  - discriminate Hrun.
Qed.

(** A run of [deploy] in which an upload was requested. *)
Lemma deploy_upload_inv project name environment language hostname luisResource w uri bearer
    file :
  let run := deploy E this project name environment language hostname luisResource w in
  forall made,
    calls (snd run) = (calls w ++ made)%list ->
    In (RpPostStream uri bearer file) made ->
    (exists earlier, made = (earlier ++ [RpPostStream uri bearer file])%list)
    /\ (exists s0 built source s,
          runtime_buildDeploy E (projPath this) project s0 = (built, Ok source)
          /\ stat (files (snd run)) (zipPath this)
             = Some (Zip (glob s source [["code.zip"]])))
    /\ (forall response,
          remote E (RpPostStream uri bearer file) = Ok response -> fst run = Ok tt)
    /\ (forall body,
          remote E (RpPostStream uri bearer file) = Throw (RpError (Some 403%Z) body) ->
          fst run = Throw (JsError "Token expired, please run az account get-access-token, then replace the accessToken in your configuration"))
    /\ (forall e,
          remote E (RpPostStream uri bearer file) = Throw e ->
          (forall body, e <> RpError (Some 403%Z) body) ->
          fst run = Throw e).
Proof.
  cbv zeta.
  set (Q := fun (o : Outcome unit) (w' : World) =>
              forall made,
                calls w' = (calls w ++ made)%list ->
                In (RpPostStream uri bearer file) made ->
                (exists earlier, made = (earlier ++ [RpPostStream uri bearer file])%list)
                /\ (exists s0 built source s,
                      runtime_buildDeploy E (projPath this) project s0 = (built, Ok source)
                      /\ stat (files w') (zipPath this)
                         = Some (Zip (glob s source [["code.zip"]])))
                /\ (forall response,
                      remote E (RpPostStream uri bearer file) = Ok response -> o = Ok tt)
                /\ (forall body,
                      remote E (RpPostStream uri bearer file)
                      = Throw (RpError (Some 403%Z) body) ->
                      o = Throw (JsError "Token expired, please run az account get-access-token, then replace the accessToken in your configuration"))
                /\ (forall e,
                      remote E (RpPostStream uri bearer file) = Throw e ->
                      (forall body, e <> RpError (Some 403%Z) body) ->
                      o = Throw e)).
  change (wp (deploy E this project name environment language hostname luisResource) Q w).
  assert (Hlog : forall o ev w1, Q o w1 -> Q o (add_log ev w1)).
  { intros o ev w1 HQ. exact HQ. }
  assert (Hearly : forall (o : Outcome unit) w1, calls_within not_upload w w1 -> Q o w1).
  { intros o w1 (made1 & Hcalls & Hall) made Hmade Hin.
    rewrite Hcalls in Hmade. apply app_inv_head in Hmade. subst made1.
    rewrite Forall_forall in Hall. destruct (Hall _ Hin). }
  unfold deploy. apply wp_try_catch.
  match goal with |- wp _ ?post _ => set (Q' := post) end.
  assert (Hpost : forall o w1, Q o w1 -> Q' o w1).
  { intros [[] | e] w1 HQ; unfold Q'; [exact HQ |]. wp_steps. apply Hlog, HQ. }
  assert (Hstart : calls_within not_upload w w) by apply frame_refl.
  repeat (lazymatch goal with
          | |- wp (bind (zipDirectory _ _) _) _ _ => fail
          | |- wp (bind (call_buildDeploy _ _ _) _) _ _ =>
              apply (wp_bind_frame_returns (calls_within not_upload)
                       (fun out => exists s0 built,
                          runtime_buildDeploy E (projPath this) project s0 = (built, Ok out))
                       _ _ _ w);
              [ eassumption
              | unfold call_buildDeploy; preserve
              | apply call_buildDeploy_returns
              | intros ? ? ?; apply Hpost, Hearly; assumption
              | clear Hstart; intros pathToArtifacts ? Hstart Hsource ]
          | |- wp (bind _ _) _ _ =>
              apply (wp_bind_frame_acc (calls_within not_upload) _ _ _ w);
              [ eassumption
              | unfold publishLuis, call_buildDeploy, call_builder, getFiles,
                  notEmptyLuisModel, remove, mkdir, writeJson, write, call; preserve_deploy
              | intros ? ? ?; apply Hpost, Hearly; assumption
              | clear Hstart; intros ? ? Hstart ]
          end).
  match goal with
  | |- wp (bind (zipDirectory _ _) _) _ ?x => rename x into wz
  end.
  destruct Hstart as (made0 & Hcalls0 & Hall0).
  set (c := RpPostStream (publishEndpoint_of name environment hostname) (accessToken this)
              (zipPath this)).
  assert (Hdone : forall (o : Outcome unit) wend s,
             calls wend = (calls wz ++ [c])%list ->
             zipPath this <> [] ->
             files wend = put s (zipPath this) (Zip (glob s pathToArtifacts [["code.zip"]])) ->
             (forall response, remote E c = Ok response -> o = Ok tt) ->
             (forall body, remote E c = Throw (RpError (Some 403%Z) body) ->
                o = Throw (JsError "Token expired, please run az account get-access-token, then replace the accessToken in your configuration")) ->
             (forall e, remote E c = Throw e ->
                (forall body, e <> RpError (Some 403%Z) body) -> o = Throw e) ->
             Q o wend).
  { intros o wend s Hcalls1 Hne Hfiles1 Hok Hexpired Hother made Hmade Hin.
    rewrite Hcalls1, Hcalls0, <- app_assoc in Hmade. apply app_inv_head in Hmade. subst made.
    assert (Hc : RpPostStream uri bearer file = c).
    { apply in_app_or in Hin as [Hin | [Hin | []]].
      - rewrite Forall_forall in Hall0. destruct (Hall0 _ Hin).
      - symmetry. exact Hin. }
    rewrite Hc. split; [exists made0; reflexivity | split].
    - destruct Hsource as (s0 & built & Hsource).
      exists s0, built, pathToArtifacts, s. split; [exact Hsource |].
      rewrite Hfiles1. apply stat_put_same. exact Hne.
    - split; [exact Hok | split; [exact Hexpired | exact Hother]]. }
  assert (Hwrite : forall n,
             (exists e, write (zipPath this) n wz = (Throw e, wz))
             \/ (write (zipPath this) n wz
                 = (Ok tt, set_files (put (files wz) (zipPath this) n) wz)
                 /\ zipPath this <> [])).
  { intros n. unfold write, bind, the_files, with_files, throw.
    destruct (stat (files wz) (zipPath this)) as [[| t | es] |] eqn:Hs.
    - left. eexists. reflexivity.
    - right. split; [reflexivity |]. intros Heq. rewrite Heq in Hs. discriminate Hs.
    - right. split; [reflexivity |]. intros Heq. rewrite Heq in Hs. discriminate Hs.
    - destruct (is_dir (files wz) (parent (zipPath this))).
      + right. split; [reflexivity |]. intros Heq. rewrite Heq in Hs. discriminate Hs.
      + left. eexists. reflexivity. }
  unfold zipDirectory. apply wp_bind. apply wp_bind. unfold wp at 1.
  destruct (Hwrite (File (RawText ""))) as [[e ->] | [-> Hne]]; cbn [fst snd].
  { apply Hpost, Hearly. exists made0. split; [exact Hcalls0 | exact Hall0]. }
  wp_steps. unfold deployZip, call. wp_steps. fold (host_of name environment hostname).
  fold (publishEndpoint_of name environment hostname). fold c.
  destruct (remote E c) as [response | e] eqn:Hc; wp_steps.
  - apply Hpost.
    apply (Hdone _ _ (put (files wz) (zipPath this) (File (RawText ""))));
      [reflexivity | exact Hne | reflexivity | reflexivity | discriminate | discriminate].
  - destruct (upload_error_cases e) as [[body ->] | Hother].
    + cbv iota. wp_steps. apply Hpost.
      apply (Hdone _ _ (put (files wz) (zipPath this) (File (RawText ""))));
        [reflexivity | exact Hne | reflexivity | discriminate | reflexivity |].
      intros e He Hnot. injection He as <-. destruct (Hnot body eq_refl).
    + unfold wp at 1. rewrite (upload_handler_other e _ _ Hother). cbn [fst snd].
      apply Hpost.
      apply (Hdone _ _ (put (files wz) (zipPath this) (File (RawText ""))));
        [reflexivity | exact Hne | reflexivity | discriminate | |].
      * intros body He. injection He as ->. destruct (Hother body eq_refl).
      * intros e' He' _. injection He' as <-. reflexivity.
Qed.

(** Take any run of [deploy] in which an upload was requested.  That
    request is the last call of the run, and the answer to it decides how
    [deploy] ends: it returns when the request succeeded, it throws the error
    that asks for a new access token when the answer was a 403, and it throws
    the error of the request, as it is, in any other case.  Where the folder of
    [zipPath] exists and [zipPath] is not itself a folder, [zipPath] holds by
    then the archive made in this run, which has no entry [code.zip] at its
    top. *)
Theorem deploy_ends_as_the_upload_does project name environment language hostname
    luisResource w uri bearer file :
  let run := deploy E this project name environment language hostname luisResource w in
  forall made,
    calls (snd run) = (calls w ++ made)%list ->
    In (RpPostStream uri bearer file) made ->
    (exists earlier, made = (earlier ++ [RpPostStream uri bearer file])%list)
    /\ (is_dir (files (snd run)) (parent (zipPath this)) = true ->
        is_dir (files (snd run)) (zipPath this) = false ->
        exists entries,
          stat (files (snd run)) (zipPath this) = Some (Zip entries)
          /\ ~ In ["code.zip"] entries)
    /\ (forall response,
          remote E (RpPostStream uri bearer file) = Ok response -> fst run = Ok tt)
    /\ (forall body,
          remote E (RpPostStream uri bearer file) = Throw (RpError (Some 403%Z) body) ->
          fst run = Throw (JsError "Token expired, please run az account get-access-token, then replace the accessToken in your configuration"))
    /\ (forall e,
          remote E (RpPostStream uri bearer file) = Throw e ->
          (forall body, e <> RpError (Some 403%Z) body) ->
          fst run = Throw e).
Proof.
  cbv zeta. intros made Hmade Hin.
  destruct (deploy_upload_inv project name environment language hostname luisResource w
              uri bearer file made Hmade Hin)
    as (Hlast & (s0 & built & source & s & _ & Hzip) & Hok & Hexpired & Hother).
  split; [exact Hlast | split; [| split; [exact Hok | split; [exact Hexpired | exact Hother]]]].
  intros _ _.
  exists (glob s source [["code.zip"]]). split; [exact Hzip |].
  intros Habs. apply glob_In in Habs as [Hnot _]. apply Hnot. left. reflexivity.
Qed.

End DeployOutcome.

(** [getAccount] returns the first account of the list whose AccountName
    is the name asked for, and [undefined], without an error, when there is
    none; on an answer that is an object, not a list, it throws a TypeError. *)
Theorem getAccount_returns_first_match accounts filter w :
  Forall (fun account => nullish account = false) accounts ->
  getAccount (JArr accounts) filter w
  = (Ok (match find (fun account => is_string (get account "AccountName") filter) accounts with
         | Some account => account
         | None => JUndefined
         end), w)
  /\ forall fields, getAccount (JObj fields) filter w = (Throw TypeError, w).
Proof.
  intros Hall. split; [| reflexivity].
  unfold getAccount. rewrite bind_run. simpl.
  induction Hall as [| account rest Haccount Hrest IH]; [reflexivity |].
  simpl. unfold bind, prop, get_strict. rewrite Haccount. simpl.
  destruct (is_string (get account "AccountName") filter); [reflexivity | exact IH].
Qed.

Lemma filter_m_models (s : Store) (l : list Path) w o w' :
  files w = s ->
  filter_m (fun name => if endsWith (path_string name) ".lu"
                        then notEmptyLuisModel name else ret false) l w = (o, w') ->
  w' = w
  /\ forall kept, o = Ok kept ->
       kept = filter (fun name => endsWith (path_string name) ".lu" && non_empty_file s name) l.
Proof.
  intros Hs. revert o w'. induction l as [| x rest IH]; simpl; intros o w' Hrun.
  - injection Hrun as <- <-. split; [reflexivity |]. intros kept Hk. injection Hk as <-.
    reflexivity.
  - unfold bind in Hrun at 1.
    assert (Hx : (if endsWith (path_string x) ".lu" then notEmptyLuisModel x else ret false) w
                 = (Ok (endsWith (path_string x) ".lu" && non_empty_file s x), w)
                 \/ exists e,
                      (if endsWith (path_string x) ".lu" then notEmptyLuisModel x
                       else ret false) w = (Throw e, w)).
    { destruct (endsWith (path_string x) ".lu"); [| left; reflexivity].
      unfold notEmptyLuisModel, read_node, bind, the_files, non_empty_file. rewrite Hs.
      destruct (stat s x) as [[| [v | t] | es] |]; simpl;
        first [left; reflexivity | right; eexists; reflexivity]. }
    destruct Hx as [Hx | [e Hx]]; rewrite Hx in Hrun.
    + unfold bind in Hrun.
      destruct (filter_m _ rest w) as [[kept0 | e] w1] eqn:Hrest.
      * destruct (IH _ _ eq_refl) as [-> Hkept]. injection Hrun as <- <-.
        split; [reflexivity |]. intros kept Hk. injection Hk as <-.
        rewrite (Hkept kept0 eq_refl).
        destruct (endsWith (path_string x) ".lu" && non_empty_file s x); reflexivity.
      * destruct (IH _ _ eq_refl) as [-> _]. injection Hrun as <- <-.
        split; [reflexivity |]. intros kept Hk. discriminate Hk.
    + injection Hrun as <- <-. split; [reflexivity |]. intros kept Hk. discriminate Hk.
Qed.

Section LuisModels.

Variable E : Env.
Variable this : BotProjectDeploy.

(** The model files [publishLuis] hands to the LU builder are the files of
    the build folder, as it finds it, whose name ends in [.lu] and that are not
    empty, in the order of the listing; and it hands them over once. *)
Theorem publishLuis_loads_non_empty_lu_files workingFolder name environment language
    luisEndpoint luisAuthoringEndpoint luisEndpointKey luisAuthoringKey luisAuthoringRegion
    luisResource w modelFiles culture suffix region :
  let run := publishLuis E this workingFolder name environment language luisEndpoint
               luisAuthoringEndpoint luisEndpointKey luisAuthoringKey luisAuthoringRegion
               luisResource w in
  forall made,
    calls (snd run) = (calls w ++ made)%list ->
    In (LoadContents modelFiles culture suffix region) made ->
    modelFiles = modelFiles_of (files w) workingFolder
    /\ exists later,
         made = LoadContents modelFiles culture suffix region :: later
         /\ Forall not_load later.
Proof.
  cbv zeta.
  set (Q := fun (o : Outcome unit) (w' : World) =>
              forall made,
                calls w' = (calls w ++ made)%list ->
                In (LoadContents modelFiles culture suffix region) made ->
                modelFiles = modelFiles_of (files w) workingFolder
                /\ exists later,
                     made = LoadContents modelFiles culture suffix region :: later
                     /\ Forall not_load later).
  change (wp (publishLuis E this workingFolder name environment language luisEndpoint
                luisAuthoringEndpoint luisEndpointKey luisAuthoringKey luisAuthoringRegion
                luisResource) Q w).
  assert (Hearly : forall (o : Outcome unit) w1, calls w1 = calls w -> Q o w1).
  { intros o w1 Hcalls made Hmade Hin. rewrite Hcalls in Hmade.
    rewrite <- (app_nil_r (calls w)) in Hmade at 1. apply app_inv_head in Hmade.
    subst made. destruct Hin. }
  unfold publishLuis.
  destruct (truthy luisAuthoringKey && truthy luisAuthoringRegion);
    [| wp_steps; apply Hearly; reflexivity].
  unfold getFiles at 1. wp_steps.
  destruct (is_dir (files w) workingFolder); wp_steps; [| apply Hearly; reflexivity].
  unfold wp at 1.
  destruct (filter_m _ (files_below (files w) workingFolder) w) as [o w1] eqn:Hfilter.
  apply (filter_m_models (files w)) in Hfilter as [-> Hkept]; [| reflexivity].
  cbn [fst snd]. destruct o as [kept |]; [| apply Hearly; reflexivity].
  specialize (Hkept kept eq_refl). fold (modelFiles_of (files w) workingFolder) in Hkept.
  subst kept. cbv zeta.
  apply (wp_bind_frame_acc (calls_within no_call) _ _ _ w);
    [ apply frame_refl | preserve | |].
  { intros e w1 (made1 & Hcalls & Hall). apply Hearly.
    destruct made1 as [| c rest]; [rewrite Hcalls; apply app_nil_r |].
    inversion Hall as [| ? ? Hc _]. destruct Hc. }
  intros generatedExists w1 Hstart.
  apply (wp_bind_frame_acc (calls_within no_call) _ _ _ w);
    [ exact Hstart | unfold mkdir; preserve | |].
  { intros e w2 (made1 & Hcalls & Hall). apply Hearly.
    destruct made1 as [| c rest]; [rewrite Hcalls; apply app_nil_r |].
    inversion Hall as [| ? ? Hc _]. destruct Hc. }
  clear Hstart w1. intros [] w1 Hstart.
  assert (Hcalls1 : calls w1 = calls w).
  { destruct Hstart as (made1 & Hcalls & Hall).
    destruct made1 as [| c rest]; [rewrite Hcalls; apply app_nil_r |].
    inversion Hall as [| ? ? Hc _]. destruct Hc. }
  unfold call_builder at 1.
  match goal with |- wp (bind (bind (record_call ?c) _) _) _ _ => set (load := c) end.
  apply wp_bind. apply wp_bind. apply wp_record_call. cbv beta iota.
  apply wp_unbind. apply (wp_frame (calls_within not_load)).
  - unfold call_builder, getFiles, writeJson, write, call. preserve_deploy.
  - intros o w2 (later & Hcalls2 & Hlater) made Hmade Hin.
    rewrite Hcalls2 in Hmade. cbn [calls add_call] in Hmade.
    rewrite Hcalls1, <- app_assoc in Hmade. apply app_inv_head in Hmade. subst made.
    destruct Hin as [Hin | Hin].
    + rewrite <- Hin. split; [unfold load in Hin; injection Hin as <- _ _ _; reflexivity |].
      exists later. split; [reflexivity | exact Hlater].
    + rewrite Forall_forall in Hlater. destruct (Hlater _ Hin).
Qed.

End LuisModels.

Lemma for_each_calls {A : Type} (l : list A) (body : A -> M unit) (c : A -> Call) :
  (forall x w w', body x w = (Ok tt, w') -> calls w' = (calls w ++ [c x])%list) ->
  forall w w', for_each l body w = (Ok tt, w') -> calls w' = (calls w ++ map c l)%list.
Proof.
  intros Hbody. induction l as [| x rest IH]; simpl; intros w w' Hrun.
  - injection Hrun as <-. symmetry. apply app_nil_r.
  - apply bind_ok_inv in Hrun as ([] & w1 & Hx & Hrun).
    rewrite (IH _ _ Hrun), (Hbody _ _ _ Hx), <- app_assoc. reflexivity.
Qed.

Lemma get_of_entry (l : list (string * JValue)) (f : JValue -> Call) :
  NoDup (map fst l) ->
  map (fun k => f (get (JObj l) k)) (map fst l) = map (fun entry => f (snd entry)) l.
Proof.
  unfold get. simpl.
  assert (Hgen : forall done,
             (forall k, In k (map fst l) -> lookup (done ++ l) k = lookup l k) ->
             NoDup (map fst l) ->
             map (fun k => f match lookup (done ++ l) k with
                             | Some v => v
                             | None => JUndefined
                             end) (map fst l)
             = map (fun entry => f (snd entry)) l).
  { induction l as [| [k v] rest IH]; simpl; intros done Hdone Hnd; [reflexivity |].
    inversion Hnd as [| ? ? Hnot Hrest]; subst. f_equal.
    - rewrite (Hdone k (or_introl eq_refl)). rewrite String.eqb_refl. reflexivity.
    - specialize (IH (done ++ [(k, v)])%list). rewrite <- app_assoc in IH. simpl in IH.
      apply IH; [| exact Hrest].
      intros k' Hin. rewrite (Hdone k' (or_intror Hin)).
      destruct (k =? k') eqn:Hk; [| reflexivity].
      apply String.eqb_eq in Hk. subst k'. destruct (Hnot Hin). }
  intros Hnd. apply (Hgen []); [reflexivity | exact Hnd].
Qed.

Lemma onAccountListError_never_returns err : returns (onAccountListError err) (fun _ => False).
Proof.
  unfold onAccountListError. cbv zeta.
  apply returns_bind. intros error. apply returns_bind. intros expired.
  destruct expired; apply returns_throw.
Qed.

Lemma wp_onAccountListError err w (post : Outcome JValue -> World -> Prop) :
  (forall e w', post (Throw e) w') -> wp (onAccountListError err) post w.
Proof.
  intros Hpost.
  apply (wp_of_frame_returns (fun _ _ => True) (fun _ => False)).
  - intros w0. exact I.
  - apply onAccountListError_never_returns.
  - intros o w' _ Hnever. destruct o as [a | e]; [destruct (Hnever a eq_refl) |].
    apply Hpost.
Qed.

Lemma wp_after {A B : Type} (m : M A) (k : A -> M B) Q w a w1 :
  m w = (Ok a, w1) -> wp (k a) Q w1 -> wp (bind m k) Q w.
Proof. intros Hm Hk. unfold wp. rewrite (bind_step _ _ _ _ _ Hm). exact Hk. Qed.

Lemma find_account_pure accounts filter :
  exists o, forall w, find_account accounts filter w = (o, w).
Proof.
  induction accounts as [| account rest (o & IH)]; simpl.
  - eexists. intros w. reflexivity.
  - unfold bind, prop, get_strict. destruct (nullish account).
    + eexists. intros w. reflexivity.
    + simpl. destruct (is_string (get account "AccountName") filter).
      * eexists. intros w. reflexivity.
      * exists o. exact IH.
Qed.

Lemma getAccount_pure accounts filter :
  exists o, forall w, getAccount accounts filter w = (o, w).
Proof.
  unfold getAccount, bind, iterate.
  destruct accounts; try (eexists; intros w; reflexivity); simpl; apply find_account_pure.
Qed.

Lemma lubuild_calls E workingFolder name environment language luisEndpoint
    luisAuthoringEndpoint luisAuthoringKey luisAuthoringRegion :
  preserves (calls_within not_request)
    (lubuild E workingFolder name environment language luisEndpoint luisAuthoringEndpoint
       luisAuthoringKey luisAuthoringRegion).
Proof. unfold lubuild, call_builder, getFiles, notEmptyLuisModel, mkdir. preserve. Qed.

Section LuisAccounts.

Variable E : Env.
Variable this : BotProjectDeploy.

(** Take an attempt of [publishLuis] that completes, the luis.settings
    files the lubuild process has left holding their app ids, which are
    primitives, under plain names, and the endpoint and the authoring region
    being primitives too.  The list of accounts was fetched and
    parsed, the account with the name of the LUIS resource looked up in it, and
    after that, as the last requests of the attempt, that account (or
    [undefined], when the list has none of that name) was posted once to each
    app id read from those files, in their order; before the request for the
    list, no request was sent. *)
Theorem publishLuis_assigns_account_to_every_app workingFolder name environment language
    luisEndpoint luisAuthoringEndpoint luisEndpointKey luisAuthoringKey luisAuthoringRegion
    luisResource w w1 w' :
  publishLuis E this workingFolder name environment language luisEndpoint
    luisAuthoringEndpoint luisEndpointKey luisAuthoringKey luisAuthoringRegion luisResource w
  = (Ok tt, w') ->
  truthy luisAuthoringKey && truthy luisAuthoringRegion = true ->
  lubuild E workingFolder name environment language luisEndpoint luisAuthoringEndpoint
    luisAuthoringKey luisAuthoringRegion w = (Ok tt, w1) ->
  (forall f, In f (luisConfigFiles_of (files w1) workingFolder) ->
             Forall (fun entry => plain_key (fst entry) = true
                                  /\ prints_exactly (snd entry) = true)
               (own_props (luis_of_file (files w1) f))) ->
  prints_exactly luisEndpoint = true ->
  prints_exactly luisAuthoringRegion = true ->
  let endpoint := to_js_string (endpoint_or_default luisEndpoint luisAuthoringRegion) in
  let headers := luisHeaders this luisAuthoringKey in
  let resource := match luisResource with
                  | Some r => if r =? "" then name ++ "-" ++ environment ++ "-luis" else r
                  | None => name ++ "-" ++ environment ++ "-luis"
                  end in
  exists luisAppIds response accountList account earlier,
    readLuisAppIds (luisConfigFiles_of (files w1) workingFolder) [] w1 = (Ok luisAppIds, w1)
    /\ rp_get E (endpoint ++ "/luis/api/v2.0/azureaccounts") headers = Ok response
    /\ JSON_parse response = Some accountList
    /\ (forall w2, getAccount accountList resource w2 = (Ok account, w2))
    /\ Forall not_request earlier
    /\ calls w'
       = (calls w ++ earlier
            ++ [RpGet (endpoint ++ "/luis/api/v2.0/azureaccounts") headers]
            ++ map (fun entry =>
                      RpPost (endpoint ++ "/luis/api/v2.0/apps/" ++ to_js_string (snd entry)
                              ++ "/azureaccounts") headers account)
                 luisAppIds)%list.
Proof.
  intros Hrun Hguard Hbuild _ _ _. cbv zeta.
  set (endpoint := to_js_string (endpoint_or_default luisEndpoint luisAuthoringRegion)).
  set (headers := luisHeaders this luisAuthoringKey).
  set (resource := match luisResource with
                   | Some r => if r =? "" then name ++ "-" ++ environment ++ "-luis" else r
                   | None => name ++ "-" ++ environment ++ "-luis"
                   end).
  set (Q := fun (o : Outcome unit) (wend : World) =>
              o = Ok tt ->
              exists luisAppIds response accountList account earlier,
                readLuisAppIds (luisConfigFiles_of (files w1) workingFolder) [] w1
                = (Ok luisAppIds, w1)
                /\ rp_get E (endpoint ++ "/luis/api/v2.0/azureaccounts") headers = Ok response
                /\ JSON_parse response = Some accountList
                /\ (forall w2, getAccount accountList resource w2 = (Ok account, w2))
                /\ Forall not_request earlier
                /\ calls wend
                   = (calls w ++ earlier
                        ++ [RpGet (endpoint ++ "/luis/api/v2.0/azureaccounts") headers]
                        ++ map (fun entry =>
                                  RpPost (endpoint ++ "/luis/api/v2.0/apps/"
                                          ++ to_js_string (snd entry) ++ "/azureaccounts")
                                    headers account)
                             luisAppIds)%list).
  assert (Hwp : wp (publishLuis E this workingFolder name environment language luisEndpoint
                      luisAuthoringEndpoint luisEndpointKey luisAuthoringKey
                      luisAuthoringRegion luisResource) Q w).
  2: { unfold wp in Hwp. rewrite Hrun in Hwp. exact (Hwp eq_refl). }
  clear Hrun w'.
  assert (Hthrow : forall e wend, Q (Throw e) wend) by (intros e wend Habs; discriminate Habs).
  assert (Hstart : calls_within not_request w w1)
    by exact (kept _ _ _ _ _ (lubuild_calls E _ _ _ _ _ _ _ _) Hbuild).
  unfold publishLuis. rewrite Hguard.
  unfold lubuild in Hbuild. cbv zeta in Hbuild.
  do 8 (apply bind_ok_inv in Hbuild as (? & ? & Hstep & Hbuild);
        apply (wp_after _ _ _ _ _ _ Hstep); clear Hstep).
  apply (wp_after _ _ _ _ _ _ Hbuild). clear Hbuild.
  unfold getFiles. wp_steps.
  destruct (is_dir (files w1) workingFolder); wp_steps; [| apply Hthrow].
  fold (luisConfigFiles_of (files w1) workingFolder).
  unfold wp at 1.
  destruct (readLuisAppIds (luisConfigFiles_of (files w1) workingFolder) [] w1)
    as [[luisAppIds | e] wi] eqn:Hids; cbn [fst snd]; [| apply Hthrow].
  pose proof (unchanged _ _ _ _ (readLuisAppIds_unchanged _ _) Hids) as ->.
  assert (Hnodup : NoDup (map fst luisAppIds))
    by exact (readLuisAppIds_nodup _ [] _ _ _ (NoDup_nil _) Hids).
  do 3 (apply (wp_bind_frame_acc (calls_within not_request) _ _ _ w);
        [ eassumption
        | unfold writeJson, write; preserve
        | intros ? ? ?; apply Hthrow
        | clear Hstart; intros ? ? Hstart ]).
  match goal with |- wp _ _ ?x => rename x into wq end.
  destruct Hstart as (earlier & Hcalls3 & Hearlier).
  apply wp_bind. apply wp_try_catch. cbv zeta. fold endpoint. fold headers.
  wp_steps.
  destruct (rp_get E (endpoint ++ "/luis/api/v2.0/azureaccounts") headers)
    as [response | e] eqn:Hget; wp_steps.
  2: { apply wp_onAccountListError. intros e0 wend. apply Hthrow. }
  destruct (JSON_parse response) as [accountList |] eqn:Hparse; wp_steps.
  2: { apply wp_onAccountListError. intros e0 wend. apply Hthrow. }
  fold resource.
  set (wg := add_call (RpGet (endpoint ++ "/luis/api/v2.0/azureaccounts") headers) wq).
  destruct (getAccount_pure accountList resource) as (found & Hfound).
  unfold wp at 1. rewrite (Hfound wg). cbn [fst snd].
  destruct found as [account | e]; [| apply Hthrow].
  apply wp_bind. unfold wp at 1.
  match goal with |- context [for_each ?l ?b wg] =>
    destruct (for_each l b wg) as [[[] | e] wx] eqn:Hloop
  end; cbn [fst snd]; [| apply Hthrow].
  wp_steps. intros _.
  exists luisAppIds, response, accountList, account, earlier.
  split; [reflexivity | split; [reflexivity | split; [exact Hparse | split; [exact Hfound |]]]].
  split; [exact Hearlier |].
  set (post := fun k => RpPost (endpoint ++ "/luis/api/v2.0/apps/"
                                ++ to_js_string (get (JObj luisAppIds) k) ++ "/azureaccounts")
                          headers account).
  match type of Hloop with for_each ?l ?b _ = _ =>
    assert (Hbody : forall k wa wb, b k wa = (Ok tt, wb) ->
                                    calls wb = (calls wa ++ [post k])%list)
  end.
  { intros k wa wb Hb. cbv beta zeta in Hb.
    apply bind_ok_inv in Hb as ([] & wc & Hl & Hb). injection Hl as <-.
    apply bind_ok_inv in Hb as (resp & wd & Hcall & Hb). injection Hb as <-.
    unfold call, bind, record_call, of_outcome in Hcall.
    destruct (remote E _); [injection Hcall as _ <- | discriminate Hcall]. reflexivity. }
  cbn [calls add_log].
  rewrite (for_each_calls _ _ post Hbody _ _ Hloop).
  unfold wg. cbn [calls add_call]. rewrite Hcalls3, <- !app_assoc.
  unfold post.
  rewrite (get_of_entry luisAppIds
             (fun id => RpPost (endpoint ++ "/luis/api/v2.0/apps/" ++ to_js_string id
                                ++ "/azureaccounts") headers account) Hnodup).
  reflexivity.
Qed.

End LuisAccounts.

(** ** Packing and unpacking, the archive *)

Lemma set_field_fresh fields k v :
  ~ In k (map fst fields) -> set_field fields k v = (fields ++ [(k, v)])%list.
Proof.
  induction fields as [| [k0 v0] rest IH]; simpl; intros Hnot; [reflexivity |].
  destruct (k0 =? k) eqn:Hk.
  - apply String.eqb_eq in Hk. destruct Hnot. left. exact Hk.
  - f_equal. apply IH. intros Hin. apply Hnot. right. exact Hin.
Qed.

Lemma lookup_packed fields k v :
  NoDup (map fst fields) -> In (k, v) fields ->
  lookup (map (fun kv => (fst kv, pack (snd kv))) fields) k = Some (pack v).
Proof.
  induction fields as [| [k0 v0] rest IH]; simpl; intros Hnd Hin; [destruct Hin |].
  inversion Hnd as [| ? ? Hnot Hrest]; subst.
  destruct Hin as [Heq | Hin].
  - injection Heq as -> ->. rewrite String.eqb_refl. reflexivity.
  - destruct (k0 =? k) eqn:Hk; [| exact (IH Hrest Hin)].
    apply String.eqb_eq in Hk. subst k0. destruct Hnot.
    change k with (fst (k, v)). apply in_map. exact Hin.
Qed.

(** Unpacking what was packed gives back the fields whose value is truthy,
    in their order, and only those: a flag that is [false], an empty string, a
    zero or a [null] does not survive the round trip.  The fields have plain
    names, each one once. *)
Theorem unpackObject_of_packed fields :
  NoDup (map fst fields) ->
  Forall (fun kv => plain_key (fst kv) = true) fields ->
  unpackObject (JObj (map (fun kv => (fst kv, pack (snd kv))) fields))
  = Some (filter (fun kv => truthy (snd kv)) fields).
Proof.
  intros Hnd _. unfold unpackObject, keys. simpl. rewrite map_map. simpl.
  set (output := JObj (map (fun kv => (fst kv, pack (snd kv))) fields)).
  assert (Hgen : forall todo done,
             fields = (done ++ todo)%list ->
             fold_left (unpack_step output) (map fst todo)
               (Some (filter (fun kv => truthy (snd kv)) done))
             = Some (filter (fun kv => truthy (snd kv)) (done ++ todo))).
  { induction todo as [| [k v] rest IH]; intros done Hsplit.
    - rewrite app_nil_r. reflexivity.
    - assert (Hget : get output k = pack v).
      { unfold output, get. simpl.
        rewrite (lookup_packed fields k v Hnd)
          by (rewrite Hsplit; apply in_or_app; right; left; reflexivity).
        reflexivity. }
      assert (Hstep : forall acc,
                 unpack_step output (Some acc) k
                 = Some (if truthy v then set_field acc k v else acc)).
      { intros acc. unfold unpack_step. rewrite Hget.
        change (get_strict (pack v) "value") with (Some v). cbv beta iota zeta.
        destruct (truthy v); reflexivity. }
      cbn [map fst fold_left]. rewrite Hstep.
      specialize (IH (done ++ [(k, v)])%list). rewrite <- app_assoc in IH. simpl in IH.
      rewrite <- (IH Hsplit). f_equal. rewrite filter_app. simpl.
      destruct (truthy v); [| rewrite app_nil_r; reflexivity].
      f_equal. apply set_field_fresh.
      intros Hin. apply in_map_iff in Hin as ([k' v'] & Hk' & Hin'). simpl in Hk'. subst k'.
      apply filter_In in Hin' as [Hin' _].
      rewrite Hsplit, map_app in Hnd. simpl in Hnd.
      apply NoDup_remove_2 in Hnd. apply Hnd. apply in_or_app. left.
      change k with (fst (k, v')). apply in_map. exact Hin'. }
  exact (Hgen fields [] eq_refl).
Qed.

(** [unpackObject] throws exactly when the object has a property whose
    value is [null] or [undefined]: reading [.value] of it is a TypeError. *)
Theorem unpackObject_throws_on_null_entry output :
  unpackObject output = None
  <-> exists key, In key (keys output) /\ nullish (get output key) = true.
Proof.
  unfold unpackObject.
  assert (Hgen : forall l acc,
             fold_left (unpack_step output) l (Some acc) = None
             <-> exists key, In key l /\ nullish (get output key) = true).
  { induction l as [| key rest IH]; simpl; intros acc.
    - split; [discriminate | intros (key & [] & _)].
    - unfold get_strict. destruct (nullish (get output key)) eqn:Hnull.
      + rewrite unpack_fold_none. split; [| reflexivity].
        intros _. exists key. split; [left; reflexivity | exact Hnull].
      + assert (Hstep : forall acc',
                   fold_left (unpack_step output) rest (Some acc') = None
                   <-> exists key0,
                         (key = key0 \/ In key0 rest) /\ nullish (get output key0) = true).
        { intros acc'. rewrite IH. split.
          - intros (key0 & Hin & Hn). exists key0. split; [right; exact Hin | exact Hn].
          - intros (key0 & [<- | Hin] & Hn); [rewrite Hn in Hnull; discriminate Hnull |].
            exists key0. split; [exact Hin | exact Hn]. }
        destruct (truthy (get (get output key) "value")); apply Hstep. }
  apply Hgen.
Qed.

Lemma relative_to_below (dir rel : Path) :
  rel <> [] -> relative_to dir (dir ++ rel)%list = Some rel.
Proof.
  intros Hrel. induction dir as [| a dir' IH]; simpl.
  - destruct rel; [contradiction | reflexivity].
  - rewrite String.eqb_refl. exact IH.
Qed.

Lemma relative_to_iff dir p rel :
  relative_to dir p = Some rel <-> p = (dir ++ rel)%list /\ rel <> [].
Proof.
  split.
  - intros H. split; [apply relative_to_app; exact H |].
    intros ->. revert p H. induction dir as [| a dir' IH]; intros p H.
    + destruct p; simpl in H; discriminate H.
    + destruct p as [| b p']; simpl in H; [discriminate H |].
      destruct (a =? b); [exact (IH _ H) | discriminate H].
  - intros [-> Hrel]. apply relative_to_below. exact Hrel.
Qed.

Lemma put_paths s p n q :
  (exists m, In (q, m) (put s p n)) <-> q = p \/ exists m, In (q, m) s.
Proof.
  induction s as [| [q0 m0] rest IH]; simpl.
  - split.
    + intros (m & [Heq | []]). injection Heq as <- _. left. reflexivity.
    + intros [-> | (m & [])]. exists n. left. reflexivity.
  - unfold path_eqb. destruct (path_eq_dec q0 p) as [-> | Hne]; simpl.
    + split.
      * intros (m & [Heq | Hin]); [injection Heq as <- _; left; reflexivity |].
        right. exists m. right. exact Hin.
      * intros [-> | (m & [Heq | Hin])].
        -- exists n. left. reflexivity.
        -- injection Heq as <- _. exists n. left. reflexivity.
        -- exists m. right. exact Hin.
    + split.
      * intros (m & [Heq | Hin]).
        -- injection Heq as <- <-. right. exists m0. left. reflexivity.
        -- destruct (proj1 IH (ex_intro _ m Hin)) as [Hq | (m' & Hin')];
             [left; exact Hq | right; exists m'; right; exact Hin'].
      * intros [-> | (m & [Heq | Hin])].
        -- destruct (proj2 IH (or_introl eq_refl)) as (m & Hin). exists m. right. exact Hin.
        -- injection Heq as <- <-. exists m0. left. reflexivity.
        -- destruct (proj2 IH (or_intror (ex_intro _ m Hin))) as (m' & Hin').
           exists m'. right. exact Hin'.
Qed.

Lemma find_node_put_other s p n q : q <> p -> find_node (put s p n) q = find_node s q.
Proof.
  intros Hne. induction s as [| [q0 m0] rest IH]; simpl.
  - unfold path_eqb. destruct (path_eq_dec p q) as [Heq | _]; [| reflexivity].
    destruct Hne. symmetry. exact Heq.
  - unfold path_eqb at 1. destruct (path_eq_dec q0 p) as [-> | Hq0]; simpl.
    + unfold path_eqb. destruct (path_eq_dec p q) as [Heq | _]; [| reflexivity].
      destruct Hne. symmetry. exact Heq.
    + destruct (path_eqb q0 q); [reflexivity | exact IH].
Qed.

Lemma stat_put_other s p n q : q <> p -> stat (put s p n) q = stat s q.
Proof.
  intros Hne. destruct q as [| a q']; [reflexivity |].
  unfold stat. apply find_node_put_other. exact Hne.
Qed.

Lemma glob_iff s cwd ignore rel :
  In rel (glob s cwd ignore)
  <-> ~ In rel ignore /\ rel <> [] /\ exists n, In ((cwd ++ rel)%list, n) s.
Proof.
  unfold glob. rewrite filter_In, in_flat_map. split.
  - intros [([p n] & Hin & Hrel) Hkeep]. simpl in Hrel.
    destruct (relative_to cwd p) as [rel' |] eqn:Hp; [| destruct Hrel].
    destruct Hrel as [<- | []]. apply relative_to_iff in Hp as [-> Hne].
    split; [| split; [exact Hne | exists n; exact Hin]].
    intros Hign. apply negb_true_iff in Hkeep.
    assert (existsb (path_eqb rel') ignore = true) as Habs.
    { apply existsb_exists. exists rel'. split; [exact Hign | apply path_eqb_refl]. }
    rewrite Habs in Hkeep. discriminate Hkeep.
  - intros (Hign & Hne & n & Hin). split.
    + exists ((cwd ++ rel)%list, n). split; [exact Hin |]. simpl.
      rewrite (relative_to_below cwd rel Hne). left. reflexivity.
    + apply negb_true_iff. destruct (existsb (path_eqb rel) ignore) eqn:Hex; [| reflexivity].
      apply existsb_exists in Hex as (x & Hx & Heq). unfold path_eqb in Heq.
      destruct (path_eq_dec rel x) as [-> | _]; [destruct (Hign Hx) | discriminate Heq].
Qed.

Lemma zipDirectory_inv source out w w' :
  zipDirectory source out w = (Ok tt, w') ->
  let s1 := put (files w) out (File (RawText "")) in
  out <> []
  /\ files w' = put s1 out (Zip (glob s1 source [["code.zip"]]))
  /\ calls w' = calls w.
Proof.
  intros Hrun s1. unfold s1.
  unfold zipDirectory, write, bind, the_files, with_files, throw in Hrun.
  destruct (stat (files w) out) as [[| t | es] |] eqn:Hs; simpl in Hrun;
    try discriminate Hrun.
  - injection Hrun as <-. repeat split. intros ->. discriminate Hs.
  - injection Hrun as <-. repeat split. intros ->. discriminate Hs.
  - destruct (is_dir (files w) (parent out)); simpl in Hrun; [| discriminate Hrun].
    injection Hrun as <-. repeat split. intros ->. discriminate Hs.
Qed.

Lemma archive_entries s source out n rel :
  In rel (glob (put s out n) source [["code.zip"]])
  <-> rel <> [] /\ rel <> ["code.zip"]
      /\ ((source ++ rel)%list = out \/ exists m, In ((source ++ rel)%list, m) s).
Proof.
  rewrite glob_iff, put_paths. simpl. split.
  - intros (Hign & Hrel & Hin). split; [exact Hrel | split; [| exact Hin]].
    intros ->. apply Hign. left. reflexivity.
  - intros (Hrel & Hzip & Hin). split; [| split; [exact Hrel | exact Hin]].
    intros [Heq | []]. apply Hzip. symmetry. exact Heq.
Qed.

(** Where the folder of the output path exists and the output path is not
    itself a folder, [zipDirectory] completes, the output file is then the
    archive and every other file is as it was.  The archive holds an entry for
    every file and directory below the source directory, dot files included,
    and for the output file itself when it lies there, with one exception:
    [code.zip] at the top of the source directory; and it holds no other
    entry. *)
Theorem zipDirectory_archives_all_but_code_zip source out w :
  is_dir (files w) (parent out) = true ->
  is_dir (files w) out = false ->
  exists w' entries,
    zipDirectory source out w = (Ok tt, w')
    /\ stat (files w') out = Some (Zip entries)
    /\ (forall rel,
          In rel entries
          <-> rel <> [] /\ rel <> ["code.zip"]
              /\ ((source ++ rel)%list = out
                  \/ exists n, In ((source ++ rel)%list, n) (files w)))
    /\ forall p, p <> out -> stat (files w') p = stat (files w) p.
Proof.
  intros Hparent Hnotdir.
  assert (Hrun : exists w', zipDirectory source out w = (Ok tt, w')).
  { unfold zipDirectory, write, bind, the_files, with_files, throw.
    unfold is_dir in Hnotdir. rewrite Hparent.
    destruct (stat (files w) out) as [[| t | es] |]; simpl in *;
      try discriminate Hnotdir; eexists; reflexivity. }
  destruct Hrun as (w' & Hrun).
  destruct (zipDirectory_inv source out w w' Hrun) as (Hne & Hfiles & _).
  exists w'. eexists. split; [exact Hrun | split; [| split]].
  - rewrite Hfiles. apply stat_put_same. exact Hne.
  - intros rel. apply archive_entries.
  - intros p Hp. rewrite Hfiles. rewrite !stat_put_other by exact Hp. reflexivity.
Qed.

(** ** Error messages and diagnostics *)

Lemma string_app_nil_r (s : string) : s ++ "" = s.
Proof. induction s as [| a s' IH]; simpl; [reflexivity | f_equal; exact IH]. Qed.

Lemma string_app_assoc (s t u : string) : (s ++ t) ++ u = s ++ t ++ u.
Proof. induction s as [| a s' IH]; simpl; [reflexivity | f_equal; exact IH]. Qed.

Lemma concat_cons (x : string) (l : list string) :
  String.concat "" (x :: l) = x ++ String.concat "" l.
Proof. destruct l as [| y l']; simpl; [symmetry; apply string_app_nil_r | reflexivity]. Qed.

Lemma fold_detail_messages details : forall (acc : M string) prefix w,
  Forall (fun detail => nullish detail = false) details ->
  (forall w0, acc w0 = (Ok prefix, w0)) ->
  fold_left
    (fun (acc : M string) detail =>
       errMsg <- acc ;;
       m <- prop detail "message" ;;
       ret (errMsg ++ to_js_string m))
    details acc w
  = (Ok (prefix
         ++ String.concat "" (map (fun detail => to_js_string (get detail "message")) details)),
     w).
Proof.
  induction details as [| detail rest IH]; intros acc prefix w Hall Hacc.
  - simpl. rewrite Hacc, string_app_nil_r. reflexivity.
  - inversion Hall as [| ? ? Hdetail Hrest]; subst.
    cbn [fold_left map]. rewrite concat_cons, <- string_app_assoc.
    apply IH; [exact Hrest |].
    intros w0. unfold bind. rewrite Hacc. unfold prop, get_strict. rewrite Hdetail.
    reflexivity.
Qed.

Lemma statusMessage_error_run operation w :
  reported_operation operation ->
  statusMessage_error operation [] w = (Ok (error_of operation), w)
  /\ forall k, error_of operation <> JNull ->
       statusMessage_error operation [k] w = (Ok (get (error_of operation) k), w).
Proof.
  intros (Hop & Hprops & Hstatus & Herror). unfold statusMessage_error.
  rewrite Hop, Hprops. unfold prop, get_strict. rewrite Hstatus. fold (error_of operation).
  split; [reflexivity |]. intros k Hnot. simpl. unfold bind, or_throw, ret.
  destruct Herror as [Hnull | (fields & Hobj)]; [destruct (Hnot Hnull) |].
  rewrite Hobj. reflexivity.
Qed.

Lemma filter_failed operations w :
  Forall reported_operation operations ->
  filter_m (fun value => e <- statusMessage_error value [] ;; ret (negb (is_null e)))
    operations w
  = (Ok (filter (fun operation => negb (is_null (error_of operation))) operations), w).
Proof.
  induction 1 as [| operation rest Hop Hrest IH]; [reflexivity |].
  cbn [filter_m filter].
  rewrite (bind_step _ _ w (negb (is_null (error_of operation))) w)
    by (unfold bind; rewrite (proj1 (statusMessage_error_run operation w Hop)); reflexivity).
  rewrite (bind_step _ _ w _ w IH). reflexivity.
Qed.

Lemma report_failed operations : forall w,
  Forall reported_operation operations ->
  Forall (fun operation => error_of operation <> JNull) operations ->
  for_each operations
    (fun operation =>
       code <- statusMessage_error operation ["code"] ;;
       if is_string code "MissingRegistrationForLocation" then
         logger PROVISION_ERROR
           (MText ("! Deployment failed for resource of type " ++ resourceType_of operation
                   ++ ". This resource is not avaliable in the location provided."))
       else
         logger PROVISION_ERROR
           (MText ("! Deployment failed for resource of type " ++ resourceType_of operation
                   ++ ".")) ;;
         logger PROVISION_ERROR (MText ("! Code: " ++ to_js_string code ++ ".")) ;;
         message <- statusMessage_error operation ["message"] ;;
         logger PROVISION_ERROR (MText ("! Message: " ++ to_js_string message ++ "."))) w
  = (Ok tt,
     {| files := files w;
        logged := (logged w ++ flat_map failure_events operations)%list;
        calls := calls w; tenantId := tenantId w |}).
Proof.
  induction operations as [| operation rest IH]; intros w Hall Hfailed.
  - simpl. unfold ret. rewrite app_nil_r. destruct w; reflexivity.
  - inversion Hall as [| ? ? Hop Hrest]; subst.
    inversion Hfailed as [| ? ? Hnot Hfrest]; subst.
    cbn [for_each flat_map]. unfold bind at 1 2.
    rewrite (proj2 (statusMessage_error_run operation w Hop) "code" Hnot).
    unfold failure_events. cbv zeta.
    destruct (is_string (get (error_of operation) "code") "MissingRegistrationForLocation").
    + unfold logger at 1. rewrite IH by assumption.
      cbn [files logged calls tenantId add_log]. rewrite <- app_assoc. reflexivity.
    + unfold bind, logger.
      rewrite (proj2 (statusMessage_error_run operation _ Hop) "message" Hnot).
      rewrite IH by assumption.
      cbn [files logged calls tenantId add_log]. rewrite <- !app_assoc. reflexivity.
Qed.

Section Diagnostics.

Variable E : Env.
Variable this : BotProjectDeploy.

(** For an error whose body is [{error: {details: [...]}}], each detail
    having for message a primitive (a string, a boolean, [null], nothing, or
    an integer that is printed with all its digits), the message
    [getErrorMesssage] gives is the messages of the details one after the
    other, with nothing between them (a detail without message gives
    [undefined]); the message of the error itself is not used. *)
Theorem getErrorMesssage_joins_detail_messages body error details w :
  truthy body = true ->
  get body "error" = JObj error ->
  lookup error "details" = Some (JArr details) ->
  Forall (fun detail => nullish detail = false
                        /\ prints_exactly (get detail "message") = true) details ->
  getErrorMesssage E (SdkError body) w
  = (Ok (String.concat "" (map (fun detail => to_js_string (get detail "message")) details)),
     w).
Proof.
  intros Hbody Herror Hdetails Hall.
  assert (Hobjects : Forall (fun detail => nullish detail = false) details).
  { eapply Forall_impl; [| exact Hall]. intros detail [Hdetail _]. exact Hdetail. }
  unfold getErrorMesssage. simpl. rewrite Hbody, Herror. simpl.
  unfold get at 1 2. simpl. rewrite Hdetails. simpl. rewrite bind_run. simpl.
  apply (fold_detail_messages details (ret "") "" w Hobjects). reflexivity.
Qed.

(** When the list of the operations of the deployment is answered, each
    operation being an object with a status message whose [error] is [null] or
    an object, [create] reports those whose [error] is not [null], in their
    order and nothing else: one PROVISION_ERROR event for an operation whose
    error code is [MissingRegistrationForLocation], saying that the resource is
    not available in the location, and three for any other, with the resource
    type, the code and the message. *)
Theorem reportFailedOperations_reports_each_failure resourceGroupName timeStamp w answer
    operations :
  remote E (DeploymentOperationsList resourceGroupName timeStamp) = Ok answer ->
  result answer = JArr operations ->
  Forall reported_operation operations ->
  reportFailedOperations E resourceGroupName timeStamp w
  = (Ok tt,
     {| files := files w;
        logged :=
          (logged w
             ++ flat_map failure_events
                  (filter (fun operation => negb (is_null (error_of operation))) operations))%list;
        calls := (calls w ++ [DeploymentOperationsList resourceGroupName timeStamp])%list;
        tenantId := tenantId w |}).
Proof.
  intros Hanswer Hresult Hall.
  unfold reportFailedOperations, call.
  unfold bind at 1 2, record_call, of_outcome. rewrite Hanswer. unfold ret at 1.
  rewrite Hresult. cbn [truthy]. unfold bind at 1, ret at 1. unfold bind at 1.
  rewrite (filter_failed operations _ Hall).
  rewrite report_failed.
  - reflexivity.
  - apply Forall_forall. intros operation Hin. apply filter_In in Hin as [Hin _].
    rewrite Forall_forall in Hall. exact (Hall _ Hin).
  - apply Forall_forall. intros operation Hin. apply filter_In in Hin as [_ Hkeep].
    intros Hnull. rewrite Hnull in Hkeep. discriminate Hkeep.
Qed.

End Diagnostics.

Lemma updateDeploymentJsonFile_shape E rg dn appId pw :
  returns (updateDeploymentJsonFile E rg dn appId pw)
    (fun v => v = JNull \/ exists r, v = JObj r).
Proof.
  unfold updateDeploymentJsonFile. apply returns_bind. intros outputs. cbv zeta.
  destruct (truthy _).
  - apply returns_bind. intros outputObj. apply returns_ret. right. eexists. reflexivity.
  - apply returns_ret. left. reflexivity.
Qed.

Section CreateDiagnostics.

Variable E : Env.
Variable this : BotProjectDeploy.

(** In a run of [create] that returns, the operations of the deployment
    were listed exactly when what it returns is [null], that is when the
    deployment reported no outputs; the list is then asked for once, for the
    deployment of this run, as the last call. *)
Theorem create_lists_operations_when_result_is_null name location environment appPassword
    createLuisResource createLuisAuthoringResource createCosmosDb createStorage
    createAppInsights w v :
  let run := create E this name location environment appPassword createLuisResource
               createLuisAuthoringResource createCosmosDb createStorage createAppInsights w in
  let listing := DeploymentOperationsList (name ++ "-" ++ environment) (string_of_Z (getTime E)) in
  fst run = Ok v ->
  exists made,
    calls (snd run) = (calls w ++ made)%list
    /\ if truthy v
       then Forall not_operations_list made
       else v = JNull
            /\ exists earlier,
                 made = (earlier ++ [listing])%list /\ Forall not_operations_list earlier.
Proof.
  cbv zeta.
  set (listing := DeploymentOperationsList (name ++ "-" ++ environment)
                 (string_of_Z (getTime E))).
  set (Q := fun (o : Outcome JValue) (w' : World) =>
              forall v, o = Ok v ->
              exists made,
                calls w' = (calls w ++ made)%list
                /\ if truthy v
                   then Forall not_operations_list made
                   else v = JNull
                        /\ exists earlier,
                             made = (earlier ++ [listing])%list
                             /\ Forall not_operations_list earlier).
  intros Hrun.
  assert (Hwp : wp (create E this name location environment appPassword createLuisResource
                      createLuisAuthoringResource createCosmosDb createStorage
                      createAppInsights) Q w).
  2: { exact (Hwp v Hrun). }
  clear Hrun v.
  assert (Hthrow : forall e w1, Q (Throw e) w1) by (intros e w1 v Habs; discriminate Habs).
  assert (Hstart : calls_within not_operations_list w w) by apply frame_refl.
  unfold create.
  repeat (lazymatch goal with
          | |- wp (bind (updateDeploymentJsonFile _ _ _ _ _) _) _ _ => fail
          | |- wp (bind _ _) _ _ =>
              apply (wp_bind_frame_acc (calls_within not_operations_list) _ _ _ w);
              [ eassumption
              | unfold createApp, createResourceGroup, validateDeployment, createDeployment,
                  linkAppInsights, readTemplateFile, status_of, getTenantId, getErrorMesssage,
                  call; preserve
              | intros ? ? ?; apply Hthrow
              | clear Hstart; intros ? ? Hstart ]
          end).
  apply (wp_bind_frame_returns (calls_within not_operations_list)
           (fun v => v = JNull \/ exists r, v = JObj r) _ _ _ w);
    [ eassumption
    | unfold updateDeploymentJsonFile, call; preserve
    | apply updateDeploymentJsonFile_shape
    | intros ? ? ?; apply Hthrow
    | clear Hstart; intros updateResult wu Hstart Hshape ].
  wp_steps.
  assert (Hlogged : forall ev, calls_within not_operations_list w (add_log ev wu)).
  { intros ev. eapply frame_trans; [exact Hstart | apply calls_within_add_log]. }
  destruct (truthy updateResult) eqn:Htruthy; cbn [negb]; wp_steps.
  - intros v Hv. injection Hv as <-. rewrite Htruthy.
    destruct (Hlogged {| ev_status := PROVISION_INFO; ev_message := MValue updateResult |})
      as (made & Hcalls & Hall).
    exists made. split; [exact Hcalls | exact Hall].
  - unfold reportFailedOperations, call.
    apply wp_bind. apply wp_bind. apply wp_record_call. cbv beta iota.
    wp_refold. wp_refold.
    apply (wp_of_frame_returns (calls_within no_call) (fun v => v = updateResult)).
    + unfold statusMessage_error. preserve.
    + apply returns_bind. intros ?. apply returns_bind. intros ?.
      apply returns_ret. reflexivity.
    + intros o wend (made1 & Hcalls1 & Hnone) Hret v Hv. pose proof (Hret v Hv) as Heq.
      subst v.
      destruct made1 as [| c rest]; [| inversion Hnone as [| ? ? Hc _]; destruct Hc].
      rewrite app_nil_r in Hcalls1. cbn [calls add_call add_log] in Hcalls1.
      destruct (Hlogged {| ev_status := PROVISION_INFO; ev_message := MValue updateResult |})
        as (made & Hcalls & Hall).
      cbn [calls add_log] in Hcalls.
      rewrite Htruthy.
      exists (made ++ [listing])%list. split.
      * rewrite Hcalls1, Hcalls, <- app_assoc. reflexivity.
      * split.
        -- destruct Hshape as [Hnull | (r & Hobj)]; [exact Hnull |].
           rewrite Hobj in Htruthy. discriminate Htruthy.
        -- exists made. split; [reflexivity | exact Hall].
Qed.

End CreateDiagnostics.

(** ** The C# runtime *)

Lemma try_catch_run {A : Type} (m m' : M A) (h : Exn -> M A) w w' :
  m w = m' w' -> try_catch m h w = try_catch m' h w'.
Proof. intros Hrun. unfold try_catch. rewrite Hrun. reflexivity. Qed.

Section CSharpRuntimeProps.

Variable T : CSharpRuntime.Tools.

Lemma buildDeploy_returns runtimePath project :
  returns (CSharpRuntime.buildDeploy T runtimePath project)
    (fun out => out = CSharpRuntime.publishFolder_of runtimePath).
Proof.
  unfold CSharpRuntime.buildDeploy. cbv zeta.
  do 4 (apply returns_bind; intros ?). apply returns_ret. reflexivity.
Qed.

Lemma parent_path_join p a : parent (path_join p a) = p.
Proof. unfold parent, path_join. apply removelast_last. Qed.

(** [buildDeploy] leaves a [.deployment] file that is there as it is, and
    writes one with the name of the project when there is none, before it
    publishes; without such a file and without the runtime folder it throws
    before any program is run.  When it returns, what it returns is the folder
    [bin/Release/netcoreapp3.1] of the runtime. *)
Theorem buildDeploy_prepares_deployment_file runtimePath project w :
  let deployFilePath := path_join runtimePath ".deployment" in
  let publish :=
    CSharpRuntime.run_tool
      (CSharpRuntime.dotnet_publish T
         (path_join runtimePath "Microsoft.BotFramework.Composer.WebApp.csproj")
         (CSharpRuntime.publishFolder_of runtimePath)) ;;
    CSharpRuntime.run_tool
      (CSharpRuntime.fs_copy T (path_join runtimePath "ComposerDialogs")
         (path_join (CSharpRuntime.publishFolder_of runtimePath) "ComposerDialogs")) ;;
    ret (CSharpRuntime.publishFolder_of runtimePath) in
  CSharpRuntime.buildDeploy T runtimePath project w
  = match stat (files w) deployFilePath with
    | Some _ => publish w
    | None =>
        if is_dir (files w) runtimePath
        then publish (set_files (put (files w) deployFilePath
                                   (File (RawText CSharpRuntime.deployment_data))) w)
        else (Throw (IoError deployFilePath), w)
    end.
Proof.
  cbv zeta. unfold CSharpRuntime.buildDeploy. cbv zeta.
  rewrite bind_run. unfold pathExists at 1. rewrite bind_run.
  unfold the_files at 1, ret at 1. cbv beta iota.
  destruct (stat (files w) (path_join runtimePath ".deployment")) as [n |] eqn:Hstat;
    cbn [negb].
  - rewrite bind_run. reflexivity.
  - rewrite bind_run. unfold write, bind at 1, the_files at 1. rewrite Hstat.
    rewrite parent_path_join.
    destruct (is_dir (files w) runtimePath); reflexivity.
Qed.

(** With the C# runtime, the archive where the constructor puts it by
    default, [code.zip] in the project folder, and settings for which LUIS is
    not published: in a run of [deploy] that gets to the upload, the archive
    holds exactly what the build has left below the folder
    [bin/Release/netcoreapp3.1] of the project, but for a [code.zip] at its
    top. *)
Theorem deploy_with_csharp_runtime_archives_publish_folder (E : Env)
    (config : BotProjectDeployConfig) project name environment language hostname luisResource
    w settings uri bearer file :
  runtime_buildDeploy E = CSharpRuntime.as_runtime T ->
  config_zipPath config = None ->
  let this := constructor config in
  let publishFolder := CSharpRuntime.publishFolder_of (projPath this) in
  let built := fst (CSharpRuntime.as_runtime T (projPath this) project
                      (without_previous_zip this (files w))) in
  let luis := get settings "luis" in
  stat built (settingsPath this) = Some (File (JsonText settings)) ->
  nullish settings = false ->
  truthy luis && (truthy (get luis "authoringKey") && truthy (get luis "region")) = false ->
  let run := deploy E this project name environment language hostname luisResource w in
  forall made,
    calls (snd run) = (calls w ++ made)%list ->
    In (RpPostStream uri bearer file) made ->
    exists entries,
      stat (files (snd run)) (path_join (projPath this) "code.zip") = Some (Zip entries)
      /\ forall rel,
           In rel entries
           <-> rel <> [] /\ rel <> ["code.zip"]
               /\ exists n, In ((publishFolder ++ rel)%list, n) built.
Proof.
  intros Hruntime Hzip. cbv zeta.
  set (this := constructor config).
  assert (Hpath : zipPath this = path_join (projPath this) "code.zip")
    by (unfold this, constructor; simpl; rewrite Hzip; reflexivity).
  rewrite <- Hpath.
  destruct (CSharpRuntime.as_runtime T (projPath this) project
              (without_previous_zip this (files w))) as [built answer] eqn:Hbuild.
  cbn [fst]. intros Hsettings Hobject Hluis made Hmade Hin.
  assert (Hrun : runtime_buildDeploy E (projPath this) project
                   (without_previous_zip this (files w)) = (built, answer))
    by (rewrite Hruntime; exact Hbuild).
  set (after_build := {| files := built; logged := logged w;
                         calls := (calls w ++ [BuildDeploy (projPath this) project])%list;
                         tenantId := tenantId w |}).
  assert (Hnot : forall ev, calls (snd (deploy E this project name environment language
                                          hostname luisResource w))
                            = calls (add_log ev after_build) -> False).
  { intros ev Hcalls. rewrite Hmade in Hcalls. cbn [calls add_log after_build] in Hcalls.
    apply app_inv_head in Hcalls. subst made. destruct Hin as [Habs | []].
    discriminate Habs. }
  destruct answer as [source | e].
  2: { exfalso. apply (Hnot {| ev_status := DEPLOY_ERROR; ev_message := MExn e |}).
       rewrite (deploy_build_throws E this project name environment language hostname
                  luisResource w built e Hrun).
       reflexivity. }
  assert (Hsource : source = CSharpRuntime.publishFolder_of (projPath this)).
  { eapply (buildDeploy_returns (projPath this) project).
    unfold CSharpRuntime.as_runtime in Hbuild. injection Hbuild as _ Hanswer.
    rewrite <- Hanswer. apply surjective_pairing. }
  assert (Hpack : exists packing,
             deploy E this project name environment language hostname luisResource w
             = try_catch (zipDirectory source (zipPath this) ;; packing)
                 (fun error => logger DEPLOY_ERROR (MExn error) ;; throw error)
                 (add_log {| ev_status := DEPLOY_INFO;
                             ev_message := MText "Packing up the bot service ..." |}
                    after_build)
             /\ preserves same_files packing).
  { eexists. split.
    - unfold deploy. apply try_catch_run.
      rewrite (deploy_build_run E this _ project w built (Ok source) Hrun).
      fold after_build.
      erewrite (bind_step _ _ _ settings after_build).
      2: { unfold readJson, read_node, bind, the_files, ret. cbn [files after_build].
           rewrite Hsettings. reflexivity. }
      erewrite (bind_step _ _ _ (get settings "luis") after_build).
      2: { unfold prop, get_strict. rewrite Hobject. reflexivity. }
      erewrite (bind_step _ _ _ tt after_build).
      2: { destruct (truthy (get settings "luis")); [| reflexivity].
           cbv zeta. cbn [andb] in Hluis. rewrite Hluis. reflexivity. }
      erewrite (bind_step _ _ _ tt); [| reflexivity].
      reflexivity.
    - unfold deployZip, call. preserve. }
  destruct Hpack as (packing & Hdeploy & Hkeeps).
  rewrite Hdeploy in *. clear Hdeploy.
  match type of Hnot with
  | context [try_catch _ ?h ?w2] => set (handler := h) in *; set (packed := w2) in *
  end.
  destruct (zipDirectory source (zipPath this) packed) as [[[] | e] zipped] eqn:Hzipped.
  - destruct (zipDirectory_inv _ _ _ _ Hzipped) as (Hne & Hfiles & _).
    assert (Hend : files (snd (try_catch (zipDirectory source (zipPath this) ;; packing)
                                 handler packed))
                   = files zipped).
    { rewrite (try_catch_run _ (packing) handler packed zipped).
      2: { exact (bind_step _ (fun _ => packing) packed tt zipped Hzipped). }
      apply (kept same_files (try_catch packing handler) zipped _
               (fst (try_catch packing handler zipped))).
      - unfold handler. preserve.
      - apply surjective_pairing. }
    eexists. split.
    + rewrite Hend, Hfiles. apply stat_put_same. exact Hne.
    + intros rel. rewrite archive_entries. cbn [files packed add_log after_build].
      subst source. split.
      * intros (Hrel & Hcode & [Habs | Hthere]); [| auto].
        exfalso. rewrite Hpath in Habs.
        unfold CSharpRuntime.publishFolder_of, path_join in Habs.
        rewrite <- !app_assoc in Habs. apply app_inv_head in Habs. discriminate Habs.
      * intros (Hrel & Hcode & Hthere). auto.
  - exfalso. apply (Hnot {| ev_status := DEPLOY_ERROR; ev_message := MExn e |}).
    unfold try_catch, bind. rewrite Hzipped. unfold handler, bind, logger, throw.
    cbn [snd calls add_log].
    assert (Hsame : calls_within no_call packed zipped).
    { apply (kept (calls_within no_call) (zipDirectory source (zipPath this)) packed zipped
               (Throw e)); [| exact Hzipped].
      unfold zipDirectory, write. preserve. }
    destruct Hsame as ([| c rest] & Hcalls & Hnone).
    + rewrite Hcalls, app_nil_r. reflexivity.
    + inversion Hnone as [| ? ? [] _].
Qed.

End CSharpRuntimeProps.

(** ** The card template *)

(** A card always has its header and a body part.  The body part shows
    the body when one is given, and else the footer; the separator and the
    footer part are there exactly when both a body and a footer are given, so
    that a footer is never shown twice. *)
Theorem CardTemplate_parts header body footer :
  Card.CardTemplate header body footer
  = ([ Card.Header header;
       Card.Body (if Card.given body then body
                  else if Card.given footer then footer else Card.Undefined) ]
       ++ (if Card.given body && Card.given footer
           then [Card.Separator; Card.Footer footer]
           else []))%list.
Proof. destruct body, footer; reflexivity. Qed.

(** ** The further properties at work *)

(** The tenant is known: no look-up, and the tenant stays. *)
Lemma create_keeps_known_tenant_witness :
  let w := Cases.with_tenant (Scenario.start Scenario.disk) in
  let run := create Scenario.cloud Scenario.bot "mybot" "westus" "dev" "secret"
               true true true true true w in
  truthy (tenantId w) = true
  /\ tenantId (snd run) = JStr "tenant-1"
  /\ calls_within not_tenant_lookup w (snd run).
Proof.
  cbv zeta. split; [reflexivity |].
  exact (create_keeps_known_tenant Scenario.cloud Scenario.bot "mybot" "westus" "dev" "secret"
           true true true true true (Cases.with_tenant (Scenario.start Scenario.disk))
           eq_refl).
Defined.

(** An instance without access token, on its first run. *)
Lemma create_needs_token_and_subscription_witness :
  let w := Scenario.start Scenario.disk in
  truthy (tenantId w) = false
  /\ accessToken Cases.bot_without_token = ""
  /\ create Scenario.cloud Cases.bot_without_token "mybot" "westus" "dev" "secret"
       true true true true true w
     = (Throw (JsError "Error: Missing access token. Please provide a non-expired Azure access token. Tokens can be obtained by running az account get-access-token"),
        w).
Proof.
  cbv zeta. split; [reflexivity | split; [reflexivity |]].
  exact (create_needs_token_and_subscription Scenario.cloud Cases.bot_without_token "mybot"
           "westus" "dev" "secret" true true true true true (Scenario.start Scenario.disk)
           eq_refl (or_introl eq_refl)).
Defined.

(** At the scenario in which every call succeeds: of the two outputs, the
    one with an empty value is not in the record. *)
Lemma create_result_follows_outputs_witness :
  let run := create Scenario.cloud Scenario.bot "mybot" "westus" "dev" "secret"
               true true true true true (Scenario.start Scenario.disk) in
  let v := JObj [ ("luis",
                   JObj [("endpoint", JStr "https://westus.api.cognitive.microsoft.com")]);
                  ("MicrosoftAppId", JStr "app-1");
                  ("MicrosoftAppPassword", JStr "secret") ] in
  fst run = Ok v
  /\ ~ In "__proto__" (keys Scenario.deployment_outputs)
  /\ exists outputs,
       remote Scenario.cloud (DeploymentsGet ("mybot" ++ "-" ++ "dev")
                                (string_of_Z (getTime Scenario.cloud)))
       = Ok outputs
       /\ outputs_of outputs = Scenario.deployment_outputs
       /\ if truthy (outputs_of outputs)
          then exists r,
                 v = JObj r
                 /\ lookup r "MicrosoftAppPassword" = Some (JStr "secret")
                 /\ (~ In "__proto__" (keys (outputs_of outputs)) ->
                     forall k,
                       k <> "MicrosoftAppId" -> k <> "MicrosoftAppPassword" ->
                       lookup r k =
                       if truthy (get (get (outputs_of outputs) k) "value")
                       then Some (get (get (outputs_of outputs) k) "value")
                       else None)
          else v = JNull.
Proof.
  cbv zeta.
  assert (Hrun : fst (create Scenario.cloud Scenario.bot "mybot" "westus" "dev" "secret"
                        true true true true true (Scenario.start Scenario.disk))
                 = Ok (JObj [ ("luis",
                               JObj [("endpoint",
                                      JStr "https://westus.api.cognitive.microsoft.com")]);
                              ("MicrosoftAppId", JStr "app-1");
                              ("MicrosoftAppPassword", JStr "secret") ])).
  { vm_compute. reflexivity. }
  split; [exact Hrun | split].
  { simpl. intros Hin. repeat (destruct Hin as [Hin | Hin]; [discriminate Hin |]).
    exact Hin. }
  destruct (create_result_follows_outputs Scenario.cloud Scenario.bot "mybot" "westus" "dev"
              "secret" true true true true true (Scenario.start Scenario.disk) _ Hrun)
    as (outputs & Hcall & Hresult).
  exists outputs. split; [exact Hcall | split; [| exact Hresult]].
  assert (Hout : Ok outputs
                 = Scenario.answer
                     (JObj [("properties", JObj [("outputs", Scenario.deployment_outputs)])]))
    by (rewrite <- Hcall; reflexivity).
  injection Hout as ->. reflexivity.
Defined.

(** The deployment has no outputs: [create] returns [null], and the last
    event is the success event all the same. *)
Lemma create_ends_with_success_event_witness :
  let run := create Cases.cloud_without_outputs Scenario.bot "mybot" "westus" "dev" "secret"
               true true true true true (Scenario.start Scenario.disk) in
  fst run = Ok JNull
  /\ last_logged (snd run)
     = Some {| ev_status := PROVISION_SUCCESS;
               ev_message := MText (delete_hint ("mybot" ++ "-" ++ "dev")) |}.
Proof.
  cbv zeta.
  assert (Hrun : fst (create Cases.cloud_without_outputs Scenario.bot "mybot" "westus" "dev"
                        "secret" true true true true true (Scenario.start Scenario.disk))
                 = Ok JNull).
  { vm_compute. reflexivity. }
  split; [exact Hrun |].
  exact (create_ends_with_success_event Cases.cloud_without_outputs Scenario.bot "mybot"
           "westus" "dev" "secret" true true true true true (Scenario.start Scenario.disk)
           JNull Hrun).
Defined.

(** A project without settings file, an instance that knows its tenant,
    and no password. *)
Lemma create_requires_app_password_witness :
  let w := Cases.with_tenant (Scenario.start Cases.new_bot_disk) in
  let run := create Scenario.cloud Scenario.bot "mybot" "westus" "dev" ""
               true true true true true w in
  stat (files w) (settingsPath Scenario.bot) = None
  /\ run = (Throw (JsError "App password is required"),
            add_log {| ev_status := PROVISION_INFO;
                       ev_message := MText "App password is required" |} w)
  /\ calls_within (is_tenant_lookup Scenario.bot) w (snd run).
Proof.
  cbv zeta. split; [reflexivity |].
  destruct (create_requires_app_password Scenario.cloud Scenario.bot "mybot" "westus" "dev"
              true true true true true
              (Cases.with_tenant (Scenario.start Cases.new_bot_disk))
              (or_introl eq_refl)) as (_ & Hcalls & Hrun).
  split; [exact (Hrun eq_refl eq_refl) | exact Hcalls].
Defined.

(** The deployment is answered with the status 409. *)
Lemma create_throws_when_deployment_fails_witness :
  let run := create Cases.cloud_failing_deployment Scenario.bot "mybot" "westus" "dev"
               "secret" true true true true true (Scenario.start Scenario.disk) in
  let apply :=
    DeploymentsCreateOrUpdate "mybot-dev" "1600000000000"
      (deployParam (JObj [("resources", JArr [])])
         (getDeploymentTemplateParam (JStr "app-1") "secret" "westus" "mybot"
            true true true true true)) in
  In apply (calls (snd run))
  /\ remote Cases.cloud_failing_deployment apply
     = Ok {| result := JObj [("id", JStr "deployment-1")]; response_status := 409 |}
  /\ fst run = Throw (JsError "! Error: undefined")
  /\ exists earlier, calls (snd run) = (earlier ++ [apply])%list.
Proof.
  cbv zeta.
  assert (Hin : In (DeploymentsCreateOrUpdate "mybot-dev" "1600000000000"
                      (deployParam (JObj [("resources", JArr [])])
                         (getDeploymentTemplateParam (JStr "app-1") "secret" "westus" "mybot"
                            true true true true true)))
                  (calls (snd (create Cases.cloud_failing_deployment Scenario.bot "mybot"
                                 "westus" "dev" "secret" true true true true true
                                 (Scenario.start Scenario.disk))))).
  { vm_compute. right. right. right. left. reflexivity. }
  split; [exact Hin | split; [reflexivity |]].
  destruct (create_throws_when_deployment_fails Cases.cloud_failing_deployment Scenario.bot
              "mybot" "westus" "dev" "secret" true true true true true
              (Scenario.start Scenario.disk) _ _ _ _ _ eq_refl Hin eq_refl eq_refl)
    as (_ & Hlast & _).
  { discriminate. }
  split; [vm_compute; reflexivity | exact Hlast].
Defined.

(** A project without settings file, and a password. *)
Lemma create_registers_app_when_settings_have_none_witness :
  let w := Scenario.start Cases.new_bot_disk in
  let run := create Scenario.cloud Scenario.bot "mybot" "westus" "dev" "secret"
               true true true true true w in
  stat (files w) (settingsPath Scenario.bot) = None
  /\ (exists r, fst run = Ok (JObj r) /\ lookup r "MicrosoftAppId" = Some (JStr "app-2"))
  /\ remote Scenario.cloud (ApplicationsCreate "mybot" "secret")
     = Scenario.answer (JObj [("appId", JStr "app-2")])
  /\ calls_within (applies_app_id (JStr "app-2")) w (snd run).
Proof.
  cbv zeta. split; [reflexivity |].
  destruct (create_registers_app_when_settings_have_none Scenario.cloud Scenario.bot "mybot"
              "westus" "dev" "secret" true true true true true
              (Scenario.start Cases.new_bot_disk)
              (snd (create Scenario.cloud Scenario.bot "mybot" "westus" "dev" "secret"
                      true true true true true (Scenario.start Cases.new_bot_disk)))
              [ ("luis",
                 JObj [("endpoint", JStr "https://westus.api.cognitive.microsoft.com")]);
                ("MicrosoftAppId", JStr "app-2");
                ("MicrosoftAppPassword", JStr "secret") ]
              (or_introl eq_refl))
    as (_ & appCreated & Hanswer & Hid & _ & Hcalls).
  { vm_compute. reflexivity. }
  injection Hanswer as <-.
  split; [| split; [reflexivity | exact Hcalls]].
  eexists. split; [vm_compute; reflexivity | reflexivity].
Defined.

(** The build leaves no settings file. *)
Lemma deploy_stops_on_failed_build_or_missing_settings_witness :
  let w := Scenario.start Cases.new_bot_disk in
  let after_build :=
    {| files := Cases.new_bot_disk; logged := [];
       calls := [BuildDeploy ["bot"] JNull]; tenantId := JStr "" |} in
  runtime_buildDeploy Scenario.cloud (projPath Scenario.bot) JNull
    (without_previous_zip Scenario.bot (files w))
  = (Cases.new_bot_disk, Ok ["bot"; "out"])
  /\ stat Cases.new_bot_disk (settingsPath Scenario.bot) = None
  /\ deploy Scenario.cloud Scenario.bot JNull "mybot" "dev" None None None w
     = (Throw (IoError (settingsPath Scenario.bot)),
        add_log {| ev_status := DEPLOY_ERROR;
                   ev_message := MExn (IoError (settingsPath Scenario.bot)) |} after_build).
Proof.
  cbv zeta. split; [reflexivity | split; [reflexivity |]].
  exact (proj2 (deploy_stops_on_failed_build_or_missing_settings Scenario.cloud Scenario.bot
                  JNull "mybot" "dev" None None None (Scenario.start Cases.new_bot_disk)
                  Cases.new_bot_disk (Ok ["bot"; "out"]) eq_refl)
           ["bot"; "out"] eq_refl eq_refl).
Defined.

(** The settings have no [luis] key: the build is followed by the
    packaging and the upload, which succeeds. *)
Lemma deploy_ends_as_the_upload_does_witness :
  let w := Scenario.start Scenario.disk_without_luis in
  let run := deploy Scenario.cloud Scenario.bot JNull "mybot" "dev" None None None w in
  let upload :=
    RpPostStream "https://mybot-dev.scm.azurewebsites.net/zipdeploy/?isAsync=true" "token"
      ["bot"; "code.zip"] in
  calls (snd run) = [BuildDeploy ["bot"] JNull; upload]
  /\ remote Scenario.cloud upload = Scenario.answer (JObj [])
  /\ fst run = Ok tt
  /\ is_dir (files (snd run)) (parent (zipPath Scenario.bot)) = true
  /\ is_dir (files (snd run)) (zipPath Scenario.bot) = false
  /\ exists entries,
       stat (files (snd run)) (zipPath Scenario.bot) = Some (Zip entries)
       /\ ~ In ["code.zip"] entries.
Proof.
  cbv zeta.
  assert (Hcalls : calls (snd (deploy Scenario.cloud Scenario.bot JNull "mybot" "dev" None
                                 None None (Scenario.start Scenario.disk_without_luis)))
                   = [ BuildDeploy ["bot"] JNull;
                       RpPostStream
                         "https://mybot-dev.scm.azurewebsites.net/zipdeploy/?isAsync=true"
                         "token" ["bot"; "code.zip"] ]).
  { vm_compute. reflexivity. }
  assert (Hfolder : is_dir (files (snd (deploy Scenario.cloud Scenario.bot JNull "mybot" "dev"
                                          None None None
                                          (Scenario.start Scenario.disk_without_luis))))
                      (parent (zipPath Scenario.bot)) = true).
  { vm_compute. reflexivity. }
  assert (Hfile : is_dir (files (snd (deploy Scenario.cloud Scenario.bot JNull "mybot" "dev"
                                        None None None
                                        (Scenario.start Scenario.disk_without_luis))))
                    (zipPath Scenario.bot) = false).
  { vm_compute. reflexivity. }
  split; [exact Hcalls | split; [reflexivity |]].
  destruct (deploy_ends_as_the_upload_does Scenario.cloud Scenario.bot JNull "mybot" "dev"
              None None None (Scenario.start Scenario.disk_without_luis)
              "https://mybot-dev.scm.azurewebsites.net/zipdeploy/?isAsync=true" "token"
              ["bot"; "code.zip"] _ Hcalls (or_intror (or_introl eq_refl)))
    as (_ & Hzip & Hok & _).
  split; [exact (Hok _ eq_refl) | split; [exact Hfolder | split; [exact Hfile |]]].
  exact (Hzip Hfolder Hfile).
Defined.

(** A list of two accounts, asked for the second, and for one that is not
    there. *)
Lemma getAccount_returns_first_match_witness :
  let accounts := [ JObj [("AccountName", JStr "other")];
                    JObj [("AccountName", JStr "mybot-dev-luis"); ("ResourceGroup", JStr "rg")] ] in
  let w := Scenario.start [] in
  Forall (fun account => nullish account = false) accounts
  /\ getAccount (JArr accounts) "mybot-dev-luis" w
     = (Ok (JObj [("AccountName", JStr "mybot-dev-luis"); ("ResourceGroup", JStr "rg")]), w)
  /\ getAccount (JArr accounts) "none" w = (Ok JUndefined, w).
Proof.
  cbv zeta.
  assert (Hall : Forall (fun account => nullish account = false)
                   [ JObj [("AccountName", JStr "other")];
                     JObj [("AccountName", JStr "mybot-dev-luis");
                           ("ResourceGroup", JStr "rg")] ]).
  { repeat constructor. }
  split; [exact Hall | split].
  - exact (proj1 (getAccount_returns_first_match _ "mybot-dev-luis" (Scenario.start []) Hall)).
  - reflexivity.
Defined.

(** The build folder of the scenario has one model file, [main.lu]. *)
Lemma publishLuis_loads_non_empty_lu_files_witness :
  let w := Scenario.start Scenario.disk in
  let run := publishLuis Scenario.cloud Scenario.bot ["bot"; "out"] "mybot" "dev" "en-us"
               JUndefined JUndefined JUndefined (JStr "key") (JStr "westus") None w in
  let load := LoadContents [["bot"; "out"; "main.lu"]] (JStr "en-us") (JStr "dev")
                (JStr "westus") in
  In load (calls (snd run))
  /\ [["bot"; "out"; "main.lu"]] = modelFiles_of (files w) ["bot"; "out"]
  /\ exists later, calls (snd run) = load :: later /\ Forall not_load later.
Proof.
  cbv zeta.
  assert (Hin : In (LoadContents [["bot"; "out"; "main.lu"]] (JStr "en-us") (JStr "dev")
                      (JStr "westus"))
                  (calls (snd (publishLuis Scenario.cloud Scenario.bot ["bot"; "out"] "mybot"
                                 "dev" "en-us" JUndefined JUndefined JUndefined (JStr "key")
                                 (JStr "westus") None (Scenario.start Scenario.disk))))).
  { vm_compute. left. reflexivity. }
  split; [exact Hin |].
  exact (publishLuis_loads_non_empty_lu_files Scenario.cloud Scenario.bot ["bot"; "out"]
           "mybot" "dev" "en-us" JUndefined JUndefined JUndefined (JStr "key") (JStr "westus")
           None (Scenario.start Scenario.disk) _ _ _ _ _ eq_refl Hin).
Defined.

(** At the scenario in which every call succeeds: one app id, one
    assignment. *)
Lemma publishLuis_assigns_account_to_every_app_witness :
  let workingFolder := ["bot"; "out"] in
  let w := Scenario.start Scenario.disk in
  let w1 := snd (lubuild Scenario.cloud workingFolder "mybot" "dev" "en-us" JUndefined
                   JUndefined (JStr "key") (JStr "westus") w) in
  let w' := snd (publishLuis Scenario.cloud Scenario.bot workingFolder "mybot" "dev" "en-us"
                   JUndefined JUndefined JUndefined (JStr "key") (JStr "westus") None w) in
  let headers := luisHeaders Scenario.bot (JStr "key") in
  truthy (JStr "key") && truthy (JStr "westus") = true
  /\ map (fun f => (f, luis_of_file (files w1) f)) (luisConfigFiles_of (files w1) workingFolder)
     = [ (["bot"; "out"; "generated"; "luis.settings.dev.westus.json"],
          JObj [("Main_en_us_lu", JStr "app-7")]) ]
  /\ exists earlier account,
       Forall not_request earlier
       /\ calls w'
          = (earlier
               ++ [ RpGet "https://westus.api.cognitive.microsoft.com/luis/api/v2.0/azureaccounts"
                      headers;
                    RpPost "https://westus.api.cognitive.microsoft.com/luis/api/v2.0/apps/app-7/azureaccounts"
                      headers account ])%list.
Proof.
  cbv zeta. split; [reflexivity | split; [vm_compute; reflexivity |]].
  assert (Hids : readLuisAppIds
                   (luisConfigFiles_of
                      (files (snd (lubuild Scenario.cloud ["bot"; "out"] "mybot" "dev"
                                     "en-us" JUndefined JUndefined (JStr "key")
                                     (JStr "westus") (Scenario.start Scenario.disk))))
                      ["bot"; "out"]) []
                   (snd (lubuild Scenario.cloud ["bot"; "out"] "mybot" "dev" "en-us"
                           JUndefined JUndefined (JStr "key") (JStr "westus")
                           (Scenario.start Scenario.disk)))
                 = (Ok [("Main_en_us_lu", JStr "app-7")],
                    snd (lubuild Scenario.cloud ["bot"; "out"] "mybot" "dev" "en-us"
                           JUndefined JUndefined (JStr "key") (JStr "westus")
                           (Scenario.start Scenario.disk)))).
  { vm_compute. reflexivity. }
  destruct (publishLuis_assigns_account_to_every_app Scenario.cloud Scenario.bot
              ["bot"; "out"] "mybot" "dev" "en-us" JUndefined JUndefined JUndefined
              (JStr "key") (JStr "westus") None (Scenario.start Scenario.disk)
              (snd (lubuild Scenario.cloud ["bot"; "out"] "mybot" "dev" "en-us" JUndefined
                      JUndefined (JStr "key") (JStr "westus") (Scenario.start Scenario.disk)))
              (snd (publishLuis Scenario.cloud Scenario.bot ["bot"; "out"] "mybot" "dev"
                      "en-us" JUndefined JUndefined JUndefined (JStr "key") (JStr "westus")
                      None (Scenario.start Scenario.disk))))
    as (luisAppIds & response & accountList & account & earlier
        & Hids' & _ & _ & _ & Hearlier & Hcalls).
  { vm_compute. reflexivity. }
  { reflexivity. }
  { vm_compute. reflexivity. }
  { intros f Hin.
    assert (Hfiles : luisConfigFiles_of
                       (files (snd (lubuild Scenario.cloud ["bot"; "out"] "mybot" "dev"
                                      "en-us" JUndefined JUndefined (JStr "key")
                                      (JStr "westus") (Scenario.start Scenario.disk))))
                       ["bot"; "out"]
                     = [["bot"; "out"; "generated"; "luis.settings.dev.westus.json"]])
      by (vm_compute; reflexivity).
    rewrite Hfiles in Hin. destruct Hin as [<- | []].
    assert (Hluis : own_props
                      (luis_of_file
                         (files (snd (lubuild Scenario.cloud ["bot"; "out"] "mybot" "dev"
                                        "en-us" JUndefined JUndefined (JStr "key")
                                        (JStr "westus") (Scenario.start Scenario.disk))))
                         ["bot"; "out"; "generated"; "luis.settings.dev.westus.json"])
                    = [("Main_en_us_lu", JStr "app-7")])
      by (vm_compute; reflexivity).
    rewrite Hluis. constructor; [split; reflexivity | constructor]. }
  { reflexivity. }
  { reflexivity. }
  rewrite Hids in Hids'. injection Hids' as <-.
  exists earlier, account. split; [exact Hearlier |].
  rewrite Hcalls. reflexivity.
Defined.

(** A flag that is [false] and an empty name are lost, the rest comes
    back. *)
Lemma unpackObject_of_packed_witness :
  let fields := [ ("appId", JStr "app-1"); ("useCosmosDb", JBool false);
                  ("botId", JStr ""); ("useStorage", JBool true) ] in
  NoDup (map fst fields)
  /\ Forall (fun kv => plain_key (fst kv) = true) fields
  /\ unpackObject (JObj (map (fun kv => (fst kv, pack (snd kv))) fields))
     = Some [("appId", JStr "app-1"); ("useStorage", JBool true)].
Proof.
  cbv zeta.
  assert (Hnd : NoDup (map fst [ ("appId", JStr "app-1"); ("useCosmosDb", JBool false);
                                 ("botId", JStr ""); ("useStorage", JBool true) ])).
  { simpl. repeat constructor; simpl; intuition discriminate. }
  assert (Hplain : Forall (fun kv => plain_key (fst kv) = true)
                     [ ("appId", JStr "app-1"); ("useCosmosDb", JBool false);
                       ("botId", JStr ""); ("useStorage", JBool true) ]).
  { repeat constructor. }
  split; [exact Hnd | split; [exact Hplain |]].
  exact (unpackObject_of_packed _ Hnd Hplain).
Defined.

(** The build folder of the scenario, archived into the project folder:
    the stale [code.zip] at its top is left out, the folder [packages] and the
    model file are in. *)
Lemma zipDirectory_archives_all_but_code_zip_witness :
  let w := Scenario.start Scenario.disk in
  is_dir (files w) (parent ["bot"; "code.zip"]) = true
  /\ is_dir (files w) ["bot"; "code.zip"] = false
  /\ exists w' entries,
       zipDirectory ["bot"; "out"] ["bot"; "code.zip"] w = (Ok tt, w')
       /\ stat (files w') ["bot"; "code.zip"] = Some (Zip entries)
       /\ In ["packages"] entries /\ In ["main.lu"] entries /\ ~ In ["code.zip"] entries.
Proof.
  cbv zeta. split; [reflexivity | split; [reflexivity |]].
  destruct (zipDirectory_archives_all_but_code_zip ["bot"; "out"] ["bot"; "code.zip"]
              (Scenario.start Scenario.disk) eq_refl eq_refl)
    as (w' & entries & Hrun & Hstat & Hentries & _).
  exists w', entries. split; [exact Hrun | split; [exact Hstat | split; [| split]]].
  - apply Hentries. split; [discriminate | split; [discriminate |]].
    right. exists Dir. simpl. auto 10.
  - apply Hentries. split; [discriminate | split; [discriminate |]].
    right. eexists. simpl. auto 10.
  - intros Hin. apply Hentries in Hin as (_ & Hnot & _). apply Hnot. reflexivity.
Defined.

(** An error with two details, the second one without message. *)
Lemma getErrorMesssage_joins_detail_messages_witness :
  truthy Cases.error_body = true
  /\ getErrorMesssage Scenario.cloud (SdkError Cases.error_body) (Scenario.start [])
     = (Ok "No subscription. undefined", Scenario.start []).
Proof.
  split; [reflexivity |].
  refine (getErrorMesssage_joins_detail_messages Scenario.cloud Cases.error_body _ _
            (Scenario.start []) eq_refl eq_refl eq_refl _).
  constructor; [split; reflexivity |]. constructor; [split; reflexivity |]. constructor.
Defined.

(** Three operations: one that succeeded, one for a resource that is not
    available in the location, one that failed otherwise. *)
Lemma reportFailedOperations_reports_each_failure_witness :
  let w := Scenario.start Scenario.disk in
  Forall reported_operation Cases.operations
  /\ reportFailedOperations Cases.cloud_without_outputs "mybot-dev" "1600000000000" w
     = (Ok tt,
        {| files := files w;
           logged :=
             [ {| ev_status := PROVISION_ERROR;
                  ev_message := MText "! Deployment failed for resource of type Microsoft.CognitiveServices/accounts. This resource is not avaliable in the location provided." |};
               {| ev_status := PROVISION_ERROR;
                  ev_message := MText "! Deployment failed for resource of type Microsoft.DocumentDB/databaseAccounts." |};
               {| ev_status := PROVISION_ERROR; ev_message := MText "! Code: Conflict." |};
               {| ev_status := PROVISION_ERROR;
                  ev_message := MText "! Message: name taken." |} ];
           calls := [DeploymentOperationsList "mybot-dev" "1600000000000"];
           tenantId := tenantId w |}).
Proof.
  cbv zeta.
  assert (Hall : Forall reported_operation Cases.operations).
  { unfold Cases.operations.
    apply Forall_cons; [| apply Forall_cons; [| apply Forall_cons; [| apply Forall_nil]]];
      (split; [reflexivity | split; [reflexivity | split; [reflexivity |]]]).
    - left. reflexivity.
    - right. eexists. reflexivity.
    - right. eexists. reflexivity. }
  split; [exact Hall |].
  exact (reportFailedOperations_reports_each_failure Cases.cloud_without_outputs "mybot-dev"
           "1600000000000" (Scenario.start Scenario.disk) _ Cases.operations eq_refl eq_refl
           Hall).
Defined.

(** The deployment has no outputs: [create] returns [null], and the last
    call it made is the listing of the operations. *)
Lemma create_lists_operations_when_result_is_null_witness :
  let run := create Cases.cloud_without_outputs Scenario.bot "mybot" "westus" "dev" "secret"
               true true true true true (Scenario.start Scenario.disk) in
  fst run = Ok JNull
  /\ exists earlier,
       calls (snd run) = (earlier ++ [DeploymentOperationsList "mybot-dev" "1600000000000"])%list
       /\ Forall not_operations_list earlier.
Proof.
  cbv zeta.
  assert (Hrun : fst (create Cases.cloud_without_outputs Scenario.bot "mybot" "westus" "dev"
                        "secret" true true true true true (Scenario.start Scenario.disk))
                 = Ok JNull).
  { vm_compute. reflexivity. }
  split; [exact Hrun |].
  destruct (create_lists_operations_when_result_is_null Cases.cloud_without_outputs
              Scenario.bot "mybot" "westus" "dev" "secret" true true true true true
              (Scenario.start Scenario.disk) JNull Hrun)
    as (made & Hcalls & _ & earlier & Hmade & Hearlier).
  exists earlier. split; [| exact Hearlier].
  rewrite Hcalls, Hmade. reflexivity.
Defined.

(** A project built with the C# runtime and deployed with the default
    paths: the tools leave the settings and the dialogs in the publish folder,
    and these two are the entries of the archive. *)
Lemma deploy_with_csharp_runtime_archives_publish_folder_witness :
  let w := Scenario.start Scenario.disk_without_luis in
  let run := deploy Cases.cloud_with_csharp_runtime Scenario.bot JNull "mybot" "dev" None None
               None w in
  let upload :=
    RpPostStream "https://mybot-dev.scm.azurewebsites.net/zipdeploy/?isAsync=true" "token"
      ["bot"; "code.zip"] in
  In upload (calls (snd run))
  /\ exists entries,
       stat (files (snd run)) ["bot"; "code.zip"] = Some (Zip entries)
       /\ In ["appsettings.deployment.json"] entries
       /\ In ["ComposerDialogs"] entries
       /\ ~ In ["main.lu"] entries.
Proof.
  cbv zeta.
  assert (Hin : In (RpPostStream
                      "https://mybot-dev.scm.azurewebsites.net/zipdeploy/?isAsync=true" "token"
                      ["bot"; "code.zip"])
                  (calls (snd (deploy Cases.cloud_with_csharp_runtime Scenario.bot JNull
                                 "mybot" "dev" None None None
                                 (Scenario.start Scenario.disk_without_luis))))).
  { vm_compute. right. left. reflexivity. }
  split; [exact Hin |].
  destruct (deploy_with_csharp_runtime_archives_publish_folder Cases.tools
              Cases.cloud_with_csharp_runtime
              {| config_subId := "sub-1";
                 config_accessToken := "token";
                 config_creds := JObj [("clientId", JStr "client")];
                 config_projPath := ["bot"];
                 config_zipPath := None;
                 config_settingsPath := None;
                 config_templatePath := None |}
              JNull "mybot" "dev" None None None (Scenario.start Scenario.disk_without_luis)
              (JObj [("MicrosoftAppId", JStr "app-1")]) _ _ _
              eq_refl eq_refl eq_refl eq_refl eq_refl _ eq_refl Hin)
    as (entries & Hstat & Hentries).
  exists entries. split; [exact Hstat | split; [| split]].
  - apply Hentries. split; [discriminate | split; [discriminate |]].
    eexists. simpl. auto 20.
  - apply Hentries. split; [discriminate | split; [discriminate |]].
    exists Dir. simpl. auto 20.
  - intros Habs. apply Hentries in Habs as (_ & _ & n & Hthere). simpl in Hthere.
    repeat (destruct Hthere as [Habs | Hthere]; [discriminate Habs |]). exact Hthere.
Defined.
